(** * nah: controller runtime and handler dispatch engine

    A shallow embedding of the parts of [pkg/runtime] (the write-through
    client, the per-kind controller, the shared handler chain) and of
    [pkg/router] (the handler set and its response) that the specification
    talks about, together with the properties checked against them.

    Conventions:
    - a Go [string] is a sequence of bytes: [string] of [ascii];
    - a Go [int] / [time.Duration] is a 64-bit integer, carried as [Z];
    - a Go interface value that may be [nil] is an [option];
    - a Go [error] is the inductive [error] below, [nil] being [None];
    - calls that leave the repository (backend, scheme, handlers, triggers,
      save, the token bucket) are Section variables threading an abstract
      world, and every such call is recorded in a chronological event log. *)

From Stdlib Require Import ZArith NArith Bool Ascii QArith.
From stdpp Require Import base gmap strings list.

Local Open Scope Z_scope.

(* ===================================================================== *)
(** ** Go's string primitives *)
(* ===================================================================== *)

Module GoStrings.

(** [len(s)] *)
Definition len (s : string) : nat := String.length s.

(** The numeric value of a byte. *)
Definition byte (c : ascii) : N := N_of_ascii c.

(** [s[i]], with [None] where Go panics (index out of range). *)
Definition at_index (s : string) (i : nat) : option ascii := String.get i s.

(** [strings.HasPrefix(s, prefix)] *)
Definition HasPrefix (s prefix : string) : bool := String.prefix prefix s.

Fixpoint drop_bytes (n : nat) (s : string) : string :=
match n, s with
| O, _ => s
| S n', String _ s' => drop_bytes n' s'
| S _, EmptyString => EmptyString
end.

(** [strings.TrimPrefix(s, prefix)] *)
Definition TrimPrefix (s prefix : string) : string :=
if HasPrefix s prefix then drop_bytes (len prefix) s else s.

(** The first occurrence of [sep] in [s], split around it. *)
Fixpoint cut_at (s sep : string) : option (string * string) :=
if String.prefix sep s then Some (EmptyString, drop_bytes (len sep) s)
else match s with
     | EmptyString => None
     | String c s' =>
         match cut_at s' sep with
         | Some (before, after) => Some (String c before, after)
         | None => None
         end
     end.

(** [strings.Cut(s, sep)]: [(before, after, found)]. *)
Definition Cut (s sep : string) : string * string * bool :=
match cut_at s sep with
| Some (before, after) => (before, after, true)
| None => (s, EmptyString, false)
end.

(** [c] occurs in [s]. *)
Fixpoint has_byte (c : ascii) (s : string) : bool :=
match s with
| EmptyString => false
| String d s' => if Ascii.eqb c d then true else has_byte c s'
end.

(** Go's [a < b] on strings: byte-wise lexicographic. *)
Fixpoint string_lt (a b : string) : bool :=
match a, b with
| _, EmptyString => false
| EmptyString, String _ _ => true
| String c a', String d b' =>
    if (byte c <? byte d)%N then true
    else if (byte d <? byte c)%N then false
    else string_lt a' b'
end.

(** The order [string_lt] is meant to decide. *)
Inductive lex_lt : string -> string -> Prop :=
| lex_lt_nil c s : lex_lt EmptyString (String c s)
| lex_lt_head c d s t : (byte c < byte d)%N -> lex_lt (String c s) (String d t)
| lex_lt_tail c s t : lex_lt s t -> lex_lt (String c s) (String c t).

(** *** [strconv.Atoi] on a 64-bit platform

  Modelled from the Go standard library: an optional sign, then one or
  more decimal digits, and the value must fit an [int]; anything else is
  an error ([None]). *)

Definition digit_of (c : ascii) : option Z :=
let n := byte c in
if ((48 <=? n) && (n <=? 57))%N then Some (Z.of_N n - 48) else None.

Fixpoint parse_digits (acc : Z) (s : string) : option Z :=
match s with
| EmptyString => Some acc
| String c s' =>
    match digit_of c with
    | Some d => parse_digits (acc * 10 + d) s'
    | None => None
    end
end.

Definition parse_unsigned (s : string) : option Z :=
match s with
| EmptyString => None
| _ => parse_digits 0 s
end.

Definition min_int : Z := - 2 ^ 63.
Definition max_int : Z := 2 ^ 63 - 1.

Definition in_int_range (v : Z) : option Z :=
if (min_int <=? v) && (v <=? max_int) then Some v else None.

Definition Atoi (s : string) : option Z :=
match s with
| EmptyString => None
| String c rest =>
    if Ascii.eqb c "-" then
      match parse_unsigned rest with
      | Some n => in_int_range (- n)
      | None => None
      end
    else if Ascii.eqb c "+" then
      match parse_unsigned rest with
      | Some n => in_int_range n
      | None => None
      end
    else
      match parse_unsigned s with
      | Some n => in_int_range n
      | None => None
      end
end.

End GoStrings.

Import GoStrings.

(* ===================================================================== *)
(** ** Objects, kinds and errors *)
(* ===================================================================== *)

(** [schema.GroupVersionKind] *)
Record GroupVersionKind := GVK { Group : string; Version : string; Kind : string }.

#[global] Instance GroupVersionKind_eq_dec : EqDecision GroupVersionKind.
Proof. solve_decision. Defined.

#[global] Instance GroupVersionKind_countable : Countable GroupVersionKind.
Proof.
  refine (inj_countable' (fun g => (Group g, Version g, Kind g))
                         (fun t => GVK t.1.1 t.1.2 t.2) _).
  by intros [].
Defined.

(** A [kclient.Object]: the metadata the runtime reads, plus the user state. *)
Record Object := mkObject {
  obj_gvk : GroupVersionKind;
  obj_namespace : string;
  obj_name : string;
  obj_uid : string;
  obj_resourceVersion : string;
  obj_state : string
}.

Definition GetNamespace := obj_namespace.
Definition GetName := obj_name.
Definition GetUID := obj_uid.
Definition GetResourceVersion := obj_resourceVersion.

(** [DeepCopyObject]: values are immutable here, a copy is the value. *)
Definition DeepCopyObject (o : Object) : Object := o.

(** [kclient.ObjectKey] *)
Record ObjectKey := mkKey { Namespace : string; Name : string }.

(** Go [error] values built or inspected by the runtime. *)
#[warnings="-register-all"]
Inductive error :=
| ErrIgnore                                  (* the sentinel [ErrIgnore] *)
| ErrNotFound (what : string)                (* an API status error, reason NotFound *)
| ErrOther (msg : string)                    (* any other leaf error *)
| ErrWrap (prefix : string) (e : error)      (* a wrapper with [Unwrap() error] *)
| ErrJoin (es : list error)                  (* [errors.Join] *)
| ErrHandler (HandlerName : string) (Err : error)   (* [*handlerError] *)
| ErrList (es : list error).                 (* [errorList] *)

(** [errors.Is(err, ErrIgnore)]: walks [Unwrap] chains; [handlerError] and
    [errorList] only offer [Cause], which [errors.Is] does not follow. *)
Fixpoint Is_ErrIgnore (e : error) : bool :=
  match e with
  | ErrIgnore => true
  | ErrWrap _ e' => Is_ErrIgnore e'
  | ErrJoin es => existsb Is_ErrIgnore es
  | _ => false
  end.

(** [apierrors.IsNotFound(err)], on a non-nil error. *)
Fixpoint IsNotFound_err (e : error) : bool :=
  match e with
  | ErrNotFound _ => true
  | ErrWrap _ e' => IsNotFound_err e'
  | ErrJoin es => existsb IsNotFound_err es
  | _ => false
  end.

(** [apierrors.IsNotFound(err)] *)
Definition IsNotFound (err : option error) : bool :=
  match err with
  | Some e => IsNotFound_err e
  | None => false
  end.

(** [err != nil] *)
Definition is_Some_b {A} (o : option A) : bool :=
  match o with
  | Some _ => true
  | None => false
  end.

(** [errors.Join(a, b)]: nil operands are dropped, all nil gives nil. *)
Definition errors_Join (a b : option error) : option error :=
  match a, b with
  | None, None => None
  | Some x, None => Some (ErrJoin [x])
  | None, Some y => Some (ErrJoin [y])
  | Some x, Some y => Some (ErrJoin [x; y])
  end.

(* ===================================================================== *)
(** ** A state monad for code that calls out of the repository *)
(* ===================================================================== *)

Module Eff.
Definition M (S A : Type) : Type := S -> A * S.

Definition ret {S A} (a : A) : M S A := fun s => (a, s).

Definition bind {S A B} (m : M S A) (k : A -> M S B) : M S B :=
fun s => let '(a, s') := m s in k a s'.

Definition gets {S A} (f : S -> A) : M S A := fun s => (f s, s).

Definition modify {S} (f : S -> S) : M S unit := fun s => (tt, f s).
End Eff.

Declare Scope eff_scope.
Delimit Scope eff_scope with eff.
Notation "'do' x <~ m ; k" := (Eff.bind m (fun x => k))
  (at level 10, x name, m at level 100, k at level 200) : eff_scope.
Notation "'do2' a , b <~ m ; k" := (Eff.bind m (fun '(a, b) => k))
  (at level 10, a name, b name, m at level 100, k at level 200) : eff_scope.

Local Open Scope eff_scope.

(* ===================================================================== *)
(** ** pkg/runtime *)
(* ===================================================================== *)

Module Runtime.

(** *** cached.go: resource-version ordering *)

(** [newer(oldRV, newRV)] *)
Definition newer (oldRV newRV : string) : bool :=
if Nat.eqb (len oldRV) (len newRV) then string_lt oldRV newRV
else
  match Atoi oldRV with
  | None => true
  | Some oldI =>
      match Atoi newRV with
      | None => false
      | Some newI => oldI <? newI
      end
  end.

(** *** controller.go: keys *)

(** [isSpecialKey(key)]; the length test guards both index expressions. *)
Definition isSpecialKey (key : string) : bool :=
(2 <? len key)%nat
&& match at_index key 0, at_index key 2 with
   | Some c0, Some c2 => Ascii.eqb c0 "_" && Ascii.eqb c2 " "
   | _, _ => false
   end.

(** [KeyParse(key)], returning [(namespace, name)]. *)
Definition KeyParse (key : string) : string * string :=
let '(special, rest, ok) := Cut key " " in
let key := if ok then rest else special in
let '(namespace, name, ok) := Cut key "/" in
if ok then (namespace, name) else (EmptyString, namespace).

(** [keyFunc(namespace, name)] *)
Definition keyFunc (namespace name : string) : string :=
if String.eqb namespace "" then name else namespace +:+ "/" +:+ name.

(** A [runtime.Object] interface value that is not the nil interface. *)
Inductive RuntimeObject :=
| TypedNil                      (* a nil pointer boxed in the interface *)
| WithMeta (o : Object)         (* an object with object metadata *)
| NoMeta (payload : string).    (* a value [meta.Accessor] rejects *)

(** *** controller.go: [controller.syncHandler] *)

Section Controller.
Variable World : Type.

(** What the controller did to its collaborators, in order. *)
Inductive CtlEvent :=
| EvCacheGet (key : ObjectKey)
| EvOnChange (key : string) (obj : option RuntimeObject).

Record CtlState := mkCtl { ctl_world : World; ctl_log : list CtlEvent }.

(** [c.handler.OnChange] and [c.cache.Get], and the prototype [c.obj]. *)
Variable handler_OnChange :
string -> option RuntimeObject -> World -> option error * World.
Variable cache_Get : ObjectKey -> Object -> World -> (Object * option error) * World.
Variable c_obj : Object.

Definition call_OnChange (key : string) (obj : option RuntimeObject)
: Eff.M CtlState (option error) :=
fun st =>
let '(err, w) := handler_OnChange key obj (ctl_world st) in
(err, mkCtl w (ctl_log st ++ [EvOnChange key obj])).

Definition call_cache_Get (key : ObjectKey) (obj : Object)
: Eff.M CtlState (Object * option error) :=
fun st =>
let '(r, w) := cache_Get key obj (ctl_world st) in
(r, mkCtl w (ctl_log st ++ [EvCacheGet key])).

Definition syncHandler (key : string) : Eff.M CtlState (option error) :=
if isSpecialKey key then call_OnChange key None
else
let '(ns, name) := KeyParse key in
let obj := DeepCopyObject c_obj in
do2 obj', err <~ call_cache_Get (mkKey ns name) obj;
if IsNotFound err then call_OnChange key None
else
  match err with
  | Some e => Eff.ret (Some e)
  | None => call_OnChange key (Some (WithMeta obj'))
  end.
End Controller.

Arguments mkCtl {World}.
Arguments ctl_world {World}.
Arguments ctl_log {World}.
Arguments syncHandler {World}.

(** *** sharedhandler.go *)

Section SharedHandler.
Variable World : Type.

(** [SharedControllerHandler.OnChange(ctx, key, obj)] *)
Definition SharedControllerHandler : Type :=
string -> option RuntimeObject -> World ->
(option RuntimeObject * option error) * World.

Record handlerEntry := mkEntry {
id : Z;
name : string;
handler : SharedControllerHandler
}.

Record SharedHandler := mkShared {
idCounter : Z;
gvk : GroupVersionKind;
handlers : list handlerEntry
}.

(** [Register]: the next id, appended at the end of the chain. *)
Definition Register (h : SharedHandler) (name : string)
       (handler : SharedControllerHandler) : SharedHandler :=
let id := idCounter h + 1 in
mkShared id (gvk h) (handlers h ++ [mkEntry id name handler]).

(** The function [Register] hands to [context.AfterFunc]: drop the first
entry carrying [id]. *)
Fixpoint remove_entry (i : Z) (l : list handlerEntry) : list handlerEntry :=
match l with
| [] => []
| e :: l' => if Z.eqb (id e) i then l' else e :: remove_entry i l'
end.

(** One call of one handler: what it was given and what it returned. *)
Record Invocation := mkInv {
inv_name : string;
inv_key : string;
inv_obj : option RuntimeObject;
inv_newObj : option RuntimeObject;
inv_err : option error
}.

Record ChainState := mkChain { ch_world : World; ch_log : list Invocation }.

Definition invoke (e : handlerEntry) (key : string) (obj : option RuntimeObject)
: Eff.M ChainState (option RuntimeObject * option error) :=
fun st =>
let '((newObj, err), w) := handler e key obj (ch_world st) in
((newObj, err),
 mkChain w (ch_log st ++ [mkInv (name e) key obj newObj err])).

(** [newObj != nil && !reflect.ValueOf(newObj).IsNil()] *)
Definition non_nil (newObj : option RuntimeObject) : bool :=
match newObj with
| None => false
| Some TypedNil => false
| Some _ => true
end.

(** [meta.Accessor(obj)]: the metadata, or an error. *)
Definition meta_Accessor (o : RuntimeObject) : Object + error :=
match o with
| WithMeta m => inl m
| TypedNil => inr (ErrOther "object does not implement the Object interfaces")
| NoMeta _ => inr (ErrOther "object does not implement the Object interfaces")
end.

(** The body of the loop after the handler returned: the error list and
the object the next handler will see. *)
Definition accumulate (e : handlerEntry) (err : option error) (errs : list error)
: list error :=
match err with
| Some x => if negb (Is_ErrIgnore x) then errs ++ [ErrHandler (name e) x] else errs
| None => errs
end.

Definition thread (obj newObj : option RuntimeObject) : option RuntimeObject :=
if non_nil newObj then
match newObj with
| Some n =>
    match meta_Accessor n with
    | inl meta => if negb (String.eqb (GetUID meta) "") then newObj else obj
    | inr _ => newObj
    end
| None => obj
end
else obj.

Fixpoint OnChange_loop (hs : list handlerEntry) (key : string)
     (obj : option RuntimeObject) (errs : list error)
: Eff.M ChainState (list error) :=
match hs with
| [] => Eff.ret errs
| e :: rest =>
  do2 newObj, err <~ invoke e key obj;
  OnChange_loop rest key (thread obj newObj) (accumulate e err errs)
end.

(** [errorList.ToErr] *)
Definition ToErr (e : list error) : option error :=
match e with
| [] => None
| [x] => Some x
| _ => Some (ErrList e)
end.

(** [SharedHandler.OnChange] *)
Definition OnChange (h : SharedHandler) (key : string) (obj : option RuntimeObject)
: Eff.M ChainState (option error) :=
do errs <~ OnChange_loop (handlers h) key obj [];
Eff.ret (ToErr errs).
End SharedHandler.

Arguments mkEntry {World}.
Arguments id {World}.
Arguments name {World}.
Arguments handler {World}.
Arguments mkShared {World}.
Arguments handlers {World}.
Arguments mkChain {World}.
Arguments ch_world {World}.
Arguments ch_log {World}.
Arguments invoke {World}.
Arguments accumulate {World}.
Arguments OnChange_loop {World}.
Arguments OnChange {World}.
Arguments Register {World}.

(** *** cached.go: the write-through client *)

(** [objectKey]: (gvk, namespace, name). *)
Abbreviation objectKey := (GroupVersionKind * string * string)%type.

Record objectValue := mkValue { ov_Object : Object; Inserted : Z }.

(** The [obj] argument of a client call: a plain object, or one wrapped in
  an [untriggered.Holder], which may ask for an uncached read. *)
Inductive Target :=
| Plain (o : Object)
| Holder (o : Object) (uncached : bool).

Definition target_object (t : Target) : Object :=
match t with
| Plain o => o
| Holder o _ => o
end.

Definition IsUncached (t : Target) : bool :=
match t with
| Plain _ => false
| Holder _ u => u
end.

(** Modelled from the spec: [CopyInto] is defined outside the files shown;
  the spec has the read "return the cached copy", so the destination
  takes a deep copy of the source and no error is raised. *)
Definition CopyInto (dst src : Object) : Object * option error :=
(DeepCopyObject src, None).

Section CacheClient.
Variable World : Type.

(** [c.cached] (informer-backed reads, API writes), [c.uncached],
[apiutil.GVKForObject(obj, c.Scheme())] and [time.Now()]. A call
returns the object as the callee left it behind the pointer. *)
Variable cached_Get : ObjectKey -> Object -> World -> (Object * option error) * World.
Variable uncached_Get : ObjectKey -> Object -> World -> (Object * option error) * World.
Variable cached_Create : Object -> World -> (Object * option error) * World.
Variable uncached_Create : Object -> World -> (Object * option error) * World.
Variable cached_Update : Object -> World -> (Object * option error) * World.
Variable uncached_Update : Object -> World -> (Object * option error) * World.
Variable cached_Delete : Object -> World -> (Object * option error) * World.
Variable uncached_Delete : Object -> World -> (Object * option error) * World.
Variable GVKForObject : Object -> GroupVersionKind + error.
Variable time_Now : World -> Z.

Record cacheClient := mkClient {
recent : gmap objectKey objectValue;
cc_world : World
}.

Definition extern {A} (f : World -> A * World) : Eff.M cacheClient A :=
fun c => let '(a, w) := f (cc_world c) in (a, mkClient (recent c) w).

(** [c.store(obj)] *)
Definition store (obj : Object) : Eff.M cacheClient unit :=
match GVKForObject obj with
| inr _ => Eff.ret tt
| inl gvk =>
  fun c =>
    (tt, mkClient
           (<[(gvk, GetNamespace obj, GetName obj) :=
                mkValue (DeepCopyObject obj) (time_Now (cc_world c))]>
              (recent c))
           (cc_world c))
end.

(** [c.deleteStore(obj)] *)
Definition deleteStore (obj : Object) : Eff.M cacheClient unit :=
match GVKForObject obj with
| inr _ => Eff.ret tt
| inl gvk =>
  Eff.modify (fun c =>
    mkClient (delete (gvk, GetNamespace obj, GetName obj) (recent c))
             (cc_world c))
end.

(** [cacheClient.Get]: the object left in [obj], and the error. *)
Definition Get (key : ObjectKey) (target : Target)
: Eff.M cacheClient (Object * option error) :=
let obj := target_object target in
if IsUncached target then extern (uncached_Get key obj)
else
do2 obj, getErr <~ extern (cached_Get key obj);
if is_Some_b getErr && negb (IsNotFound getErr) then Eff.ret (obj, getErr)
else
  match GVKForObject obj with
  | inr err => Eff.ret (obj, errors_Join getErr (Some err))
  | inl gvk =>
      let cacheKey := (gvk, GetNamespace obj, GetName obj) in
      do cachedObj <~ Eff.gets (fun c => recent c !! cacheKey);
      if IsNotFound getErr then
        match cachedObj with
        | Some v => Eff.ret (CopyInto obj (ov_Object v))
        | None => Eff.ret (obj, getErr)
        end
      else
        match cachedObj with
        | Some v =>
            if newer (GetResourceVersion obj) (GetResourceVersion (ov_Object v))
            then Eff.ret (CopyInto obj (ov_Object v))
            else Eff.ret (obj, None)
        | None => Eff.ret (obj, None)
        end
  end.

(** [cacheClient.Create] *)
Definition Create (target : Target) : Eff.M cacheClient (Object * option error) :=
let obj := target_object target in
if IsUncached target then extern (uncached_Create obj)
else
do2 obj, err <~ extern (cached_Create obj);
match err with
| Some e => Eff.ret (obj, Some e)
| None => do _ <~ store obj; Eff.ret (obj, None)
end.

(** [cacheClient.Update] *)
Definition Update (target : Target) : Eff.M cacheClient (Object * option error) :=
let obj := target_object target in
if IsUncached target then extern (uncached_Update obj)
else
do2 obj, err <~ extern (cached_Update obj);
match err with
| Some e => Eff.ret (obj, Some e)
| None => do _ <~ store obj; Eff.ret (obj, None)
end.

(** [cacheClient.Delete] *)
Definition Delete (target : Target) : Eff.M cacheClient (Object * option error) :=
let obj := target_object target in
if IsUncached target then extern (uncached_Delete obj)
else
do2 obj, err <~ extern (cached_Delete obj);
match err with
| Some e => Eff.ret (obj, Some e)
| None => do _ <~ deleteStore obj; Eff.ret (obj, None)
end.
End CacheClient.

Arguments mkClient {World}.
Arguments recent {World}.
Arguments cc_world {World}.
Arguments store {World}.
Arguments deleteStore {World}.
Arguments Get {World}.
Arguments Create {World}.
Arguments Update {World}.
Arguments Delete {World}.

End Runtime.

(* ===================================================================== *)
(** ** pkg/router *)
(* ===================================================================== *)

Module Router.

Definition TriggerPrefix : string := "_t ".
Definition ReplayPrefix : string := "_r ".

(** [limiterKey{key, gvk}] *)
Abbreviation limiterKey := (string * GroupVersionKind)%type.

(** [triggerRegistry], without the back pointer to the shared [triggers]. *)
Record triggerRegistry := mkRegistry {
tr_gvk : GroupVersionKind;
tr_gvks : gset GroupVersionKind;
tr_key : string
}.

(** [response]; the attribute map plays no part in dispatch. *)
Record response := mkResponse {
delay : Z;
registry : triggerRegistry
}.

(** [response.RetryAfter(delay)] *)
Definition RetryAfter (r : response) (d : Z) : response :=
if (delay r =? 0) || (d <? delay r) then mkResponse d (registry r) else r.

(** [Request], without [Ctx] and the [Client] facade. *)
Record Request := mkRequest {
FromTrigger : bool;
req_GVK : GroupVersionKind;
req_Object : option Object;
req_Namespace : string;
req_Name : string;
req_Key : string
}.

Definition set_Object (req : Request) (o : option Object) : Request :=
mkRequest (FromTrigger req) (req_GVK req) o
          (req_Namespace req) (req_Name req) (req_Key req).

(** [toObject(obj)]; every [runtime.Object] here is a [kclient.Object]. *)
Definition toObject (obj : option Object) : option Object :=
match obj with
| None => None
| Some o => Some (DeepCopyObject o)
end.

(** [ns, name, ok := strings.Cut(key, "/"); if !ok { name = key; ns = "" }] *)
Definition split_key (key : string) : string * string :=
let '(ns, name, ok) := Cut key "/" in
if ok then (ns, name) else (EmptyString, key).

(** [HandlerSet.newRequestResponse] *)
Definition newRequestResponse (gvk : GroupVersionKind) (key : string)
         (runtimeObject : option Object) (trigger : bool)
: Request * response * option error :=
let obj := toObject runtimeObject in
let '(ns, name) := split_key key in
let triggerRegistry := mkRegistry gvk ∅ key in
let resp := mkResponse 0 triggerRegistry in
let req := mkRequest trigger gvk obj ns name key in
(req, resp, None).

(** The prefix decoding at the head of [onChange]:
  [(fromTrigger, fromReplay, key)]. *)
Definition decode_key (key : string) : bool * bool * string :=
let '(fromTrigger, key) :=
  if HasPrefix key TriggerPrefix
  then (true, TrimPrefix key TriggerPrefix) else (false, key) in
if HasPrefix key ReplayPrefix
then (false, true, TrimPrefix key ReplayPrefix)
else (fromTrigger, false, key).

(** Calls that leave [HandlerSet], in the order they were made. *)
Inductive Event :=
| EvHandles (req : Request)
| EvHandle (req : Request)
| EvOnError (req : Request) (err : option error)
| EvUnregisterAndTrigger (req : Request)
| EvTrigger (req : Request)
| EvSave (unmodified : option Object) (req : Request)
| EvBackendTrigger (gvk : GroupVersionKind) (key : string) (delay : Z)
| EvBackendGet (key : ObjectKey)
| EvReserve (lKey : limiterKey)
| EvLock (lockKey : string)
| EvUnlock (lockKey : string).

Section HandlerSet.
Variable World : Type.
(** [*rate.Limiter], [rate.NewLimiter(limit, burst)] and
[limit.Reserve().Delay()], which reads the clock and moves the
bucket. *)
Variable Limiter : Type.
Variable NewLimiter : Q -> Z -> Limiter.
Variable Reserve_Delay : Limiter -> World -> Z * Limiter.

(** [m.scheme.New], [m.backend.Get], [m.backend.Trigger]. *)
Variable scheme_New : GroupVersionKind -> Object + error.
Variable backend_Get : ObjectKey -> Object -> World -> (Object * option error) * World.
Variable backend_Trigger :
GroupVersionKind -> string -> Z -> World -> option error * World.

(** [m.handlers.Handles], [m.handlers.Handle] (which may edit the object
behind [req.Object] and the response), [m.onError],
[m.triggers.UnregisterAndTrigger], [m.triggers.Trigger] and
[m.save.save]. *)
Variable handlers_Handles : Request -> World -> bool.
Variable handlers_Handle :
Request -> response -> World -> ((Object -> Object) * response * option error) * World.
Variable onError :
option (Request -> response -> option error -> World ->
      (response * option error) * World).
Variable triggers_UnregisterAndTrigger : Request -> World -> World.
Variable triggers_Trigger : Request -> World -> World.
Variable save_save :
option Object -> Request -> World -> (option Object * option error) * World.

(** The mutable part of [HandlerSet], the goroutines parked in
[time.Sleep] by [checkDelay], the world and the log. *)
Record HandlerSet := mkHS {
limiters : gmap limiterKey Limiter;
waiting : gset limiterKey;
sleeping : list (limiterKey * Z);
world : World;
log : list Event
}.

Definition extern {A} (ev : Event) (f : World -> A * World) : Eff.M HandlerSet A :=
fun m =>
let '(a, w) := f (world m) in
(a, mkHS (limiters m) (waiting m) (sleeping m) w (log m ++ [ev])).

Definition emit (ev : Event) : Eff.M HandlerSet unit :=
extern ev (fun w => (tt, w)).

Definition set_limiter (lKey : limiterKey) (l : Limiter) : Eff.M HandlerSet unit :=
Eff.modify (fun m =>
mkHS (<[lKey := l]> (limiters m)) (waiting m) (sleeping m) (world m) (log m)).

Definition set_waiting (f : gset limiterKey -> gset limiterKey) : Eff.M HandlerSet unit :=
Eff.modify (fun m =>
mkHS (limiters m) (f (waiting m)) (sleeping m) (world m) (log m)).

(** [go func() { time.Sleep(delay); ... }()] *)
Definition spawn_sleeper (lKey : limiterKey) (d : Z) : Eff.M HandlerSet unit :=
Eff.modify (fun m =>
mkHS (limiters m) (waiting m) (sleeping m ++ [(lKey, d)]) (world m) (log m)).

(** What the goroutine does once [time.Sleep] returns. *)
Definition after_sleep (lKey : limiterKey) : Eff.M HandlerSet unit :=
do _ <~ set_waiting (fun w => w ∖ {[lKey]});
do _ <~ extern (EvBackendTrigger lKey.2 (ReplayPrefix +:+ lKey.1) 0)
             (backend_Trigger lKey.2 (ReplayPrefix +:+ lKey.1) 0);
Eff.ret tt.

(** The [i]-th parked goroutine wakes up and runs to its end. *)
Definition wake (i : nat) : Eff.M HandlerSet unit :=
do parked <~ Eff.gets sleeping;
match parked !! i with
| None => Eff.ret tt
| Some (lKey, _) =>
  do _ <~ Eff.modify (fun m =>
            mkHS (limiters m) (waiting m) (delete i (sleeping m))
                 (world m) (log m));
  after_sleep lKey
end.

(** [HandlerSet.checkDelay] *)
Definition checkDelay (gvk : GroupVersionKind) (key : string) : Eff.M HandlerSet bool :=
let lKey := (key, gvk) in
do w <~ Eff.gets waiting;
if decide (lKey ∈ w) then Eff.ret false
else
do known <~ Eff.gets (fun m => limiters m !! lKey);
do limit <~ match known with
            | Some l => Eff.ret l
            | None =>
                let l := NewLimiter (1 # 5) 10 in
                do _ <~ set_limiter lKey l;
                Eff.ret l
            end;
do2 d, limit' <~ extern (EvReserve lKey) (fun w => (Reserve_Delay limit w, w));
do _ <~ set_limiter lKey limit';
if d >? 0 then
  do _ <~ set_waiting (fun w => {[lKey]} ∪ w);
  do _ <~ spawn_sleeper lKey d;
  Eff.ret false
else Eff.ret true.

(** [HandlerSet.forgetBackoff] *)
Definition forgetBackoff (gvk : GroupVersionKind) (key : string) : Eff.M HandlerSet unit :=
Eff.modify (fun m =>
mkHS (delete (key, gvk) (limiters m)) (waiting m) (sleeping m) (world m) (log m)).

(** [HandlerSet.handleError] *)
Definition handleError (req : Request) (resp : response) (err : option error)
: Eff.M HandlerSet (response * option error) :=
match onError with
| Some f => extern (EvOnError req err) (f req resp err)
| None => Eff.ret (resp, err)
end.

(** The subscription step of [handle]: lines "if unmodifiedObject == nil
... else if !req.FromTrigger ...". *)
Definition update_triggers (unmodifiedObject : option Object) (req : Request)
: Eff.M HandlerSet unit :=
match unmodifiedObject with
| None =>
  extern (EvUnregisterAndTrigger req)
         (fun w => (tt, triggers_UnregisterAndTrigger req w))
| Some _ =>
  if negb (FromTrigger req)
  then extern (EvTrigger req) (fun w => (tt, triggers_Trigger req w))
  else Eff.ret tt
end.

(** The last statement of [handle]; [err] is the outer variable, still
the nil that [newRequestResponse] returned. *)
Definition finish (req : Request) (resp : response) (err : option error)
: Eff.M HandlerSet (option Object * option error) :=
do2 _, e <~ handleError req resp err;
Eff.ret (req_Object req, e).

(** The first [if handles { ... }] block of [handle]: the request and
response as the chain left them, and the error that aborts the
dispatch, if any. *)
Definition run_handlers (handles : bool) (req : Request) (resp : response)
: Eff.M HandlerSet (Request * response * option error) :=
if handles then
do2 out, herr <~ extern (EvHandle req) (handlers_Handle req resp);
let req := set_Object req (out.1 <$> req_Object req) in
match herr with
| Some e =>
    do2 resp, e' <~ handleError req out.2 (Some e);
    Eff.ret (req, resp, e')
| None => Eff.ret (req, out.2, None)
end
else Eff.ret (req, resp, None).

(** The second [if handles { ... }] block of [handle] and its return. *)
Definition save_and_retry (handles : bool) (gvk : GroupVersionKind) (key : string)
       (unmodifiedObject : option Object) (req : Request) (resp : response)
       (err : option error)
: Eff.M HandlerSet (option Object * option error) :=
if handles then
do2 newObj, serr <~ extern (EvSave unmodifiedObject req)
                          (save_save unmodifiedObject req);
do2 resp, abort <~
  match serr with
  | Some e => handleError req resp (Some e)
  | None => Eff.ret (resp, None)
  end;
match abort with
| Some e => Eff.ret (None, Some e)
| None =>
    let req := set_Object req newObj in
    if delay resp >? 0 then
      do terr <~ extern (EvBackendTrigger gvk key (delay resp))
                        (backend_Trigger gvk key (delay resp));
      match terr with
      | Some e => Eff.ret (None, Some e)
      | None => finish req resp err
      end
    else finish req resp err
end
else finish req resp err.

(** [HandlerSet.handle] *)
Definition handle (gvk : GroupVersionKind) (key : string)
       (unmodifiedObject : option Object) (trigger : bool)
: Eff.M HandlerSet (option Object * option error) :=
let '(req, resp, err) := newRequestResponse gvk key unmodifiedObject trigger in
match err with
| Some e => Eff.ret (None, Some e)
| None =>
  do handles <~ extern (EvHandles req) (fun w => (handlers_Handles req w, w));
  do ran <~ run_handlers handles req resp;
  let '(req, resp, abort) := ran in
  match abort with
  | Some e => Eff.ret (None, Some e)
  | None =>
      do _ <~ update_triggers unmodifiedObject req;
      save_and_retry handles gvk key unmodifiedObject req resp err
  end
end.

(** [handle] up to and including the handler chain: whether handlers are
registered, and the request, the response and the aborting error as the
chain (and the error callback) left them. *)
Definition handle_prologue (gvk : GroupVersionKind) (key : string)
       (unmodifiedObject : option Object) (trigger : bool)
: Eff.M HandlerSet (bool * (Request * response * option error)) :=
let '(req, resp, _) := newRequestResponse gvk key unmodifiedObject trigger in
do handles <~ extern (EvHandles req) (fun w => (handlers_Handles req w, w));
do ran <~ run_handlers handles req resp;
Eff.ret (handles, ran).

(** [HandlerSet.onChange] from the lock onwards; the deferred unlock
runs on every way out. *)
Definition locked_dispatch (gvk : GroupVersionKind) (key : string)
       (obj : Object) (runtimeObject : option Object) (fromTrigger : bool)
: Eff.M HandlerSet (option Object * option error) :=
let '(ns, name) := split_key key in
do2 obj, err <~ extern (EvBackendGet (mkKey ns name))
                    (backend_Get (mkKey ns name) obj);
let fresh :=
match err with
| None => inl (Some obj)
| Some e => if negb (IsNotFound err) then inr e else inl runtimeObject
end in
match fresh with
| inr e => Eff.ret (None, Some e)
| inl runtimeObject =>
  do _ <~ match runtimeObject with
          | None => forgetBackoff gvk key
          | Some _ => Eff.ret tt
          end;
  handle gvk key runtimeObject fromTrigger
end.

(** [HandlerSet.onChange] once the gate let the dispatch through. *)
Definition after_gate (gvk : GroupVersionKind) (key : string)
       (runtimeObject : option Object) (fromTrigger : bool)
: Eff.M HandlerSet (option Object * option error) :=
match scheme_New gvk with
| inr e => Eff.ret (None, Some e)
| inl obj =>
  let lockKey := Kind gvk +:+ " " +:+ key in
  do _ <~ emit (EvLock lockKey);
  do r <~ locked_dispatch gvk key obj runtimeObject fromTrigger;
  do _ <~ emit (EvUnlock lockKey);
  Eff.ret r
end.

(** [HandlerSet.onChange] *)
Definition onChange (gvk : GroupVersionKind) (key : string)
       (runtimeObject : option Object)
: Eff.M HandlerSet (option Object * option error) :=
let '(fromTrigger, fromReplay, key) := decode_key key in
do proceed <~
(if negb fromReplay && negb fromTrigger
 then checkDelay gvk key else Eff.ret true);
if negb proceed then Eff.ret (runtimeObject, None)
else after_gate gvk key runtimeObject fromTrigger.
End HandlerSet.

Arguments mkHS {World Limiter}.
Arguments limiters {World Limiter}.
Arguments waiting {World Limiter}.
Arguments sleeping {World Limiter}.
Arguments world {World Limiter}.
Arguments log {World Limiter}.
Arguments after_sleep {World Limiter}.
Arguments wake {World Limiter}.
Arguments checkDelay {World Limiter}.
Arguments forgetBackoff {World Limiter}.
Arguments handleError {World Limiter}.
Arguments update_triggers {World Limiter}.
Arguments run_handlers {World Limiter}.
Arguments save_and_retry {World Limiter}.
Arguments finish {World Limiter}.
Arguments handle {World Limiter}.
Arguments handle_prologue {World Limiter}.
Arguments extern {World Limiter A}.
Arguments emit {World Limiter}.
Arguments after_gate {World Limiter}.
Arguments locked_dispatch {World Limiter}.
Arguments onChange {World Limiter}.

End Router.

(* ===================================================================== *)
(** ** Vocabulary of the properties, and small concrete collaborators *)
(* ===================================================================== *)

(** [key] is "_", one byte, a space, and anything after. *)
Definition marker_shaped (key : string) : Prop :=
  exists (c : ascii) (rest : string), key = String "_" (String c (String " " rest)).

(** An ASCII letter. *)
Definition is_ascii_letter (c : ascii) : bool :=
  ((65 <=? byte c) && (byte c <=? 90) || (97 <=? byte c) && (byte c <=? 122))%N.

(** [key] is "_", one ASCII letter, a space, and anything after. *)
Definition letter_marker_shaped (key : string) : bool :=
  match key with
  | String u (String c (String sp _)) =>
      Ascii.eqb u "_" && is_ascii_letter c && Ascii.eqb sp " "
  | _ => false
  end.

(** The handler is called once with [obj], starting from world [w], after
    the log [l]. *)
Definition handler_called {World : Type}
           (handler_OnChange :
              string -> option Runtime.RuntimeObject -> World -> option error * World)
           (key : string) (obj : option Runtime.RuntimeObject)
           (w : World) (l : list Runtime.CtlEvent)
  : option error * Runtime.CtlState World :=
  (fst (handler_OnChange key obj w),
   Runtime.mkCtl (snd (handler_OnChange key obj w)) (l ++ [Runtime.EvOnChange key obj])).

(** A controller whose handler and cache do nothing, over a one-point world. *)
Definition idle_handler (key : string) (obj : option Runtime.RuntimeObject) (w : unit)
  : option error * unit := (None, w).
Definition empty_cache (key : ObjectKey) (obj : Object) (w : unit)
  : (Object * option error) * unit := ((obj, Some (ErrNotFound (Name key))), w).
Definition blank (gvk : GroupVersionKind) : Object := mkObject gvk "" "" "" "" "".
Definition Foo : GroupVersionKind := GVK "example.io" "v1" "Foo".
Definition Bar : GroupVersionKind := GVK "example.io" "v1" "Bar".

(** *** The shared chain, read off its log *)

(** The error list the chain must end with, from what the handlers
    returned: every error that is not the ignore sentinel, under the name of
    the handler that returned it. *)
Definition reported (i : Runtime.Invocation) : option error :=
  match Runtime.inv_err i with
  | Some e => if Is_ErrIgnore e then None else Some (ErrHandler (Runtime.inv_name i) e)
  | None => None
  end.

Definition collected (invs : list Runtime.Invocation) : list error :=
  omap reported invs.

(** Each handler was given the object left by the ones before it. *)
Fixpoint threaded (obj : option Runtime.RuntimeObject) (invs : list Runtime.Invocation)
  : Prop :=
  match invs with
  | [] => True
  | i :: rest =>
      Runtime.inv_obj i = obj
      /\ threaded (Runtime.thread obj (Runtime.inv_newObj i)) rest
  end.

(** Handlers over a one-point world that return a fixed object and error. *)
Definition fixed_handler (newObj : option Runtime.RuntimeObject) (err : option error)
  : Runtime.SharedControllerHandler unit :=
  fun _ _ w => ((newObj, err), w).

Definition chain_of (hs : list (Runtime.handlerEntry unit))
  : Runtime.SharedHandler unit :=
  Runtime.mkShared (Z.of_nat (length hs)) Foo hs.

(** An object returned by a handler before the store gave it an identity,
    and one that has it. *)
Definition unsaved : Object := mkObject Foo "foo" "a" "" "" "new".
Definition saved : Object := mkObject Foo "foo" "a" "uid-1" "7" "new".

Definition two_handlers (first : option Runtime.RuntimeObject) : Runtime.SharedHandler unit :=
  chain_of [Runtime.mkEntry 1 "first" (fixed_handler first None);
            Runtime.mkEntry 2 "second" (fixed_handler None None)].

(** *** A cluster whose informer lags behind the API server

    The API server holds what was written; the informer store holds what
    the watch has delivered so far. Reads through the cached client see the
    informer store and, as the informer's reader does, leave the target
    untouched when the key is absent; writes go to the API server, which
    stamps a UID and a resource version. *)
Module LaggingInformer.
Record Cluster := mkCluster {
api : gmap (GroupVersionKind * string * string) Object;
informer : gmap (GroupVersionKind * string * string) Object;
clock : Z
}.

Definition read_from (store : Cluster -> gmap (GroupVersionKind * string * string) Object)
         (key : ObjectKey) (obj : Object) (w : Cluster)
: (Object * option error) * Cluster :=
match store w !! (obj_gvk obj, Namespace key, Name key) with
| Some found => ((found, None), w)
| None => ((obj, Some (ErrNotFound (Name key))), w)
end.

Definition cached_Get := read_from informer.
Definition uncached_Get := read_from api.

Definition stamp (obj : Object) (rv : string) : Object :=
mkObject (obj_gvk obj) (obj_namespace obj) (obj_name obj)
         ("uid-" +:+ obj_name obj) rv (obj_state obj).

Definition api_Create (obj : Object) (w : Cluster) : (Object * option error) * Cluster :=
let k := (obj_gvk obj, obj_namespace obj, obj_name obj) in
match api w !! k with
| Some _ => ((obj, Some (ErrOther "already exists")), w)
| None =>
    let created := stamp obj "1" in
    ((created, None), mkCluster (<[k := created]> (api w)) (informer w) (clock w))
end.

Definition GVKForObject (obj : Object) : GroupVersionKind + error := inl (obj_gvk obj).

Definition Get := Runtime.Get cached_Get uncached_Get GVKForObject.
Definition Create := Runtime.Create api_Create api_Create GVKForObject clock.

(** An empty cluster at time 100, and a client with nothing cached. *)
Definition empty_cluster : Cluster := mkCluster ∅ ∅ 100.
Definition fresh_client : Runtime.cacheClient Cluster := Runtime.mkClient ∅ empty_cluster.

(** The object a handler creates, and the client right after. *)
Definition bar_b : Object := mkObject Bar "foo" "b" "" "" "spec".
Definition after_create : Runtime.cacheClient Cluster := (Create (Runtime.Plain bar_b) fresh_client).2.
End LaggingInformer.

(** *** The dispatch engine, read off its log *)

(** [c] only appends to the log, and every event it appends satisfies [P]. *)
Definition emits {World Limiter A : Type} (P : Router.Event -> Prop)
           (c : Eff.M (Router.HandlerSet World Limiter) A) : Prop :=
  forall m, exists evs,
    Router.log (c m).2 = Router.log m ++ evs /\ Forall P evs.

(** The two fan-out calls into the trigger registry. *)
Definition is_Trigger (ev : Router.Event) : bool :=
  match ev with
  | Router.EvTrigger _ => true
  | _ => false
  end.

Definition is_UnregisterAndTrigger (ev : Router.Event) : bool :=
  match ev with
  | Router.EvUnregisterAndTrigger _ => true
  | _ => false
  end.

Definition no_fanout (ev : Router.Event) : Prop :=
  is_Trigger ev = false /\ is_UnregisterAndTrigger ev = false.

(** How often [p] holds along a log. *)
Definition count (p : Router.Event -> bool) (evs : list Router.Event) : nat :=
  length (filter (fun ev => p ev = true) evs).


(** The request logged by a dispatch has a nil object exactly when the
    fresh read said not-found and the event carried no object. *)
Definition request_nil_iff_gone (getErr : option error) (runtimeObject : option Object)
           (ev : Router.Event) : Prop :=
  match ev with
  | Router.EvHandles req =>
      Router.req_Object req = None
      <-> (IsNotFound getErr = true /\ runtimeObject = None)
  | _ => True
  end.

(** The gate only ever logs its own token reservation. *)
Definition is_reserve (lKey : string * GroupVersionKind) (ev : Router.Event) : Prop :=
  ev = Router.EvReserve lKey.

(** An event other than the request check that opens [handle]. *)
Definition not_a_request (ev : Router.Event) : Prop :=
  match ev with
  | Router.EvHandles _ => False
  | _ => True
  end.

(** *** A dispatch engine over a one-point world

    A bucket of [burst] tokens that never refills: each reservation takes
    one token, and asks for five seconds once the bucket is empty. *)
Module Bench.
Definition NewLimiter (limit : Q) (burst : Z) : Z := burst.
Definition Reserve_Delay (tokens : Z) (w : unit) : Z * Z :=
  if tokens >? 0 then (0, tokens - 1) else (5000000000, tokens).

Definition scheme_New (gvk : GroupVersionKind) : Object + error := inl (blank gvk).
Definition gone (key : ObjectKey) (obj : Object) (w : unit)
  : (Object * option error) * unit := ((obj, Some (ErrNotFound (Name key))), w).
Definition backend_Trigger (gvk : GroupVersionKind) (key : string) (d : Z) (w : unit)
  : option error * unit := (None, w).
Definition Handles (req : Router.Request) (w : unit) : bool := true.
(** A chain that fails, and one that asks for a retry in [d]. *)
Definition failing (req : Router.Request) (resp : Router.response) (w : unit)
  : ((Object -> Object) * Router.response * option error) * unit :=
  ((fun o => o, resp, Some (ErrOther "boom")), w).
Definition retrying (d : Z) (req : Router.Request) (resp : Router.response) (w : unit)
  : ((Object -> Object) * Router.response * option error) * unit :=
  ((fun o => o, Router.RetryAfter resp d, None), w).
Definition registry_noop (req : Router.Request) (w : unit) : unit := w.
Definition save_noop (unmodified : option Object) (req : Router.Request) (w : unit)
  : (option Object * option error) * unit := ((Router.req_Object req, None), w).

Definition handle chain :=
  Router.handle (Limiter := Z) backend_Trigger Handles chain None
                registry_noop registry_noop save_noop.
Definition onChange chain :=
  Router.onChange NewLimiter Reserve_Delay scheme_New gone backend_Trigger Handles chain
                  None registry_noop registry_noop save_noop.
Definition checkDelay := Router.checkDelay (World := unit) NewLimiter Reserve_Delay.

Definition idle : Router.HandlerSet unit Z := Router.mkHS ∅ ∅ [] tt [].
Definition foo_a : Object := mkObject Foo "foo" "a" "uid-a" "3" "spec".
Definition request (obj : option Object) (trigger : bool) : Router.Request :=
  Router.mkRequest trigger Foo obj "foo" "a" "foo/a".
End Bench.

(** [n] dispatches of the same key knock at the gate, one after the other:
    the answers, and the engine afterwards. *)
Fixpoint knock (n : nat) (m : Router.HandlerSet unit Z) : list bool * Router.HandlerSet unit Z :=
  match n with
  | O => ([], m)
  | S n' =>
      let '(ok, m1) := Bench.checkDelay Foo "foo/a" m in
      let '(oks, m2) := knock n' m1 in
      (ok :: oks, m2)
  end.

(* ===================================================================== *)
(** ** Further vocabulary: decimal resource versions *)
(* ===================================================================== *)

(** [s] is made of decimal digits only. *)
Fixpoint all_digits (s : string) : bool :=
  match s with
  | EmptyString => true
  | String c s' => is_Some_b (digit_of c) && all_digits s'
  end.

(** The number a digit string denotes, most significant digit first. *)
Fixpoint digits_value (s : string) : Z :=
  match s with
  | EmptyString => 0
  | String c s' => default 0 (digit_of c) * 10 ^ Z.of_nat (len s') + digits_value s'
  end.

(* ===================================================================== *)
(** ** pkg/runtime, cached.go: the purge loop *)
(* ===================================================================== *)

Module CachePurge.
(** [cacheDuration = 10 * time.Second], in nanoseconds. *)
Definition cacheDuration : Z := 10 * 1000000000.

(** [v.Inserted.Add(cacheDuration).Before(now)] *)
Definition expired (now : Z) (v : Runtime.objectValue) : bool :=
  Runtime.Inserted v + cacheDuration <? now.

(** One round of the loop in [startPurge], after the timer fired: every
    entry that expired is deleted from the map. *)
Definition purge (now : Z) (recent : gmap (GroupVersionKind * string * string) Runtime.objectValue)
  : gmap (GroupVersionKind * string * string) Runtime.objectValue :=
  filter (fun kv => expired now kv.2 = false) recent.

Definition purge_round {World : Type} (time_Now : World -> Z)
  : Eff.M (Runtime.cacheClient World) unit :=
  Eff.modify (fun c =>
    Runtime.mkClient (purge (time_Now (Runtime.cc_world c)) (Runtime.recent c))
                     (Runtime.cc_world c)).
End CachePurge.

(** *** More of the lagging cluster: updates, deletes and a watch delivery *)
Module LaggingWrites.
Import LaggingInformer.

(** The API server replaces a stored object and moves its version on. *)
Definition api_Update (obj : Object) (w : Cluster) : (Object * option error) * Cluster :=
  let k := (obj_gvk obj, obj_namespace obj, obj_name obj) in
  match api w !! k with
  | None => ((obj, Some (ErrNotFound (obj_name obj))), w)
  | Some old =>
      let updated := stamp obj (obj_resourceVersion old +:+ "0") in
      ((updated, None), mkCluster (<[k := updated]> (api w)) (informer w) (clock w))
  end.

Definition api_Delete (obj : Object) (w : Cluster) : (Object * option error) * Cluster :=
  let k := (obj_gvk obj, obj_namespace obj, obj_name obj) in
  match api w !! k with
  | None => ((obj, Some (ErrNotFound (obj_name obj))), w)
  | Some _ => ((obj, None), mkCluster (delete k (api w)) (informer w) (clock w))
  end.

(** The watch catches up: the informer store now mirrors the API server. *)
Definition deliver (c : Runtime.cacheClient Cluster) : Runtime.cacheClient Cluster :=
  Runtime.mkClient (Runtime.recent c)
    (mkCluster (api (Runtime.cc_world c)) (api (Runtime.cc_world c))
               (clock (Runtime.cc_world c))).

Definition Update := Runtime.Update api_Update api_Update GVKForObject clock.
Definition Delete := Runtime.Delete api_Delete api_Delete GVKForObject.

(** The informer has seen the created object; then the object is updated
    and the informer has not seen that yet. *)
Definition seen_create : Runtime.cacheClient Cluster := deliver after_create.
Definition bar_b_edited : Object := mkObject Bar "foo" "b" "" "" "edited".
Definition after_update : Runtime.cacheClient Cluster :=
  (Update (Runtime.Plain bar_b_edited) seen_create).2.
Definition after_delete : Runtime.cacheClient Cluster :=
  (Delete (Runtime.Plain bar_b) after_create).2.
End LaggingWrites.

(* ===================================================================== *)
(** ** pkg/runtime, controller.go: queues, buffered keys and work items *)
(* ===================================================================== *)

Module Controller.

(** What sits in a work queue is an [any]: a string key, or something else. *)
Inductive Item :=
| ItemKey (key : string)
| ItemOther (what : string).

(** The calls a [workqueue.TypedRateLimitingInterface] receives; a queue
    is carried as the list of calls made on it, oldest first. *)
Inductive QueueOp :=
| QAdd (key : string)
| QAddAfter (key : string) (after : Z)
| QAddRateLimited (key : string)
| QForget (item : Item)
| QDone (item : Item).

Record startKey := mkStartKey { sk_key : string; sk_after : Z }.

(** The enqueue side of [controller]: [workqueues] is nil until [run]
    makes the slice. *)
Record controller := mkController {
  workqueues : option (list (list QueueOp));
  startKeys : list startKey
}.

(** [qs[i].op], with [None] where Go panics (index out of range). *)
Definition on_queue (qs : list (list QueueOp)) (i : Z) (op : QueueOp)
  : option (list (list QueueOp)) :=
  if (0 <=? i) && (i <? Z.of_nat (length qs))
  then Some (alter (fun q => q ++ [op]) (Z.to_nat i) qs)
  else None.

(** What [run] does with a buffered key: [Add] when [after] is zero,
    [AddAfter] otherwise. *)
Definition start_op (start : startKey) : QueueOp :=
  if sk_after start =? 0 then QAdd (sk_key start)
  else QAddAfter (sk_key start) (sk_after start).

Section Splitter.
(** [c.splitter.Queues()] and [c.splitter.Split(key)]. *)
Variable Queues : Z.
Variable Split : string -> Z.

(** [controller.EnqueueKeyAfter] *)
Definition EnqueueKeyAfter (key : string) (after : Z) (c : controller) : option controller :=
  match workqueues c with
  | None => Some (mkController None (startKeys c ++ [mkStartKey key after]))
  | Some qs =>
      match on_queue qs (Split key) (QAddAfter key after) with
      | Some qs' => Some (mkController (Some qs') (startKeys c))
      | None => None
      end
  end.

(** [controller.EnqueueKey] *)
Definition EnqueueKey (key : string) (c : controller) : option controller :=
  EnqueueKeyAfter key 0 c.

(** [controller.EnqueueAfter]: the same body on [keyFunc(namespace, name)]. *)
Definition EnqueueAfter (namespace name : string) (duration : Z) (c : controller)
  : option controller :=
  let key := Runtime.keyFunc namespace name in
  match workqueues c with
  | None => Some (mkController None (startKeys c ++ [mkStartKey key duration]))
  | Some qs =>
      match on_queue qs (Split key) (QAddAfter key duration) with
      | Some qs' => Some (mkController (Some qs') (startKeys c))
      | None => None
      end
  end.

(** [controller.Enqueue] *)
Definition Enqueue (namespace name : string) (c : controller) : option controller :=
  EnqueueAfter namespace name 0 c.

(** [clientgocache.MetaNamespaceKeyFunc], modelled from client-go on an
    object with metadata: "namespace/name", or "name" when the namespace is
    empty, which is what [keyFunc] builds. *)
Definition MetaNamespaceKeyFunc (obj : Object) : string :=
  Runtime.keyFunc (GetNamespace obj) (GetName obj).

(** [controller.enqueue], on an object with metadata: the key goes in with
    a zero [after] before the queues exist, with [Add] afterwards. *)
Definition enqueue (obj : Object) (c : controller) : option controller :=
  let key := MetaNamespaceKeyFunc obj in
  match workqueues c with
  | None => Some (mkController None (startKeys c ++ [mkStartKey key 0]))
  | Some qs =>
      match on_queue qs (Split key) (QAdd key) with
      | Some qs' => Some (mkController (Some qs') (startKeys c))
      | None => None
      end
  end.

(** What the informer hands to [handleObject]: an object, a
    [DeletedFinalStateUnknown] tombstone around anything, or something
    else. *)
Inductive Delivered :=
| DObject (obj : Object)
| DTombstone (inner : Delivered)
| DOther.

(** [controller.handleObject]: one tombstone is opened, anything that is
    not an object by then is logged and dropped. *)
Definition handleObject (obj : Delivered) (c : controller) : option controller :=
  match obj with
  | DObject o => enqueue o c
  | DTombstone (DObject o) => enqueue o c
  | DTombstone _ => Some c
  | DOther => Some c
  end.

(** The loop over [c.startKeys] in [run]. *)
Fixpoint flush_keys (starts : list startKey) (qs : list (list QueueOp))
  : option (list (list QueueOp)) :=
  match starts with
  | [] => Some qs
  | start :: rest =>
      match on_queue qs (Split (sk_key start)) (start_op start) with
      | Some qs' => flush_keys rest qs'
      | None => None
      end
  end.

(** The head of [controller.run]: make [Queues()] queues, hand them the
    buffered keys, clear the buffer. [make] panics on a negative length. *)
Definition run_start (c : controller) : option controller :=
  if Queues <? 0 then None
  else
    match flush_keys (startKeys c) (replicate (Z.to_nat Queues) []) with
    | Some qs => Some (mkController (Some qs) [])
    | None => None
    end.

(** [key] may index the queues. *)
Definition in_range (start : startKey) : Prop :=
  0 <= Split (sk_key start) < Queues.

(** A run of [EnqueueKeyAfter] calls, one after the other. *)
Fixpoint enqueue_all (calls : list startKey) (c : controller) : option controller :=
  match calls with
  | [] => Some c
  | call :: rest =>
      match EnqueueKeyAfter (sk_key call) (sk_after call) c with
      | Some c' => enqueue_all rest c'
      | None => None
      end
  end.
End Splitter.

(** [workers = workers / len(c.workqueues); if workers == 0 { workers = 1 }]
    in [runWorkers]; Go's integer division truncates and panics on zero. *)
Definition workers_per_queue (workers : Z) (queues : nat) : option Z :=
  match queues with
  | O => None
  | _ =>
      let w := Z.quot workers (Z.of_nat queues) in
      Some (if w =? 0 then 1 else w)
  end.

(** [controller.processSingleItem] over one queue: [sync] is
    [c.syncHandler], [text] is [err.Error()]. The deferred [Done] comes
    last. *)
Section Work.
Variable S : Type.
Variable sync : string -> Eff.M S (option error).
Variable text : error -> string.

Definition queue_call (op : QueueOp) : Eff.M (S * list QueueOp) unit :=
  Eff.modify (fun st => (st.1, st.2 ++ [op])).

Definition run_sync (key : string) : Eff.M (S * list QueueOp) (option error) :=
  fun st => let '(err, s) := sync key st.1 in (err, (s, st.2)).

Definition processSingleItem (obj : Item) : Eff.M (S * list QueueOp) (option error) :=
  match obj with
  | ItemOther _ =>
      do _ <~ queue_call (QForget obj);
      do _ <~ queue_call (QDone obj);
      Eff.ret None
  | ItemKey key =>
      do err <~ run_sync key;
      match err with
      | Some e =>
          do _ <~ queue_call (QAddRateLimited key);
          do _ <~ queue_call (QDone obj);
          Eff.ret (Some (ErrOther ("error syncing '" +:+ key +:+ "': " +:+ text e
                                   +:+ ", requeuing")))
      | None =>
          do _ <~ queue_call (QForget obj);
          do _ <~ queue_call (QDone obj);
          Eff.ret None
      end
  end.
End Work.
End Controller.

(* ===================================================================== *)
(** ** pkg/runtime, sharedhandler.go: registration and error text *)
(* ===================================================================== *)

Module Chain.
Section Registration.
Context {World : Type}.

(** A [SharedHandler] as declared: no handler, counter at zero. *)
Definition empty (gvk : GroupVersionKind) : Runtime.SharedHandler World :=
  Runtime.mkShared 0 gvk [].

(** The function [Register] hands to [context.AfterFunc], run when the
    context of registration [i] ends. *)
Definition cancel (i : Z) (h : Runtime.SharedHandler World) : Runtime.SharedHandler World :=
  Runtime.mkShared (Runtime.idCounter World h) (Runtime.gvk World h)
                   (Runtime.remove_entry World i (Runtime.handlers h)).

(** The chains that registrations and cancellations can produce. *)
Inductive built : Runtime.SharedHandler World -> Prop :=
| built_empty gvk : built (empty gvk)
| built_Register h name handler : built h -> built (Runtime.Register h name handler)
| built_cancel h i : built h -> built (cancel i h).

(** Two handlers that do nothing, for a chain over a one-point world. *)
Definition two_registered (gvk : GroupVersionKind) : Runtime.SharedHandler unit :=
  Runtime.Register
    (Runtime.Register (Runtime.mkShared 0 gvk []) "first" (fun _ obj w => ((obj, None), w)))
    "second" (fun _ obj w => ((obj, None), w)).

(** Every id in the chain was handed out already, and only once. *)
Definition ids_unique (h : Runtime.SharedHandler World) : Prop :=
  0 <= Runtime.idCounter World h
  /\ Forall (fun e => 0 < Runtime.id e <= Runtime.idCounter World h) (Runtime.handlers h)
  /\ NoDup (map Runtime.id (Runtime.handlers h)).
End Registration.

(** [strings.Join(parts, sep)] *)
Fixpoint Join (parts : list string) (sep : string) : string :=
  match parts with
  | [] => EmptyString
  | [p] => p
  | p :: rest => p +:+ sep +:+ Join rest sep
  end.

(** The loop of [errorList.Error] over the texts of the errors: the
    separator is written only once the buffer holds something. *)
Definition errorList_text (texts : list string) : string :=
  fold_left (fun buf t => (if (0 <? len buf)%nat then buf +:+ ", " else buf) +:+ t)
            texts EmptyString.

(** [texts] without the empty strings at its head. *)
Fixpoint drop_leading_empty (texts : list string) : list string :=
  match texts with
  | EmptyString :: rest => drop_leading_empty rest
  | _ => texts
  end.

Section ErrorText.
(** The text of an API status error belongs to apimachinery. *)
Variable status_text : string -> string.

(** [err.Error()]: [errorPrefix.Error], [handlerError.Error] (the [%v] of
    an error is its text), [errorList.Error]; a joined error puts its
    parts on lines of their own. *)
Fixpoint Error (e : error) : string :=
  match e with
  | ErrIgnore => "ignore handler error"
  | ErrNotFound what => status_text what
  | ErrOther msg => msg
  | ErrWrap prefix e' => prefix +:+ Error e'
  | ErrJoin es => Join (map Error es) (String (ascii_of_nat 10) EmptyString)
  | ErrHandler name e' => "handler " +:+ name +:+ ": " +:+ Error e'
  | ErrList es => errorList_text (map Error es)
  end.
End ErrorText.
End Chain.

(* ===================================================================== *)
(** ** Vocabulary: the gate's bookkeeping *)
(* ===================================================================== *)

(** [c] leaves the limiter table, the waiting set and the sleepers alone. *)
Definition keeps_gate {World Limiter A : Type}
           (c : Eff.M (Router.HandlerSet World Limiter) A) : Prop :=
  forall m,
    Router.limiters (c m).2 = Router.limiters m
    /\ Router.waiting (c m).2 = Router.waiting m
    /\ Router.sleeping (c m).2 = Router.sleeping m.

(** The keys that have a sleeper. *)
Definition sleeper_keys {World Limiter : Type} (m : Router.HandlerSet World Limiter)
  : list (string * GroupVersionKind) :=
  map fst (Router.sleeping m).

(** A key is waiting exactly when a sleeper is parked for it, and no key
    has two sleepers. *)
Definition gate_consistent {World Limiter : Type} (m : Router.HandlerSet World Limiter)
  : Prop :=
  NoDup (sleeper_keys m)
  /\ forall lKey, lKey ∈ Router.waiting m <-> lKey ∈ sleeper_keys m.

(** The mutable part of a [HandlerSet] as [NewHandlerSet] leaves it. *)
Definition NewHandlerSet_state {World Limiter : Type} (w : World)
  : Router.HandlerSet World Limiter :=
  Router.mkHS ∅ ∅ [] w [].

(** The dispatch of [key] finds the object gone: the scheme knows the
    kind, the fresh read says not-found, and the event carried no object. *)
Definition object_gone {World Limiter : Type}
           (scheme_New : GroupVersionKind -> Object + error)
           (backend_Get : ObjectKey -> Object -> World -> (Object * option error) * World)
           (gvk : GroupVersionKind) (key : string) (runtimeObject : option Object)
           (m : Router.HandlerSet World Limiter) : bool :=
  match scheme_New gvk with
  | inr _ => false
  | inl obj =>
      let '(ns, name) := Router.split_key key in
      IsNotFound (backend_Get (mkKey ns name) obj (Router.world m)).1.2
      && negb (is_Some_b runtimeObject)
  end.

(* ===================================================================== *)
(** ** pkg/router: the route builder and its filters *)
(* ===================================================================== *)

Module Routes.
Section Builder.
Context {World : Type}.

(** [Handler.Handle(req, resp) error]; as in [handlers_Handle], a handler
    may edit the object behind [req.Object] and the response. *)
Definition Handler : Type :=
  Router.Request -> Router.response -> World ->
  ((Object -> Object) * Router.response * option error) * World.

(** [return nil] without calling anything. *)
Definition nothing (resp : Router.response) (w : World)
  : ((Object -> Object) * Router.response * option error) * World :=
  ((fun o => o, resp, None), w).

(** [!obj.GetDeletionTimestamp().IsZero()], and what a [labels.Selector]
    or a [fields.Selector] says of an object. *)
Variable being_deleted : Object -> bool.
Definition Selector : Type := Object -> bool.

(** [IgnoreNilHandler.Handle] *)
Definition IgnoreNilHandler (Next : Handler) : Handler :=
  fun req resp w =>
    match Router.req_Object req with
    | None => nothing resp w
    | Some _ => Next req resp w
    end.

(** [IgnoreRemoveHandler.Handle] *)
Definition IgnoreRemoveHandler (Next : Handler) : Handler :=
  fun req resp w =>
    match Router.req_Object req with
    | None => nothing resp w
    | Some o => if being_deleted o then nothing resp w else Next req resp w
    end.

(** [ErrorPrefix.Handle] *)
Definition ErrorPrefix (prefix : string) (Next : Handler) : Handler :=
  fun req resp w =>
    let '((edit, resp', err), w') := Next req resp w in
    match err with
    | None => ((edit, resp', None), w')
    | Some e => ((edit, resp', Some (ErrWrap prefix e)), w')
    end.

(** [NameNamespaceFilter.Handle] *)
Definition NameNamespaceFilter (Name Namespace : string) (Next : Handler) : Handler :=
  fun req resp w =>
    if negb (String.eqb Name "") && negb (String.eqb (Router.req_Name req) Name)
    then nothing resp w
    else if negb (String.eqb Namespace "")
            && negb (String.eqb (Router.req_Namespace req) Namespace)
    then nothing resp w
    else Next req resp w.

(** [SelectorFilter.Handle] *)
Definition SelectorFilter (sel : Selector) (Next : Handler) : Handler :=
  fun req resp w =>
    match Router.req_Object req with
    | None => nothing resp w
    | Some o => if negb (sel o) then nothing resp w else Next req resp w
    end.

(** [FieldSelectorFilter.Handle]; [sel] stands for "the object offers
    fields and the selector matches them". *)
Definition FieldSelectorFilter (sel : Selector) (Next : Handler) : Handler :=
  fun req resp w =>
    match Router.req_Object req with
    | None => nothing resp w
    | Some o => if sel o then Next req resp w else nothing resp w
    end.

(** [RouteBuilder], without the router and the object type. *)
Record RouteBuilder := mkBuilder {
  includeRemove : bool;
  includeFinalizing : bool;
  finalizeID : string;
  name : string;
  namespace : string;
  routeName : string;
  middleware : list (Handler -> Handler);
  sel : option Selector;
  fieldSelector : option Selector
}.

(** [FinalizerHandler{FinalizerID, Next}] is declared elsewhere in the
    package; [caller] is what [runtime.Caller(2)] reports, the base name of
    the file and the line number as text. *)
Variable FinalizerHandler : string -> Handler -> Handler.
Variable caller : string * string.

(** [name()]: [fmt.Sprintf("%s:%d", filepath.Base(filename), line)] *)
Definition caller_name : string := caller.1 +:+ ":" +:+ caller.2.

Definition wrap_if (cond : bool) (wrap : Handler -> Handler) (result : Handler) : Handler :=
  if cond then wrap result else result.

Definition wrap_with {A} (o : option A) (wrap : A -> Handler -> Handler) (result : Handler)
  : Handler :=
  match o with
  | Some a => wrap a result
  | None => result
  end.

(** [RouteBuilder.Handler(h)]: the name and the handler it passes to
    [AddHandler]. *)
Definition build (r : RouteBuilder) (h : Handler) : string * Handler :=
  let routeName := if String.eqb (routeName r) "" then caller_name else routeName r in
  let result := h in
  let result := wrap_if (negb (String.eqb (finalizeID r) ""))
                        (FinalizerHandler (finalizeID r)) result in
  let result := foldr (fun mw acc => mw acc) result (middleware r) in
  let result := wrap_if (negb (String.eqb (name r) "") || negb (String.eqb (namespace r) ""))
                        (NameNamespaceFilter (name r) (namespace r)) result in
  let result := wrap_with (sel r) SelectorFilter result in
  let result := wrap_with (fieldSelector r) FieldSelectorFilter result in
  let result := wrap_if (includeFinalizing r && negb (includeRemove r)
                         && String.eqb (finalizeID r) "")
                        IgnoreNilHandler result in
  let result := wrap_if (negb (includeRemove r) && negb (includeFinalizing r)
                         && String.eqb (finalizeID r) "")
                        IgnoreRemoveHandler result in
  let result := wrap_if (negb (String.eqb routeName ""))
                        (ErrorPrefix ("[" +:+ routeName +:+ "] ")) result in
  (routeName, result).

(** *** What a built route lets through *)

(** The name under which the route ends up registered. *)
Definition registered_name (r : RouteBuilder) : string :=
  if String.eqb (routeName r) "" then caller_name else routeName r.

(** The handler behind the filters: the user's handler, inside the
    finalizer handler if a finalizer is set, inside the middleware, the
    first one outermost. *)
Definition behind_filters (r : RouteBuilder) (h : Handler) : Handler :=
  foldr (fun mw acc => mw acc)
        (if String.eqb (finalizeID r) "" then h else FinalizerHandler (finalizeID r) h)
        (middleware r).

Definition selects (o : option Selector) (obj : option Object) : bool :=
  match o, obj with
  | None, _ => true
  | Some _, None => false
  | Some s, Some x => s x
  end.

(** The request passes every filter of the route. *)
Definition accepts (r : RouteBuilder) (req : Router.Request) : bool :=
  (String.eqb (name r) "" || String.eqb (Router.req_Name req) (name r))
  && (String.eqb (namespace r) "" || String.eqb (Router.req_Namespace req) (namespace r))
  && selects (sel r) (Router.req_Object req)
  && selects (fieldSelector r) (Router.req_Object req)
  && (if negb (String.eqb (finalizeID r) "") || includeRemove r then true
      else
        match Router.req_Object req with
        | None => false
        | Some o => includeFinalizing r || negb (being_deleted o)
        end).
End Builder.
End Routes.


(** A route table on the bench: an object counts as being deleted when its
    state says so, the finalizer handler passes the request on, and the
    route is declared at line 42 of main.go. *)
Module RouteBench.
Definition being_deleted (o : Object) : bool := String.eqb (obj_state o) "deleting".
Definition FinalizerHandler (id : string) (Next : Routes.Handler (World := unit))
  : Routes.Handler (World := unit) := Next.
Definition caller : string * string := ("main.go", "42").

Definition build := Routes.build being_deleted FinalizerHandler caller.

(** [router.Type(obj)], nothing else set; the same with [IncludeRemoved]
    and a label selector that matches every object. *)
Definition plain : Routes.RouteBuilder (World := unit) :=
  Routes.mkBuilder false false "" "" "" "" [] None None.
Definition removed_selected : Routes.RouteBuilder (World := unit) :=
  Routes.mkBuilder true false "" "" "" "" [] (Some (fun _ => true)) None.

Definition foo_a_deleting : Object := mkObject Foo "foo" "a" "uid-a" "3" "deleting".
Definition resp0 : Router.response := Router.mkResponse 0 (Router.mkRegistry Foo ∅ "foo/a").
End RouteBench.

(* ===================================================================== *)
(** ** pkg/router: the kinds a handler set watches *)
(* ===================================================================== *)

Module Watching.
(** [HandlerSet.watching] (a [map[GroupVersionKind]bool] in which only
    [true] is ever stored), the backend, and the kinds [backend.Watcher]
    was called for, oldest first. *)
Record Watchers (World : Type) := mkWatchers {
  watching : gset GroupVersionKind;
  world : World;
  watcher_calls : list GroupVersionKind
}.
Arguments mkWatchers {World}.
Arguments watching {World}.
Arguments world {World}.
Arguments watcher_calls {World}.

Section WatchGVK.
Context {World : Type}.
(** [backend.Watcher(ctx, gvk, name, onChange)] and [merr.NewErrors]. *)
Variable backend_Watcher : GroupVersionKind -> World -> option error * World.
Variable merr_NewErrors : list error -> option error.

(** The loop of [WatchGVK], with [watchErrs] as it stands. *)
Fixpoint WatchGVK_loop (gvks : list GroupVersionKind) (watchErrs : list error)
         (m : Watchers World) : list error * Watchers World :=
  match gvks with
  | [] => (watchErrs, m)
  | gvk :: rest =>
      if decide (gvk ∈ watching m) then WatchGVK_loop rest watchErrs m
      else
        let '(err, w) := backend_Watcher gvk (world m) in
        match err with
        | None =>
            WatchGVK_loop rest watchErrs
              (mkWatchers ({[ gvk ]} ∪ watching m) w (watcher_calls m ++ [gvk]))
        | Some e =>
            WatchGVK_loop rest (watchErrs ++ [e])
              (mkWatchers (watching m) w (watcher_calls m ++ [gvk]))
        end
  end.

(** [HandlerSet.WatchGVK] *)
Definition WatchGVK (gvks : list GroupVersionKind) (m : Watchers World)
  : option error * Watchers World :=
  let '(watchErrs, m) := WatchGVK_loop gvks [] m in
  (merr_NewErrors watchErrs, m).
End WatchGVK.

(** A backend that can watch every kind but [Bar]. *)
Definition no_bars (gvk : GroupVersionKind) (w : unit) : option error * unit :=
  if decide (gvk = Bar) then (Some (ErrOther "no informer"), w) else (None, w).
Definition first_error (es : list error) : option error := head es.
Definition unwatched : Watchers unit := mkWatchers ∅ tt [].
End Watching.

(* ===================================================================== *)
(** ** pkg/runtime, controller.go: starting and stopping *)
(* ===================================================================== *)

Module Lifecycle.
(** What [cache.GetInformerForKind] hands back: a shared index informer,
    an informer of another type (with its [%T]), or an error. *)
Inductive Found (Informer : Type) :=
| FoundShared (i : Informer)
| FoundOther (type_name : string)
| FoundError (e : error).
Arguments FoundShared {Informer}.
Arguments FoundOther {Informer}.
Arguments FoundError {Informer}.

(** The calls [Start] and [run] make on the cache and the informer, and
    the goroutines they launch. *)
Inductive LifeEvent :=
| EvGetInformerForKind
| EvAddEventHandler (ok : bool)
| EvCacheStart
| EvWaitForCacheSync (ok : bool)
| EvGoRun
| EvRemoveEventHandler.

(** The fields of [controller] that [Start] and the end of [run] use. *)
Record controller (World Informer Registration : Type) := mkController {
  started : bool;
  informer : option Informer;
  registration : option Registration;
  world : World;
  log : list LifeEvent
}.
Arguments mkController {World Informer Registration}.
Arguments started {World Informer Registration}.
Arguments informer {World Informer Registration}.
Arguments registration {World Informer Registration}.
Arguments world {World Informer Registration}.
Arguments log {World Informer Registration}.

Section Start.
Context {World Informer Registration : Type}.
Variable cache_GetInformerForKind : World -> Found Informer * World.
Variable informer_AddEventHandler : Informer -> World -> (Registration + error) * World.
Variable informer_HasSynced : Informer -> World -> bool.
(** [clientgocache.WaitForCacheSync(ctx.Done(), c.informer.HasSynced)] *)
Variable WaitForCacheSync : Informer -> World -> bool * World.

Local Abbreviation controller := (controller World Informer Registration).

(** [if c.informer == nil { ... }] in [Start] *)
Definition ensure_informer (c : controller) : (Informer + error) * controller :=
  match informer c with
  | Some i => (inl i, c)
  | None =>
      let '(found, w) := cache_GetInformerForKind (world c) in
      let log' := log c ++ [EvGetInformerForKind] in
      match found with
      | FoundError e => (inr e, mkController (started c) None (registration c) w log')
      | FoundShared i => (inl i, mkController (started c) (Some i) (registration c) w log')
      | FoundOther type_name =>
          (inr (ErrOther ("expecting cache.SharedIndexInformer but got " +:+ type_name)),
           mkController (started c) None (registration c) w log')
      end
  end.

(** [if c.registration == nil { ... }] in [Start] *)
Definition ensure_registration (i : Informer) (c : controller) : option error * controller :=
  match registration c with
  | Some _ => (None, c)
  | None =>
      let '(r, w) := informer_AddEventHandler i (world c) in
      match r with
      | inr e =>
          (Some e, mkController (started c) (informer c) None w
                                (log c ++ [EvAddEventHandler false]))
      | inl reg =>
          (None, mkController (started c) (informer c) (Some reg) w
                              (log c ++ [EvAddEventHandler true]))
      end
  end.

(** The rest of [Start]: start the cache if the informer has not synced,
    wait for the sync, launch [run]. *)
Definition sync_and_run (i : Informer) (c : controller) : option error * controller :=
  let log1 := if informer_HasSynced i (world c) then log c else log c ++ [EvCacheStart] in
  let '(ok, w) := WaitForCacheSync i (world c) in
  let log2 := log1 ++ [EvWaitForCacheSync ok] in
  if ok
  then (None, mkController true (informer c) (registration c) w (log2 ++ [EvGoRun]))
  else (Some (ErrOther "failed to wait for caches to sync"),
        mkController (started c) (informer c) (registration c) w log2).

(** [controller.Start] *)
Definition Start (c : controller) : option error * controller :=
  if started c then (None, c)
  else
    match ensure_informer c with
    | (inr e, c) => (Some e, c)
    | (inl i, c) =>
        match ensure_registration i c with
        | (Some e, c) => (Some e, c)
        | (None, c) => sync_and_run i c
        end
    end.

(** What [run] does on its way out: [c.started = false], and the deferred
    [RemoveEventHandler(c.registration)]; the registration field stays. *)
Definition run_exit (c : controller) : controller :=
  mkController false (informer c) (registration c) (world c)
               (log c ++ [EvRemoveEventHandler]).

(** A controller that has not been started, as [New] or a literal leaves
    it: no registration, nothing logged. *)
Definition fresh (c : controller) : Prop :=
  started c = false /\ registration c = None /\ log c = [].

(** The controllers that calls of [Start] and exits of [run] lead to. *)
Inductive reachable : controller -> Prop :=
| reachable_fresh c : fresh c -> reachable c
| reachable_Start c : reachable c -> reachable (Start c).2
| reachable_run_exit c : reachable c -> reachable (run_exit c).
End Start.

(** The event handlers added with success. *)
Definition is_added (e : LifeEvent) : bool :=
  match e with
  | EvAddEventHandler true => true
  | _ => false
  end.
Definition handlers_added (events : list LifeEvent) : nat :=
  length (filter (fun e => is_added e = true) events).

(** A cluster whose informer is there at once and syncs at once. *)
Definition ready_informer (w : unit) : Found unit * unit := (FoundShared tt, w).
Definition ready_handler (i : unit) (w : unit) : (unit + error) * unit := (inl tt, w).
Definition synced (i : unit) (w : unit) : bool := true.
Definition wait_synced (i : unit) (w : unit) : bool * unit := (true, w).
Definition new_controller : controller unit unit unit := mkController false None None tt [].
Definition restarted : controller unit unit unit :=
  (Start ready_informer ready_handler synced wait_synced
         (run_exit (Start ready_informer ready_handler synced wait_synced new_controller).2)).2.
End Lifecycle.

(* ===================================================================== *)
(** ** Vocabulary: logs that are runs *)
(* ===================================================================== *)

(** [invs] is the record of calling the handlers [hs] one after the other,
    from world [w] to world [w_end]: each entry bears the name of its
    handler and holds what that handler returned when applied to the
    entry's key and object in the world its predecessors left. *)
Fixpoint calls_made {World : Type} (hs : list (Runtime.handlerEntry World))
         (invs : list Runtime.Invocation) (w w_end : World) : Prop :=
  match hs, invs with
  | [], [] => w_end = w
  | e :: hs', i :: invs' =>
      Runtime.inv_name i = Runtime.name e
      /\ (Runtime.handler e (Runtime.inv_key i) (Runtime.inv_obj i) w).1
         = (Runtime.inv_newObj i, Runtime.inv_err i)
      /\ calls_made hs' invs'
           (Runtime.handler e (Runtime.inv_key i) (Runtime.inv_obj i) w).2 w_end
  | _, _ => False
  end.

(** Handlers that keep a diary: the world is the list of what each call
    was given, oldest first. *)
Module Diary.
Definition seen (obj : option Runtime.RuntimeObject) : string :=
  match obj with
  | None => "nil"
  | Some Runtime.TypedNil => "typed nil"
  | Some (Runtime.WithMeta o) => "uid=" +:+ GetUID o
  | Some (Runtime.NoMeta p) => p
  end.

Definition noting (label : string) (newObj : option Runtime.RuntimeObject)
           (err : option error) : Runtime.SharedControllerHandler (list string) :=
  fun key obj w => ((newObj, err), w ++ [label +:+ " " +:+ key +:+ " " +:+ seen obj]).

Definition chain (first : option Runtime.RuntimeObject) (err : option error)
  : Runtime.SharedHandler (list string) :=
  Runtime.Register
    (Runtime.Register (Runtime.mkShared 0 Foo []) "first" (noting "first" first err))
    "second" (noting "second" None None).
End Diary.

(** A dispatch engine whose collaborators keep a ledger: the world is the
    list of the calls that reached them, oldest first. *)
Module Ledger.
Inductive Entry :=
| Handled (req : Router.Request)
| Triggered (req : Router.Request)
| Unregistered (req : Router.Request)
| Saved (req : Router.Request)
| Retried (gvk : GroupVersionKind) (key : string) (delay : Z)
| Read (key : ObjectKey).

Definition Handles (req : Router.Request) (w : list Entry) : bool := true.
Definition retrying (d : Z) (req : Router.Request) (resp : Router.response) (w : list Entry)
  : ((Object -> Object) * Router.response * option error) * list Entry :=
  ((fun o => o, Router.RetryAfter resp d, None), w ++ [Handled req]).
Definition Trigger (req : Router.Request) (w : list Entry) : list Entry :=
  w ++ [Triggered req].
Definition UnregisterAndTrigger (req : Router.Request) (w : list Entry) : list Entry :=
  w ++ [Unregistered req].
Definition save (unmodified : option Object) (req : Router.Request) (w : list Entry)
  : (option Object * option error) * list Entry :=
  ((Router.req_Object req, None), w ++ [Saved req]).
Definition backend_Trigger (gvk : GroupVersionKind) (key : string) (d : Z) (w : list Entry)
  : option error * list Entry := (None, w ++ [Retried gvk key d]).
Definition gone (key : ObjectKey) (obj : Object) (w : list Entry)
  : (Object * option error) * list Entry :=
  ((obj, Some (ErrNotFound (Name key))), w ++ [Read key]).

Definition Reserve_Delay (tokens : Z) (w : list Entry) : Z * Z :=
  if tokens >? 0 then (0, tokens - 1) else (5000000000, tokens).

Definition handle (d : Z) :=
  Router.handle (Limiter := Z) backend_Trigger Handles (retrying d) None
                UnregisterAndTrigger Trigger save.
Definition onChange (d : Z) :=
  Router.onChange Bench.NewLimiter Reserve_Delay Bench.scheme_New gone backend_Trigger
                  Handles (retrying d) None UnregisterAndTrigger Trigger save.
Definition idle : Router.HandlerSet (list Entry) Z := Router.mkHS ∅ ∅ [] [] [].
End Ledger.
Example Cut_found : Cut "foo/bar/baz" "/" = ("foo", "bar/baz", true).
Proof. reflexivity. Qed.
Example Cut_missing : Cut "foo" "/" = ("foo", "", false).
Proof. reflexivity. Qed.
Example TrimPrefix_hit : TrimPrefix "_t ns/a" "_t " = "ns/a".
Proof. reflexivity. Qed.
Example Atoi_plain : Atoi "1042" = Some 1042.
Proof. reflexivity. Qed.
Example Atoi_neg : Atoi "-7" = Some (-7).
Proof. reflexivity. Qed.
Example Atoi_junk : Atoi "12a" = None.
Proof. reflexivity. Qed.
Example Atoi_sign_only : Atoi "+" = None.
Proof. reflexivity. Qed.
Example Atoi_overflow : Atoi "9223372036854775808" = None.
Proof. reflexivity. Qed.
Example Atoi_max : Atoi "9223372036854775807" = Some max_int.
Proof. reflexivity. Qed.
Example string_lt_ex : string_lt "99" "100" = false /\ string_lt "099" "100" = true.
Proof. split; reflexivity. Qed.

(* ===================================================================== *)
(** * Properties *)
(* ===================================================================== *)

(** ** Strings *)

Lemma byte_inj c d : byte c = byte d -> c = d.
Proof.
  unfold byte. intros H.
  rewrite <- (ascii_N_embedding c), <- (ascii_N_embedding d). by rewrite H.
Qed.

Lemma string_lt_lex_lt a b : string_lt a b = true <-> lex_lt a b.
Proof.
  revert b. induction a as [|c a IH]; intros [|d b]; simpl.
  - split; [discriminate | inversion 1].
  - split; [constructor | done].
  - split; [discriminate | inversion 1].
  - destruct (N.ltb_spec (byte c) (byte d)) as [Hlt|Hge].
    + split; [intros _; by constructor | done].
    + destruct (N.ltb_spec (byte d) (byte c)) as [Hgt|Hle].
      * split; [discriminate |].
        inversion 1; subst; [lia | lia].
      * assert (c = d) as -> by (apply byte_inj; lia).
        rewrite IH. split; [by constructor |].
        inversion 1; subst; [lia | done].
Qed.

Lemma prefix_byte c s :
  String.prefix (String c EmptyString) s =
  match s with
  | String d _ => Ascii.eqb c d
  | EmptyString => false
  end.
Proof.
  destruct s as [|d s]; simpl; [done |].
  destruct (ascii_dec c d) as [->|Hne].
  - rewrite Ascii.eqb_refl. by destruct s.
  - symmetry. by apply Ascii.eqb_neq.
Qed.

Lemma cut_at_byte_absent c s :
  has_byte c s = false -> cut_at s (String c EmptyString) = None.
Proof.
  induction s as [|d s IH]; intros H.
  - reflexivity.
  - cbn [has_byte] in H. destruct (Ascii.eqb c d) eqn:E; [done |].
    cbn [cut_at]. rewrite prefix_byte, E, (IH H). done.
Qed.

Lemma cut_at_byte_first c a b :
  has_byte c a = false ->
  cut_at (a +:+ String c b) (String c EmptyString) = Some (a, b).
Proof.
  induction a as [|d a IH]; intros H.
  - change (EmptyString +:+ String c b) with (String c b).
    cbn [cut_at]. rewrite prefix_byte, Ascii.eqb_refl. done.
  - cbn [has_byte] in H. destruct (Ascii.eqb c d) eqn:E; [done |].
    change (String d a +:+ String c b) with (String d (a +:+ String c b)).
    cbn [cut_at]. rewrite prefix_byte, E, (IH H). done.
Qed.

Lemma has_byte_app c a b :
  has_byte c (a +:+ b) = has_byte c a || has_byte c b.
Proof.
  induction a as [|d a IH]; [done |].
  change (String d a +:+ b) with (String d (a +:+ b)). cbn [has_byte].
  by destruct (Ascii.eqb c d).
Qed.

Lemma Cut_byte_absent c s :
  has_byte c s = false -> Cut s (String c EmptyString) = (s, EmptyString, false).
Proof. intros H. unfold Cut. by rewrite cut_at_byte_absent. Qed.

Lemma Cut_byte_first c a b :
  has_byte c a = false -> Cut (a +:+ String c b) (String c EmptyString) = (a, b, true).
Proof. intros H. unfold Cut. by rewrite cut_at_byte_first. Qed.

(** ** pkg/runtime: resource versions and keys *)

(** C7. [newer(oldRV, newRV)] holds exactly when the two strings have the
    same length and [oldRV] is lexicographically below [newRV], or the
    lengths differ and both parse as integers with [oldRV] the smaller, or
    the lengths differ and [oldRV] does not parse; it never holds when the
    lengths differ, [oldRV] parses and [newRV] does not. *)
Theorem newer_characterisation (oldRV newRV : string) :
  (Runtime.newer oldRV newRV = true <->
     (len oldRV = len newRV /\ lex_lt oldRV newRV)
     \/ (len oldRV <> len newRV /\
         exists oldI newI,
           Atoi oldRV = Some oldI /\ Atoi newRV = Some newI /\ oldI < newI)
     \/ (len oldRV <> len newRV /\ Atoi oldRV = None))
  /\ (len oldRV <> len newRV -> is_Some (Atoi oldRV) -> Atoi newRV = None ->
      Runtime.newer oldRV newRV = false).
Proof.
  unfold Runtime.newer.
  destruct (Nat.eqb_spec (len oldRV) (len newRV)) as [Heq|Hne].
  - split; [| done].
    rewrite string_lt_lex_lt. split.
    + intros H. by left.
    + intros [[_ H]|[[H _]|[H _]]]; done.
  - destruct (Atoi oldRV) as [oldI|] eqn:Eo.
    + destruct (Atoi newRV) as [newI|] eqn:En.
      * split; [| done]. split.
        -- intros H. right. left. split; [done |].
           exists oldI, newI. repeat split; lia.
        -- intros [[H _]|[[_ (o & n & Ho & Hn & Hlt)]|[_ H]]]; [done | | done].
           injection Ho as <-. injection Hn as <-. lia.
      * split; [| done]. split; [done |].
        intros [[H _]|[[_ (o & n & _ & Hn & _)]|[_ H]]]; done.
    + split.
      * split; [| done]. intros _. right. right. done.
      * intros _ [x Hx]. done.
Qed.

Lemma newer_characterisation_witness :
  Runtime.newer "9" "ab" = false.
Proof.
  apply (proj2 (newer_characterisation "9" "ab")).
  - vm_compute. lia.
  - exists 9. reflexivity.
  - reflexivity.
Defined.

Example newer_same_length : Runtime.newer "099" "100" = true.
Proof. reflexivity. Qed.
Example newer_longer_number : Runtime.newer "99" "100" = true.
Proof. reflexivity. Qed.
Example newer_shorter_number : Runtime.newer "100" "99" = false.
Proof. reflexivity. Qed.
Example newer_old_opaque : Runtime.newer "abc" "7" = true.
Proof. reflexivity. Qed.
Example newer_new_opaque : Runtime.newer "7" "abc" = false.
Proof. reflexivity. Qed.

(** C10. For a namespace and a non-empty name free of '/' and ' ',
    [KeyParse (keyFunc namespace name)] is [(namespace, name)], and a
    control marker "_c " in front of the key does not change the parse. *)
Theorem KeyParse_keyFunc_roundtrip (namespace name : string) (c : ascii) :
  name <> EmptyString ->
  has_byte "/" namespace = false -> has_byte " " namespace = false ->
  has_byte "/" name = false -> has_byte " " name = false ->
  c <> " "%char ->
  Runtime.KeyParse (Runtime.keyFunc namespace name) = (namespace, name)
  /\ Runtime.KeyParse (String "_" (String c (String " " (Runtime.keyFunc namespace name))))
     = Runtime.KeyParse (Runtime.keyFunc namespace name).
Proof.
  intros _ Hns_slash Hns_sp Hn_slash Hn_sp Hc.
  assert (Hkey_sp : has_byte " " (Runtime.keyFunc namespace name) = false).
  { unfold Runtime.keyFunc. destruct (String.eqb namespace ""); [done |].
    rewrite !has_byte_app, Hns_sp, Hn_sp. reflexivity. }
  split.
  - unfold Runtime.KeyParse. rewrite (Cut_byte_absent _ _ Hkey_sp).
    unfold Runtime.keyFunc.
    destruct (String.eqb_spec namespace "") as [->|Hne].
    + by rewrite (Cut_byte_absent _ _ Hn_slash).
    + change ("/" +:+ name) with (String "/" name).
      by rewrite (Cut_byte_first _ _ _ Hns_slash).
  - unfold Runtime.KeyParse at 1.
    assert (Cut (String "_" (String c (String " " (Runtime.keyFunc namespace name)))) " "
            = (String "_" (String c EmptyString), Runtime.keyFunc namespace name, true))
      as ->.
    { unfold Cut. cbn [cut_at]. rewrite !prefix_byte.
      replace (Ascii.eqb " " c) with false
        by (symmetry; apply Ascii.eqb_neq; congruence).
      rewrite Ascii.eqb_refl. reflexivity. }
    unfold Runtime.KeyParse. by rewrite (Cut_byte_absent _ _ Hkey_sp).
Qed.

Lemma KeyParse_keyFunc_roundtrip_witness :
  Runtime.KeyParse (Runtime.keyFunc "foo" "a") = ("foo", "a")
  /\ Runtime.KeyParse "_t foo/a" = Runtime.KeyParse (Runtime.keyFunc "foo" "a").
Proof.
  apply (KeyParse_keyFunc_roundtrip "foo" "a" "t"); try reflexivity; discriminate.
Defined.

Example KeyParse_cluster_scoped : Runtime.KeyParse (Runtime.keyFunc "" "node-1") = ("", "node-1").
Proof. reflexivity. Qed.
Example KeyParse_replay : Runtime.KeyParse "_r foo/a" = ("foo", "a").
Proof. reflexivity. Qed.

(** ** pkg/runtime: [controller.syncHandler] *)

Lemma isSpecialKey_shape (key : string) :
  Runtime.isSpecialKey key = true <-> marker_shaped key.
Proof.
  unfold Runtime.isSpecialKey, marker_shaped, at_index, len. split.
  - destruct key as [|u [|c [|sp rest]]]; try done.
    cbn. intros H. apply andb_prop in H as [Hu Hsp].
    apply Ascii.eqb_eq in Hu, Hsp. subst. eauto.
  - intros (c & rest & ->). reflexivity.
Qed.

Section SyncHandler.
Context {World : Type}.
Variable handler_OnChange :
  string -> option Runtime.RuntimeObject -> World -> option error * World.
Variable cache_Get : ObjectKey -> Object -> World -> (Object * option error) * World.
Variable c_obj : Object.

(** C5, amended. [syncHandler] calls the handler with a nil object and
    without reading the cache exactly for the keys "_", any one byte, a
    space, anything; for every other key it reads the cache under the
    parsed namespace and name, then calls the handler with nil on
    not-found, with the fetched object on success, and returns any other
    error without calling the handler. *)
Theorem syncHandler_dispatch (key : string) (st : Runtime.CtlState World) :
  (Runtime.isSpecialKey key = true <-> marker_shaped key)
  /\ (Runtime.isSpecialKey key = true ->
      Runtime.syncHandler handler_OnChange cache_Get c_obj key st
      = handler_called handler_OnChange key None
                       (Runtime.ctl_world st) (Runtime.ctl_log st))
  /\ (Runtime.isSpecialKey key = false ->
      let '(ns, name) := Runtime.KeyParse key in
      let '((obj, err), w) := cache_Get (mkKey ns name) c_obj (Runtime.ctl_world st) in
      let l := Runtime.ctl_log st ++ [Runtime.EvCacheGet (mkKey ns name)] in
      Runtime.syncHandler handler_OnChange cache_Get c_obj key st =
        match err with
        | None => handler_called handler_OnChange key (Some (Runtime.WithMeta obj)) w l
        | Some e =>
            if IsNotFound_err e then handler_called handler_OnChange key None w l
            else (Some e, Runtime.mkCtl w l)
        end).
Proof.
  split; [apply isSpecialKey_shape |]. split.
  - intros H. unfold Runtime.syncHandler, handler_called. rewrite H.
    unfold Runtime.call_OnChange.
    by destruct (handler_OnChange key None (Runtime.ctl_world st)).
  - intros H. unfold Runtime.syncHandler, handler_called. rewrite H.
    destruct (Runtime.KeyParse key) as [ns name].
    unfold Eff.bind, Runtime.call_cache_Get, DeepCopyObject.
    destruct (cache_Get (mkKey ns name) c_obj (Runtime.ctl_world st))
      as [[obj err] w].
    destruct err as [e|]; cbn [IsNotFound].
    + destruct (IsNotFound_err e); [| done].
      unfold Runtime.call_OnChange. cbn.
      by destruct (handler_OnChange key None w).
    + unfold Runtime.call_OnChange. cbn.
      by destruct (handler_OnChange key (Some (Runtime.WithMeta obj)) w).
Qed.
End SyncHandler.

Lemma syncHandler_dispatch_witness :
  Runtime.syncHandler idle_handler empty_cache (blank Foo) "_t foo/a" (Runtime.mkCtl tt [])
  = (None, Runtime.mkCtl tt [Runtime.EvOnChange "_t foo/a" None])
  /\ Runtime.syncHandler idle_handler empty_cache (blank Foo) "foo/a" (Runtime.mkCtl tt [])
     = (None, Runtime.mkCtl tt [Runtime.EvCacheGet (mkKey "foo" "a");
                                Runtime.EvOnChange "foo/a" None]).
Proof.
  split.
  - apply (proj1 (proj2 (syncHandler_dispatch idle_handler empty_cache (blank Foo)
                           "_t foo/a" (Runtime.mkCtl tt [])))).
    reflexivity.
  - apply (proj2 (proj2 (syncHandler_dispatch idle_handler empty_cache (blank Foo)
                           "foo/a" (Runtime.mkCtl tt [])))).
    reflexivity.
Defined.

(** C5 as stated fails: the key "_1 x" has a digit, not a letter, after the
    underscore, and still goes to the handler with a nil object and no cache
    read. *)
Lemma syncHandler_special_not_only_letters :
  letter_marker_shaped "_1 x" = false
  /\ Runtime.syncHandler idle_handler empty_cache (blank Foo) "_1 x" (Runtime.mkCtl tt [])
     = (None, Runtime.mkCtl tt [Runtime.EvOnChange "_1 x" None]).
Proof. split; reflexivity. Qed.

(** ** pkg/runtime: the shared handler chain *)

Section SharedChain.
Context {World : Type}.
Implicit Types (hs : list (Runtime.handlerEntry World)) (st : Runtime.ChainState World).

Lemma accumulate_reported (e : Runtime.handlerEntry World) key obj newObj err errs :
  Runtime.accumulate e err errs
  = errs ++ collected [Runtime.mkInv (Runtime.name e) key obj newObj err].
Proof.
  unfold Runtime.accumulate, collected, reported. cbn.
  destruct err as [x|]; cbn; [| by rewrite app_nil_r].
  destruct (Is_ErrIgnore x); cbn; [by rewrite app_nil_r | done].
Qed.

Lemma collected_app a b : collected (a ++ b) = collected a ++ collected b.
Proof. unfold collected. apply omap_app. Qed.

(** The loop, by induction on the chain: one log entry per handler, in
    order, each fed the threaded object, and the reported errors appended
    to the list; the entries are what the handlers returned when applied,
    in order, to the key and the threaded object, each in the world the
    one before it left. *)
Lemma OnChange_loop_run hs key obj errs st :
  exists invs,
    Runtime.ch_log (Runtime.OnChange_loop hs key obj errs st).2
    = Runtime.ch_log st ++ invs
    /\ (Runtime.OnChange_loop hs key obj errs st).1 = errs ++ collected invs
    /\ map Runtime.inv_name invs = map Runtime.name hs
    /\ Forall (fun i => Runtime.inv_key i = key) invs
    /\ threaded obj invs
    /\ calls_made hs invs (Runtime.ch_world st)
                  (Runtime.ch_world (Runtime.OnChange_loop hs key obj errs st).2).
Proof.
  revert obj errs st. induction hs as [|e rest IH]; intros obj errs st.
  - exists []. cbn. rewrite !app_nil_r. done.
  - cbn [Runtime.OnChange_loop]. unfold Eff.bind, Runtime.invoke.
    destruct (Runtime.handler e key obj (Runtime.ch_world st)) as [[newObj err] w] eqn:Hcall.
    cbn [Runtime.ch_log Runtime.ch_world].
    set (inv := Runtime.mkInv (Runtime.name e) key obj newObj err).
    destruct (IH (Runtime.thread obj newObj) (Runtime.accumulate e err errs)
                 (Runtime.mkChain w (Runtime.ch_log st ++ [inv])))
      as (invs & Hlog & Herrs & Hnames & Hkeys & Hthread & Hcalls).
    exists (inv :: invs). split; [| split; [| split; [| split; [| split]]]].
    + rewrite Hlog. cbn. by rewrite <- app_assoc.
    + rewrite Herrs, (accumulate_reported e key obj newObj err).
      fold inv. change (inv :: invs) with ([inv] ++ invs).
      by rewrite collected_app, app_assoc.
    + cbn. by rewrite Hnames.
    + by constructor.
    + split; done.
    + cbn [calls_made inv Runtime.inv_name Runtime.inv_key Runtime.inv_obj
           Runtime.inv_newObj Runtime.inv_err]. rewrite Hcall. cbn [fst snd].
      split; [done |]. split; [done |]. exact Hcalls.
Qed.

(** C8. [OnChange] calls every registered handler once, in registration
    order, whatever the earlier ones returned: the log is the record of
    applying the handlers one after the other, each in the world its
    predecessors left, and the chain ends in the world the last one left.
    The errors that are not the ignore sentinel are kept under their
    handler's name; the result is nil when none was kept, the single kept
    error when there is one, and the list of all of them otherwise. *)
Theorem OnChange_reports_all (h : Runtime.SharedHandler World) key obj st :
  exists invs,
    Runtime.ch_log (Runtime.OnChange h key obj st).2 = Runtime.ch_log st ++ invs
    /\ map Runtime.inv_name invs = map Runtime.name (Runtime.handlers h)
    /\ Forall (fun i => Runtime.inv_key i = key) invs
    /\ (Runtime.OnChange h key obj st).1
       = match collected invs with
         | [] => None
         | [e] => Some e
         | es => Some (ErrList es)
         end
    /\ threaded obj invs
    /\ calls_made (Runtime.handlers h) invs (Runtime.ch_world st)
                  (Runtime.ch_world (Runtime.OnChange h key obj st).2).
Proof.
  destruct (OnChange_loop_run (Runtime.handlers h) key obj [] st)
    as (invs & Hlog & Herrs & Hnames & Hkeys & Hthread & Hcalls).
  exists invs. unfold Runtime.OnChange, Eff.bind, Eff.ret.
  destruct (Runtime.OnChange_loop (Runtime.handlers h) key obj [] st) as [errs st'].
  cbn in *. subst errs. repeat (split; [done |]).
  split; [| done].
  unfold Runtime.ToErr. by destruct (collected invs) as [|? [|? ?]].
Qed.

(** C9, amended. Each handler of the chain is called with the object the
    handlers before it left: the log is the record of applying the
    handlers in order, and the object of each entry is the threaded one. A
    returned object replaces the current one when it is non-nil and either
    carries a non-empty UID or has no readable metadata; a returned object
    with readable metadata and an empty UID is dropped and the previous
    object, nil included, stays. *)
Theorem OnChange_threads_objects (h : Runtime.SharedHandler World) key obj st :
  (exists invs,
     Runtime.ch_log (Runtime.OnChange h key obj st).2 = Runtime.ch_log st ++ invs
     /\ map Runtime.inv_name invs = map Runtime.name (Runtime.handlers h)
     /\ threaded obj invs
     /\ Forall (fun i => Runtime.inv_key i = key) invs
     /\ calls_made (Runtime.handlers h) invs (Runtime.ch_world st)
                   (Runtime.ch_world (Runtime.OnChange h key obj st).2))
  /\ (forall prev m, GetUID m <> EmptyString ->
        Runtime.thread prev (Some (Runtime.WithMeta m)) = Some (Runtime.WithMeta m))
  /\ (forall prev p,
        Runtime.thread prev (Some (Runtime.NoMeta p)) = Some (Runtime.NoMeta p))
  /\ (forall prev m, GetUID m = EmptyString ->
        Runtime.thread prev (Some (Runtime.WithMeta m)) = prev)
  /\ (forall prev,
        Runtime.thread prev None = prev
        /\ Runtime.thread prev (Some Runtime.TypedNil) = prev).
Proof.
  split; [| split; [| split; [| split]]].
  - destruct (OnChange_loop_run (Runtime.handlers h) key obj [] st)
      as (invs & Hlog & _ & Hnames & Hkeys & Hthread & Hcalls).
    exists invs. unfold Runtime.OnChange, Eff.bind, Eff.ret.
    destruct (Runtime.OnChange_loop (Runtime.handlers h) key obj [] st) as [errs st'].
    done.
  - intros prev m Hm. unfold Runtime.thread. cbn.
    destruct (String.eqb_spec (GetUID m) ""); done.
  - done.
  - intros prev m Hm. unfold Runtime.thread. cbn. by rewrite Hm.
  - done.
Qed.
End SharedChain.

Example OnChange_two_errors :
  (Runtime.OnChange
     (chain_of [Runtime.mkEntry 1 "a" (fixed_handler None (Some (ErrOther "x")));
                Runtime.mkEntry 2 "b" (fixed_handler None (Some (ErrWrap "w: " ErrIgnore)));
                Runtime.mkEntry 3 "c" (fixed_handler None (Some (ErrOther "y")))])
     "foo/a" None (Runtime.mkChain tt [])).1
  = Some (ErrList [ErrHandler "a" (ErrOther "x"); ErrHandler "c" (ErrOther "y")]).
Proof. reflexivity. Qed.

Lemma OnChange_threads_objects_witness :
  Runtime.thread None (Some (Runtime.WithMeta saved)) = Some (Runtime.WithMeta saved)
  /\ Runtime.thread None (Some (Runtime.WithMeta unsaved)) = None.
Proof.
  pose proof (OnChange_threads_objects (two_handlers None) "foo/a" None
                (Runtime.mkChain tt [])) as (_ & Hid & _ & Hnoid & _).
  split; [apply Hid | apply Hnoid]; [discriminate | reflexivity].
Defined.

(** C9 as stated fails: the first handler returns a non-nil object that has
    no UID yet; the second handler is still called with the previous object,
    whether that was nil or an empty object. *)
Lemma OnChange_drops_object_without_uid :
  map Runtime.inv_obj
      (Runtime.ch_log (Runtime.OnChange (two_handlers (Some (Runtime.WithMeta unsaved)))
                         "foo/a" None (Runtime.mkChain tt [])).2)
  = [None; None]
  /\ map Runtime.inv_obj
         (Runtime.ch_log (Runtime.OnChange (two_handlers (Some (Runtime.WithMeta unsaved)))
                            "foo/a" (Some (Runtime.WithMeta (blank Foo)))
                            (Runtime.mkChain tt [])).2)
     = [Some (Runtime.WithMeta (blank Foo)); Some (Runtime.WithMeta (blank Foo))]
  /\ Some (Runtime.WithMeta unsaved) <> None
  /\ Some (Runtime.WithMeta unsaved) <> Some (Runtime.WithMeta (blank Foo)).
Proof. repeat split; done. Qed.

(** Two handlers that keep a diary: the first fails and returns a stored
    object, the second is still called, and with that object. *)
Example OnChange_diary :
  Runtime.OnChange (Diary.chain (Some (Runtime.WithMeta saved)) (Some (ErrOther "x")))
                   "foo/a" None (Runtime.mkChain [] [])
  = (Some (ErrHandler "first" (ErrOther "x")),
     Runtime.mkChain
       ["first foo/a nil"; "second foo/a uid=uid-1"]
       [Runtime.mkInv "first" "foo/a" None (Some (Runtime.WithMeta saved))
                      (Some (ErrOther "x"));
        Runtime.mkInv "second" "foo/a" (Some (Runtime.WithMeta saved)) None None]).
Proof. reflexivity. Qed.

(** ** pkg/runtime: the write-through client *)

Section CacheClientReads.
Context {World : Type}.
Variable cached_Get : ObjectKey -> Object -> World -> (Object * option error) * World.
Variable uncached_Get : ObjectKey -> Object -> World -> (Object * option error) * World.
Variable GVKForObject : Object -> GroupVersionKind + error.
Variable time_Now : World -> Z.

Local Abbreviation Get := (Runtime.Get cached_Get uncached_Get GVKForObject).
Local Abbreviation store := (Runtime.store GVKForObject time_Now).

(** A read that does not ask for the uncached client, once the scheme
    knows the kind of the object left in the target: the recent entry filed
    under that object's kind, namespace and name is returned when the store
    said not-found, or when the store's resource version is older than the
    entry's; otherwise the store's answer comes back. *)
Lemma Get_cached_cases key target c gvk :
  Runtime.IsUncached target = false ->
  let '((obj, err), w) :=
    cached_Get key (Runtime.target_object target) (Runtime.cc_world c) in
  GVKForObject obj = inl gvk ->
  Get key target c =
    (match err, Runtime.recent c !! (gvk, GetNamespace obj, GetName obj) with
     | Some e, Some v => if IsNotFound_err e then (Runtime.ov_Object v, None) else (obj, err)
     | Some e, None => (obj, err)
     | None, Some v =>
         if Runtime.newer (GetResourceVersion obj)
                          (GetResourceVersion (Runtime.ov_Object v))
         then (Runtime.ov_Object v, None) else (obj, None)
     | None, None => (obj, None)
     end,
     Runtime.mkClient (Runtime.recent c) w).
Proof.
  intros Hu. unfold Runtime.Get, Eff.bind, Runtime.extern. rewrite Hu.
  destruct (cached_Get key (Runtime.target_object target) (Runtime.cc_world c))
    as [[obj err] w].
  intros Hg. cbn. rewrite Hg. unfold Eff.gets, Eff.ret. cbn.
  destruct err as [e|]; cbn.
  - destruct (IsNotFound_err e); cbn; [| by destruct (Runtime.recent c !! _)].
    by destruct (Runtime.recent c !! _).
  - destruct (Runtime.recent c !! _) as [v|]; [| done].
    by destruct (Runtime.newer _ _).
Qed.

(** [store] files a deep copy under the object's own kind, namespace and
    name. *)
Lemma store_then_recent obj c gvk :
  GVKForObject obj = inl gvk ->
  Runtime.recent (store obj c).2 !! (gvk, GetNamespace obj, GetName obj)
  = Some (Runtime.mkValue obj (time_Now (Runtime.cc_world c))).
Proof.
  intros Hg. unfold Runtime.store. rewrite Hg. cbn. by rewrite lookup_insert_eq.
Qed.
End CacheClientReads.

(** C3, at the input where the code departs from it. A handler creates
    [Bar foo/b]; the informer has not seen it yet. The recent map holds the
    created object, but a [Get] for the key foo/b into a blank [Bar] comes
    back not-found: the lookup key is built from the namespace and name of
    the target, which the informer's reader left empty, and not from the
    key of the call. The same [Get] into a target that already carries the
    namespace and the name finds the entry. *)
Theorem Get_after_Create_blank_target :
  (LaggingInformer.Create (Runtime.Plain LaggingInformer.bar_b)
                          LaggingInformer.fresh_client).1
  = (LaggingInformer.stamp LaggingInformer.bar_b "1", None)
  /\ Runtime.recent LaggingInformer.after_create !! (Bar, "foo", "b")
     = Some (Runtime.mkValue (LaggingInformer.stamp LaggingInformer.bar_b "1") 100)
  /\ (LaggingInformer.Get (mkKey "foo" "b") (Runtime.Plain (blank Bar))
                          LaggingInformer.after_create).1
     = (blank Bar, Some (ErrNotFound "b"))
  /\ (LaggingInformer.Get (mkKey "foo" "b") (Runtime.Plain LaggingInformer.bar_b)
                          LaggingInformer.after_create).1
     = (LaggingInformer.stamp LaggingInformer.bar_b "1", None).
Proof. repeat split; vm_compute; reflexivity. Qed.

(** ** pkg/router: the response *)



(** ** pkg/router: the log of a dispatch *)

Section DispatchLog.
Context {World Limiter : Type}.
Implicit Types (m : Router.HandlerSet World Limiter) (P : Router.Event -> Prop).

Lemma emits_ret {A} P (a : A) : emits (World := World) (Limiter := Limiter) P (Eff.ret a).
Proof. intros m. exists []. cbn. by rewrite app_nil_r. Qed.

Lemma emits_bind {A B} P (c : Eff.M (Router.HandlerSet World Limiter) A)
    (k : A -> Eff.M (Router.HandlerSet World Limiter) B) :
emits P c -> (forall a, emits P (k a)) -> emits P (Eff.bind c k).
Proof.
intros Hc Hk m. unfold Eff.bind.
destruct (Hc m) as (evs1 & Hlog1 & HP1).
destruct (c m) as [a m1]. cbn in Hlog1.
destruct (Hk a m1) as (evs2 & Hlog2 & HP2).
exists (evs1 ++ evs2). split.
- rewrite Hlog2, Hlog1. by rewrite app_assoc.
- by apply Forall_app.
Qed.

Lemma emits_extern {A} P ev (f : World -> A * World) :
P ev -> emits (Limiter := Limiter) P (Router.extern ev f).
Proof.
intros HP m. exists [ev]. unfold Router.extern.
destruct (f (Router.world m)) as [a w]. cbn. split; [done |].
by constructor.
Qed.

End DispatchLog.

Section Dispatch.
Context {World Limiter : Type}.
Variable NewLimiter : Q -> Z -> Limiter.
Variable Reserve_Delay : Limiter -> World -> Z * Limiter.
Variable scheme_New : GroupVersionKind -> Object + error.
Variable backend_Get : ObjectKey -> Object -> World -> (Object * option error) * World.
Variable backend_Trigger : GroupVersionKind -> string -> Z -> World -> option error * World.
Variable handlers_Handles : Router.Request -> World -> bool.
Variable handlers_Handle :
  Router.Request -> Router.response -> World ->
  ((Object -> Object) * Router.response * option error) * World.
Variable onError :
  option (Router.Request -> Router.response -> option error -> World ->
          (Router.response * option error) * World).
Variable triggers_UnregisterAndTrigger : Router.Request -> World -> World.
Variable triggers_Trigger : Router.Request -> World -> World.
Variable save_save :
  option Object -> Router.Request -> World -> (option Object * option error) * World.

Local Abbreviation HS := (Router.HandlerSet World Limiter).
Local Abbreviation handleError := (Router.handleError (Limiter := Limiter) onError).
Local Abbreviation finish := (Router.finish (Limiter := Limiter) onError).
Local Abbreviation run_handlers :=
  (Router.run_handlers (Limiter := Limiter) handlers_Handle onError).
Local Abbreviation update_triggers :=
  (Router.update_triggers (Limiter := Limiter) triggers_UnregisterAndTrigger triggers_Trigger).
Local Abbreviation save_and_retry :=
  (Router.save_and_retry (Limiter := Limiter) backend_Trigger onError save_save).
Local Abbreviation handle_prologue :=
  (Router.handle_prologue (Limiter := Limiter) handlers_Handles handlers_Handle onError).
Local Abbreviation handle :=
  (Router.handle (Limiter := Limiter) backend_Trigger handlers_Handles handlers_Handle
                 onError triggers_UnregisterAndTrigger triggers_Trigger save_save).
Local Abbreviation checkDelay := (Router.checkDelay NewLimiter Reserve_Delay).
Local Abbreviation after_sleep := (Router.after_sleep (Limiter := Limiter) backend_Trigger).
Local Abbreviation after_gate :=
  (Router.after_gate (Limiter := Limiter) scheme_New backend_Get backend_Trigger
                     handlers_Handles handlers_Handle
                     onError triggers_UnregisterAndTrigger triggers_Trigger save_save).
Local Abbreviation onChange :=
  (Router.onChange NewLimiter Reserve_Delay scheme_New backend_Get backend_Trigger
                   handlers_Handles handlers_Handle
                   onError triggers_UnregisterAndTrigger triggers_Trigger save_save).

Implicit Types (m : HS) (P : Router.Event -> Prop).

Lemma emits_handleError P req resp err :
  (forall e, P (Router.EvOnError req e)) -> emits P (handleError req resp err).
Proof.
  intros HP. unfold Router.handleError.
  destruct onError; [by apply emits_extern | apply emits_ret].
Qed.

Lemma emits_finish P req resp err :
  (forall r e, P (Router.EvOnError r e)) -> emits P (Router.finish (Limiter := Limiter) onError req resp err).
Proof.
  intros HP. unfold Router.finish.
  apply emits_bind; [by apply emits_handleError |].
  intros [? ?]. apply emits_ret.
Qed.

Lemma emits_run_handlers P handles req resp :
  (forall r, P (Router.EvHandle r)) -> (forall r e, P (Router.EvOnError r e)) ->
  emits P (run_handlers handles req resp).
Proof.
  intros HH HE. unfold Router.run_handlers. destruct handles; [| apply emits_ret].
  apply emits_bind; [by apply emits_extern |].
  intros [[mut resp'] [e|]]; cbn; [| apply emits_ret].
  apply emits_bind; [by apply emits_handleError |].
  intros [? ?]. apply emits_ret.
Qed.

Lemma emits_save_and_retry P handles gvk key obj req resp err :
  (forall o r, P (Router.EvSave o r)) -> (forall r e, P (Router.EvOnError r e)) ->
  (forall d, 0 < d -> P (Router.EvBackendTrigger gvk key d)) ->
  emits P (save_and_retry handles gvk key obj req resp err).
Proof.
  intros HS HE HT. unfold Router.save_and_retry.
  destruct handles; [| by apply emits_finish].
  apply emits_bind; [by apply emits_extern |].
  intros [newObj serr].
  apply emits_bind.
  { destruct serr; [by apply emits_handleError | apply emits_ret]. }
  intros [resp' [e|]]; [apply emits_ret |].
  destruct (Z.gtb_spec (Router.delay resp') 0) as [Hpos|_]; [| by apply emits_finish].
  apply emits_bind; [apply emits_extern, HT; lia |].
  intros [e|]; [apply emits_ret | by apply emits_finish].
Qed.

Lemma count_app p (a b : list Router.Event) : count p (a ++ b) = (count p a + count p b)%nat.
Proof. unfold count. by rewrite filter_app, length_app. Qed.

Lemma count_no_fanout (evs : list Router.Event) :
  Forall no_fanout evs ->
  count is_Trigger evs = 0%nat /\ count is_UnregisterAndTrigger evs = 0%nat.
Proof.
  unfold count. induction 1 as [|ev evs [Ht Hu] _ [IHt IHu]]; [done |].
  rewrite !filter_cons. rewrite Ht, Hu.
  destruct (decide (false = true)); done.
Qed.

Lemma run_handlers_keeps_flag handles req resp m :
  Router.FromTrigger (run_handlers handles req resp m).1.1.1 = Router.FromTrigger req.
Proof.
  unfold Router.run_handlers, Eff.bind, Router.extern, Router.handleError, Eff.ret.
  destruct handles; [| done].
  destruct (handlers_Handle req resp (Router.world m)) as [[[mut resp'] herr] w]. cbn.
  destruct herr as [e|]; [| done].
  destruct onError as [f|]; [| done]. unfold Router.extern. cbn.
  match goal with
  | |- context [f ?a ?b ?c ?d] => by destruct (f a b c d) as [[? ?] ?]
  end.
Qed.

(** [handle] is its prologue, then, unless the chain aborted, the
    subscription step and the save step. *)
Lemma handle_unfold gvk key obj trigger m :
  handle gvk key obj trigger m =
  let '((handles, (req, resp, abort)), m1) := handle_prologue gvk key obj trigger m in
  match abort with
  | Some e => ((None, Some e), m1)
  | None =>
      Eff.bind (update_triggers obj req)
               (fun _ => save_and_retry handles gvk key obj req resp None) m1
  end.
Proof.
  unfold Router.handle, Router.handle_prologue.
  destruct (Router.newRequestResponse gvk key obj trigger) as [[req resp] err] eqn:E.
  assert (err = None) as ->.
  { unfold Router.newRequestResponse in E. destruct (Router.split_key key).
    by injection E. }
  unfold Eff.bind, Eff.ret. destruct (Router.extern _ _ m) as [handles m0].
  destruct (run_handlers handles req resp m0) as [[[req1 resp1] abort] m1].
  by destruct abort.
Qed.

(** C1, amended. A dispatch whose handler chain failed with an error that
    the error callback did not clear stops before the subscription step and
    calls neither [Trigger] nor [UnregisterAndTrigger]. Every other
    dispatch: with a nil object it calls [UnregisterAndTrigger] once and
    [Trigger] never; with an object and [FromTrigger] set it calls neither;
    with an object and [FromTrigger] clear it calls [Trigger] once. The
    call is made on the request as the handler chain left it, in the world
    the chain left, and the save step goes on from the world the call
    returned; neither the steps before nor the save step can reach the
    trigger registry. *)
Theorem handle_subscription_update gvk key obj trigger m :
  let '((handles, (req, resp, abort)), m1) := handle_prologue gvk key obj trigger m in
  Router.FromTrigger req = trigger
  /\ (exists new,
        Router.log (handle gvk key obj trigger m).2 = Router.log m ++ new
        /\ match abort with
           | Some _ =>
               count is_Trigger new = 0%nat /\ count is_UnregisterAndTrigger new = 0%nat
           | None =>
               match obj with
               | None =>
                   count is_UnregisterAndTrigger new = 1%nat
                   /\ count is_Trigger new = 0%nat
                   /\ Router.EvUnregisterAndTrigger req ∈ new
               | Some _ =>
                   count is_UnregisterAndTrigger new = 0%nat
                   /\ count is_Trigger new = (if trigger then 0 else 1)%nat
                   /\ (trigger = false -> Router.EvTrigger req ∈ new)
               end
           end)
  /\ handle gvk key obj trigger m
     = match abort with
       | Some e => ((None, Some e), m1)
       | None =>
           save_and_retry handles gvk key obj req resp None
             (Router.mkHS
                (Router.limiters m1) (Router.waiting m1) (Router.sleeping m1)
                (match obj with
                 | None => triggers_UnregisterAndTrigger req (Router.world m1)
                 | Some _ =>
                     if trigger then Router.world m1
                     else triggers_Trigger req (Router.world m1)
                 end)
                (Router.log m1
                 ++ match obj with
                    | None => [Router.EvUnregisterAndTrigger req]
                    | Some _ => if trigger then [] else [Router.EvTrigger req]
                    end))
       end.
Proof.
  rewrite handle_unfold.
  assert (Hflag : Router.FromTrigger (handle_prologue gvk key obj trigger m).1.2.1.1 = trigger).
  { unfold Router.handle_prologue, Router.newRequestResponse.
    destruct (Router.split_key key) as [ns name].
    unfold Eff.bind at 1. destruct (Router.extern _ _ m) as [handles m0].
    unfold Eff.bind. pose proof (run_handlers_keeps_flag handles
      (Router.mkRequest trigger gvk (Router.toObject obj) ns name key)
      (Router.mkResponse 0 (Router.mkRegistry gvk ∅ key)) m0) as H.
    destruct (run_handlers _ _ _ m0) as [[[? ?] ?] ?]. exact H. }
  assert (Hpre : emits no_fanout (handle_prologue gvk key obj trigger)).
  { unfold Router.handle_prologue.
    destruct (Router.newRequestResponse gvk key obj trigger) as [[req resp] err].
    apply emits_bind; [by apply emits_extern |]. intros handles.
    apply emits_bind; [by apply emits_run_handlers |]. intros ?. apply emits_ret. }
  destruct (Hpre m) as (pre & Hlog1 & Hpre_ok).
  destruct (handle_prologue gvk key obj trigger m) as [[handles [[req resp] abort]] m1].
  cbn in Hflag, Hlog1. split; [done |].
  apply count_no_fanout in Hpre_ok as [Hpt Hpu].
  destruct abort as [e|].
  { split; [| done]. exists pre. cbn. done. }
  assert (Hsave : emits (World := World) (Limiter := Limiter) no_fanout
                        (save_and_retry handles gvk key obj req resp None)).
  { by apply emits_save_and_retry. }
  unfold Eff.bind, Router.update_triggers.
  destruct obj as [o|].
  - rewrite Hflag. destruct trigger; cbn [negb].
    + split.
      * destruct (Hsave m1) as (evs & Hlog2 & Hevs).
        apply count_no_fanout in Hevs as [Het Heu].
        exists (pre ++ evs). cbn. rewrite Hlog2, Hlog1, app_assoc, !count_app.
        split; [done |]. split; [lia |]. split; [lia | done].
      * unfold Eff.ret. rewrite app_nil_r. by destruct m1.
    + unfold Router.extern. cbn.
      set (m1' := Router.mkHS _ _ _ _ _). split; [| done].
      destruct (Hsave m1') as (evs & Hlog2 & Hevs).
      apply count_no_fanout in Hevs as [Het Heu].
      exists (pre ++ Router.EvTrigger req :: evs).
      rewrite Hlog2. subst m1'. cbn [Router.log]. rewrite Hlog1.
      rewrite <- !app_assoc. cbn [app].
      change (Router.EvTrigger req :: evs) with ([Router.EvTrigger req] ++ evs).
      rewrite !count_app, Hpt, Hpu, Het, Heu.
      split; [done |]. split; [done |]. split; [done |].
      intros _. apply elem_of_app. right. apply elem_of_app. left. by apply list_elem_of_singleton.
  - unfold Router.extern. cbn.
    set (m1' := Router.mkHS _ _ _ _ _). split; [| done].
    destruct (Hsave m1') as (evs & Hlog2 & Hevs).
    apply count_no_fanout in Hevs as [Het Heu].
    exists (pre ++ Router.EvUnregisterAndTrigger req :: evs).
    rewrite Hlog2. subst m1'. cbn [Router.log]. rewrite Hlog1.
    rewrite <- !app_assoc. cbn [app].
    change (Router.EvUnregisterAndTrigger req :: evs)
      with ([Router.EvUnregisterAndTrigger req] ++ evs).
    rewrite !count_app, Hpt, Hpu, Het, Heu.
    split; [done |]. split; [done |]. split; [done |].
    apply elem_of_app. right. apply elem_of_app. left. by apply list_elem_of_singleton.
Qed.

(** The first thing [handle] logs is the request it built. *)
Lemma handle_log P gvk key obj trigger m :
  (forall r, P (Router.EvHandle r)) ->
  (forall r e, P (Router.EvOnError r e)) ->
  (forall r, P (Router.EvUnregisterAndTrigger r)) ->
  (forall r, P (Router.EvTrigger r)) ->
  (forall o r, P (Router.EvSave o r)) ->
  (forall d, 0 < d -> P (Router.EvBackendTrigger gvk key d)) ->
  exists rest,
    Router.log (handle gvk key obj trigger m).2
    = Router.log m
      ++ Router.EvHandles (Router.newRequestResponse gvk key obj trigger).1.1 :: rest
    /\ Forall P rest.
Proof.
  intros HH HE HU HT HS HB. rewrite handle_unfold. unfold Router.handle_prologue.
  destruct (Router.newRequestResponse gvk key obj trigger) as [[req resp] err].
  unfold Eff.bind at 1. unfold Router.extern at 1. cbn.
  set (m0 := Router.mkHS _ _ _ _ _).
  unfold Eff.bind at 1.
  destruct (emits_run_handlers P (handlers_Handles req (Router.world m)) req resp HH HE m0)
    as (pre & Hlog1 & Hpre).
  destruct (run_handlers _ req resp m0) as [[[req1 resp1] abort] m1].
  cbn in Hlog1. cbn. destruct abort as [e|].
  { exists pre. subst m0. cbn in Hlog1. cbn. rewrite Hlog1, <- app_assoc. done. }
  assert (Hrest : emits (World := World) (Limiter := Limiter) P
            (Eff.bind (update_triggers obj req1)
               (fun _ => save_and_retry (handlers_Handles req (Router.world m))
                           gvk key obj req1 resp1 None))).
  { apply emits_bind; [| intros _; by apply emits_save_and_retry].
    unfold Router.update_triggers. destruct obj; [| by apply emits_extern].
    destruct (negb _); [by apply emits_extern | apply emits_ret]. }
  destruct (Hrest m1) as (evs & Hlog2 & Hevs).
  exists (pre ++ evs). split; [| by apply Forall_app].
  rewrite Hlog2, Hlog1. subst m0. cbn. by rewrite <- !app_assoc.
Qed.



Lemma toObject_nil (obj : option Object) : Router.toObject obj = None <-> obj = None.
Proof. by destruct obj. Qed.

(** The gate reads the clock and moves the bucket, and nothing else of the
    world; it logs the reservation only. *)
Lemma checkDelay_frame gvk key m :
  Router.world (checkDelay gvk key m).2 = Router.world m
  /\ exists evs,
       Router.log (checkDelay gvk key m).2 = Router.log m ++ evs
       /\ Forall (is_reserve (key, gvk)) evs.
Proof.
  unfold Router.checkDelay, Eff.bind, Eff.gets, Eff.ret. cbn.
  destruct (decide ((key, gvk) ∈ Router.waiting m)).
  { cbn. split; [done |]. exists []. by rewrite app_nil_r. }
  destruct (Router.limiters m !! (key, gvk)) as [l|]; cbn;
    unfold Router.extern; cbn.
  - destruct (Reserve_Delay l (Router.world m)) as [d l']. cbn.
    destruct (d >? 0); cbn; (split; [done |]);
      exists [Router.EvReserve (key, gvk)]; (split; [done |]); by constructor.
  - destruct (Reserve_Delay (NewLimiter (1 # 5) 10) (Router.world m)) as [d l']. cbn.
    destruct (d >? 0); cbn; (split; [done |]);
      exists [Router.EvReserve (key, gvk)]; (split; [done |]); by constructor.
Qed.


Lemma reserve_is_not_a_request lKey (evs : list Router.Event) :
  Forall (is_reserve lKey) evs -> Forall not_a_request evs.
Proof. intros H. eapply Forall_impl; [exact H |]. by intros ev ->. Qed.

Lemma not_a_request_nil_iff_gone getErr ro (evs : list Router.Event) :
  Forall not_a_request evs -> Forall (request_nil_iff_gone getErr ro) evs.
Proof. intros H. eapply Forall_impl; [exact H |]. by intros []. Qed.

(** After the fresh read: forget the limiter when the object is gone, then
    [handle]. The request check comes first and only once. *)
Lemma dispatch_log gvk key X fromTrigger m :
  exists rest,
    Router.log
      (Eff.bind (match X with
                 | None => Router.forgetBackoff gvk key
                 | Some _ => Eff.ret tt
                 end)
                (fun _ => handle gvk key X fromTrigger) m).2
    = Router.log m
      ++ Router.EvHandles (Router.newRequestResponse gvk key X fromTrigger).1.1 :: rest
    /\ Forall not_a_request rest.
Proof.
  unfold Eff.bind.
  assert (exists m', (match X with
                      | None => Router.forgetBackoff gvk key
                      | Some _ => Eff.ret tt
                      end) m = (tt, m') /\ Router.log m' = Router.log m)
    as (m' & -> & <-).
  { destruct X; eexists; (split; [reflexivity | done]). }
  by apply handle_log.
Qed.

(** Between the lock and the unlock: the fresh read, then a request built
    from the fresh copy on success, from the event's object on not-found,
    and no request on any other error. *)
Lemma locked_dispatch_log gvk key obj0 ro fromTrigger m :
  let '(ns, name) := Router.split_key key in
  let '((fresh, getErr), _) := backend_Get (mkKey ns name) obj0 (Router.world m) in
  exists rest,
    Router.log (Router.locked_dispatch (Limiter := Limiter) backend_Get backend_Trigger
                  handlers_Handles handlers_Handle onError
                  triggers_UnregisterAndTrigger triggers_Trigger save_save
                  gvk key obj0 ro fromTrigger m).2
    = Router.log m ++ Router.EvBackendGet (mkKey ns name) :: rest
    /\ match getErr with
       | None =>
           exists rest',
             rest = Router.EvHandles
                      (Router.newRequestResponse gvk key (Some fresh) fromTrigger).1.1 :: rest'
             /\ Forall not_a_request rest'
       | Some e =>
           if IsNotFound_err e then
             exists rest',
               rest = Router.EvHandles
                        (Router.newRequestResponse gvk key ro fromTrigger).1.1 :: rest'
               /\ Forall not_a_request rest'
           else rest = []
       end.
Proof.
  unfold Router.locked_dispatch. destruct (Router.split_key key) as [ns name].
  unfold Eff.bind at 1. unfold Router.extern at 1.
  destruct (backend_Get (mkKey ns name) obj0 (Router.world m)) as [[fresh getErr] w].
  set (m1 := Router.mkHS _ _ _ _ _).
  assert (Hm1 : Router.log m1 = Router.log m ++ [Router.EvBackendGet (mkKey ns name)]) by done.
  clearbody m1.
  destruct getErr as [e|]; cbn [IsNotFound negb].
  - destruct (IsNotFound_err e); cbn [negb]; cbv beta iota zeta.
    + destruct (dispatch_log gvk key ro fromTrigger m1) as (rest & Hlog & Hrest).
      eexists. split; [| by exists rest].
      rewrite Hlog, Hm1, <- app_assoc. done.
    + exists []. cbn. by rewrite Hm1.
  - cbv beta iota zeta.
    destruct (dispatch_log gvk key (Some fresh) fromTrigger m1) as (rest & Hlog & Hrest).
    eexists. split; [| by exists rest].
    rewrite Hlog, Hm1, <- app_assoc. done.
Qed.

(** What [onChange] logs: a request only after a read that succeeded or
    reported not-found, and then one whose object is nil exactly when the
    read reported not-found and the event carried none. *)
Lemma onChange_request_log gvk key ro m obj0 :
  scheme_New gvk = inl obj0 ->
  let '(fromTrigger, fromReplay, k) := Router.decode_key key in
  let '(ns, name) := Router.split_key k in
  let getErr := (backend_Get (mkKey ns name) obj0 (Router.world m)).1.2 in
  exists new,
    Router.log (onChange gvk key ro m).2 = Router.log m ++ new
    /\ Forall (request_nil_iff_gone getErr ro) new
    /\ ((if negb fromReplay && negb fromTrigger
         then (checkDelay gvk k m).1 else true) = true ->
        IsNotFound getErr = true \/ getErr = None ->
        exists req, Router.EvHandles req ∈ new /\ Router.FromTrigger req = fromTrigger).
Proof.
  intros Hnew. unfold Router.onChange.
  destruct (Router.decode_key key) as [[fromTrigger fromReplay] k].
  destruct (Router.split_key k) as [ns name] eqn:Hsplit.
  set (gate := if negb fromReplay && negb fromTrigger
               then checkDelay gvk k else Eff.ret true).
  assert (Hgate : Router.world (gate m).2 = Router.world m
                  /\ exists evs, Router.log (gate m).2 = Router.log m ++ evs
                                 /\ Forall not_a_request evs).
  { subst gate. destruct (negb fromReplay && negb fromTrigger).
    - destruct (checkDelay_frame gvk k m) as (Hw & evs & Hlog & Hevs).
      split; [done |]. exists evs. split; [done |].
      by eapply reserve_is_not_a_request.
    - split; [done |]. exists []. cbn. by rewrite app_nil_r. }
  assert (Hopen : (if negb fromReplay && negb fromTrigger
                   then (checkDelay gvk k m).1 else true) = (gate m).1).
  { subst gate. by destruct (negb fromReplay && negb fromTrigger). }
  rewrite Hopen. clearbody gate. unfold Eff.bind at 1.
  destruct (gate m) as [proceed m1]. cbn in Hgate, Hopen |- *.
  destruct Hgate as (Hw & evs1 & Hlog1 & Hevs1).
  destruct proceed; cbn [negb].
  2:{ exists evs1. split; [done |]. split; [| done].
      by apply not_a_request_nil_iff_gone. }
  unfold Router.after_gate. rewrite Hnew.
  unfold Eff.bind at 1. unfold Router.emit at 1, Router.extern at 1. cbv beta iota zeta.
  set (m2 := Router.mkHS _ _ _ _ _).
  assert (Hm2 : Router.log m2 = Router.log m ++ evs1 ++ [Router.EvLock (Kind gvk +:+ " " +:+ k)]).
  { subst m2. cbn. by rewrite Hlog1, <- app_assoc. }
  assert (Hw2 : Router.world m2 = Router.world m) by done.
  clearbody m2.
  pose proof (locked_dispatch_log gvk k obj0 ro fromTrigger m2) as Hlocked.
  rewrite Hsplit, Hw2 in Hlocked.
  destruct (backend_Get (mkKey ns name) obj0 (Router.world m)) as [[fresh getErr] w].
  destruct Hlocked as (rest & Hlog & Hrest). cbn [fst snd].
  unfold Eff.bind at 1.
  destruct (Router.locked_dispatch _ _ _ _ _ _ _ _ _ _ _ _ _ m2) as [r m3].
  cbn in Hlog. unfold Eff.bind, Router.emit, Router.extern, Eff.ret. cbn.
  exists (evs1 ++ [Router.EvLock (Kind gvk +:+ " " +:+ k)]
          ++ Router.EvBackendGet (mkKey ns name) :: rest
          ++ [Router.EvUnlock (Kind gvk +:+ " " +:+ k)]).
  split; [| split].
  - rewrite Hlog, Hm2. rewrite <- !app_assoc. cbn. by rewrite <- ?app_assoc.
  - apply Forall_app. split; [by apply not_a_request_nil_iff_gone |].
    constructor; [done |]. constructor; [done |].
    apply Forall_app. split; [| by repeat constructor].
    assert (Hreq : forall X, (Router.newRequestResponse gvk k X fromTrigger).1.1
                   = Router.mkRequest fromTrigger gvk (Router.toObject X) ns name k).
    { intros X. unfold Router.newRequestResponse. by rewrite Hsplit. }
    destruct getErr as [e|]; cbn [IsNotFound].
    + destruct (IsNotFound_err e) eqn:Hnf.
      * destruct Hrest as (rest' & -> & Hrest').
        constructor; [| by apply not_a_request_nil_iff_gone].
        rewrite Hreq. cbn [request_nil_iff_gone Router.req_Object IsNotFound].
        rewrite Hnf.
        split; [intros H; split; [done | by apply toObject_nil] | by intros [_ ->]].
      * subst rest. constructor.
    + destruct Hrest as (rest' & -> & Hrest').
      constructor; [| by apply not_a_request_nil_iff_gone].
      rewrite Hreq. cbn [request_nil_iff_gone Router.req_Object Router.toObject].
      split; [done | by intros [? _]].
  - intros _ Hok.
    assert (exists rest', rest = Router.EvHandles
              (Router.newRequestResponse gvk k
                 (match getErr with None => Some fresh | Some _ => ro end)
                 fromTrigger).1.1 :: rest') as (rest' & ->).
    { destruct getErr as [e|]; cbn [IsNotFound] in *.
      - destruct (IsNotFound_err e); [| by destruct Hok].
        destruct Hrest as (rest' & -> & _). by exists rest'.
      - destruct Hrest as (rest' & -> & _). by exists rest'. }
    eexists. split.
    + apply elem_of_app. right. apply elem_of_cons. right.
      apply elem_of_cons. right. apply elem_of_cons. left. reflexivity.
    + unfold Router.newRequestResponse. by destruct (Router.split_key k).
Qed.

(** [onChange] once the gate is passed, call by call: the lock, the fresh
    read, [handle] on the fresh copy when the read succeeds and on the
    event's object when it reports not-found (after dropping the limiter if
    there is none), no [handle] on any other error, and the unlock. *)
Lemma after_gate_steps gvk k ro fromTrigger m obj0 :
  scheme_New gvk = inl obj0 ->
  let '(ns, name) := Router.split_key k in
  let lockKey := Kind gvk +:+ " " +:+ k in
  let '((fresh, err), w2) := backend_Get (mkKey ns name) obj0 (Router.world m) in
  let m2 := Router.mkHS (Router.limiters m) (Router.waiting m) (Router.sleeping m) w2
                        (Router.log m
                         ++ [Router.EvLock lockKey; Router.EvBackendGet (mkKey ns name)]) in
  let unlocked (r : (option Object * option error) * HS) :=
    (r.1, Router.mkHS (Router.limiters r.2) (Router.waiting r.2) (Router.sleeping r.2)
                      (Router.world r.2) (Router.log r.2 ++ [Router.EvUnlock lockKey])) in
  after_gate gvk k ro fromTrigger m
  = match err with
    | None => unlocked (handle gvk k (Some fresh) fromTrigger m2)
    | Some e =>
        if IsNotFound_err e then
          unlocked
            (handle gvk k ro fromTrigger
               (match ro with
                | Some _ => m2
                | None =>
                    Router.mkHS (delete (k, gvk) (Router.limiters m2)) (Router.waiting m2)
                                (Router.sleeping m2) (Router.world m2) (Router.log m2)
                end))
        else unlocked ((None, Some e), m2)
    end.
Proof.
  intros Hnew. unfold Router.after_gate. rewrite Hnew.
  unfold Router.locked_dispatch. destruct (Router.split_key k) as [ns name].
  unfold Eff.bind, Router.emit, Router.extern, Eff.ret. cbn [Router.world Router.log
    Router.limiters Router.waiting Router.sleeping].
  destruct (backend_Get (mkKey ns name) obj0 (Router.world m)) as [[fresh err] w2].
  rewrite <- app_assoc. cbn [app].
  destruct err as [e|]; cbn [IsNotFound negb].
  - destruct (IsNotFound_err e); cbn [negb].
    + destruct ro as [o|]; unfold Router.forgetBackoff, Eff.modify;
        by destruct (handle gvk k _ fromTrigger _) as [r m3].
    + done.
  - by destruct (handle gvk k (Some fresh) fromTrigger _) as [r m3].
Qed.

(** C6, amended. In every dispatch through [onChange] that builds a
    request, [Request.Object] is nil exactly when the fresh backend [Get]
    reports not-found and the incoming event carried no object; a not-found
    read keeps the object the event carried. A request is built whenever
    the gate lets the dispatch through and the read succeeds or reports
    not-found: [handle] is then run on the fresh copy after a successful
    read and on the event's object after a not-found one, and the request
    it builds, the one the handlers are asked about, holds a copy of that
    object. *)
Theorem onChange_request_object gvk key ro m obj0 :
  scheme_New gvk = inl obj0 ->
  let '(fromTrigger, fromReplay, k) := Router.decode_key key in
  let '(ns, name) := Router.split_key k in
  let getErr := (backend_Get (mkKey ns name) obj0 (Router.world m)).1.2 in
  (exists new,
    Router.log (onChange gvk key ro m).2 = Router.log m ++ new
    /\ Forall (request_nil_iff_gone getErr ro) new
    /\ ((if negb fromReplay && negb fromTrigger
         then (checkDelay gvk k m).1 else true) = true ->
        IsNotFound getErr = true \/ getErr = None ->
        exists req, Router.EvHandles req ∈ new /\ Router.FromTrigger req = fromTrigger))
  /\ ((if negb fromReplay && negb fromTrigger
       then (checkDelay gvk k m).1 else true) = true ->
      let m1 := if negb fromReplay && negb fromTrigger
                then (checkDelay gvk k m).2 else m in
      let lockKey := Kind gvk +:+ " " +:+ k in
      let '((fresh, err), w2) := backend_Get (mkKey ns name) obj0 (Router.world m) in
      let m2 := Router.mkHS (Router.limiters m1) (Router.waiting m1) (Router.sleeping m1) w2
                            (Router.log m1
                             ++ [Router.EvLock lockKey;
                                 Router.EvBackendGet (mkKey ns name)]) in
      let unlocked (r : (option Object * option error) * HS) :=
        (r.1, Router.mkHS (Router.limiters r.2) (Router.waiting r.2) (Router.sleeping r.2)
                          (Router.world r.2)
                          (Router.log r.2 ++ [Router.EvUnlock lockKey])) in
      onChange gvk key ro m
      = match err with
        | None => unlocked (handle gvk k (Some fresh) fromTrigger m2)
        | Some e =>
            if IsNotFound_err e then
              unlocked
                (handle gvk k ro fromTrigger
                   (match ro with
                    | Some _ => m2
                    | None =>
                        Router.mkHS (delete (k, gvk) (Router.limiters m2))
                                    (Router.waiting m2) (Router.sleeping m2)
                                    (Router.world m2) (Router.log m2)
                    end))
            else unlocked ((None, Some e), m2)
        end)
  /\ (forall X m',
        (Router.newRequestResponse gvk k X fromTrigger).1.1
        = Router.mkRequest fromTrigger gvk (Router.toObject X) ns name k
        /\ (handle_prologue gvk k X fromTrigger m').1.1
           = handlers_Handles
               (Router.mkRequest fromTrigger gvk (Router.toObject X) ns name k)
               (Router.world m')).
Proof.
  intros Hnew.
  pose proof (after_gate_steps gvk) as Hsteps.
  pose proof (checkDelay_frame gvk) as Hframe.
  destruct (Router.decode_key key) as [[fromTrigger fromReplay] k] eqn:Hdecode.
  specialize (Hsteps k ro fromTrigger). specialize (Hframe k m).
  destruct (Router.split_key k) as [ns name] eqn:Hsplit.
  cbv zeta. split; [| split].
  - pose proof (onChange_request_log gvk key ro m obj0 Hnew) as Hlog.
    rewrite Hdecode, Hsplit in Hlog. exact Hlog.
  - intros Hopen. unfold Router.onChange. rewrite Hdecode. unfold Eff.bind at 1.
    destruct (negb fromReplay && negb fromTrigger).
    + destruct Hframe as [Hw _].
      destruct (checkDelay gvk k m) as [proceed m1]. cbn [fst snd] in *. subst proceed.
      cbn [negb]. specialize (Hsteps m1 obj0 Hnew). rewrite Hw in Hsteps. exact Hsteps.
    + unfold Eff.ret. cbn [negb]. exact (Hsteps m obj0 Hnew).
  - intros X m'.
    assert (Hreq : (Router.newRequestResponse gvk k X fromTrigger).1.1
                   = Router.mkRequest fromTrigger gvk (Router.toObject X) ns name k).
    { unfold Router.newRequestResponse. by rewrite Hsplit. }
    split; [exact Hreq |].
    unfold Router.handle_prologue.
    destruct (Router.newRequestResponse gvk k X fromTrigger) as [[req resp] err].
    cbn [fst] in Hreq. subst req.
    unfold Eff.bind at 1. unfold Router.extern at 1. cbv beta iota zeta.
    unfold Eff.bind.
    by destruct (run_handlers _ _ _ _) as [ran m3].
Qed.

(** C2. [onChange] runs [checkDelay] exactly for keys that bear neither the
    "_t " nor the "_r " prefix, and when the gate says no it returns the
    incoming object and a nil error with nothing else done. The gate keeps
    one limiter per (key, kind), made on first use with rate 1/5 per second
    and burst 10. A key already waiting is refused and nothing changes. For
    a key not waiting a token is reserved: a positive delay puts the key in
    the waiting set, parks exactly one sleeper and refuses; otherwise the
    dispatch goes on. A sleeper that wakes removes its key from the waiting
    set and calls [Backend.Trigger(gvk, "_r "+key, 0)]. *)
Theorem onChange_rate_limit_gate gvk key ro m :
  (HasPrefix key Router.TriggerPrefix || HasPrefix key Router.ReplayPrefix = true ->
   let '(fromTrigger, _, k) := Router.decode_key key in
   onChange gvk key ro m = after_gate gvk k ro fromTrigger m)
  /\ (HasPrefix key Router.TriggerPrefix || HasPrefix key Router.ReplayPrefix = false ->
      onChange gvk key ro m =
        let '(proceed, m1) := checkDelay gvk key m in
        if proceed then after_gate gvk key ro false m1 else ((ro, None), m1))
  /\ ((key, gvk) ∈ Router.waiting m -> checkDelay gvk key m = (false, m))
  /\ ((key, gvk) ∉ Router.waiting m ->
      let limit := default (NewLimiter (1 # 5) 10) (Router.limiters m !! (key, gvk)) in
      let '(d, limit') := Reserve_Delay limit (Router.world m) in
      checkDelay gvk key m =
        if d >? 0 then
          (false,
           Router.mkHS (<[(key, gvk) := limit']> (Router.limiters m))
                       ({[(key, gvk)]} ∪ Router.waiting m)
                       (Router.sleeping m ++ [((key, gvk), d)])
                       (Router.world m)
                       (Router.log m ++ [Router.EvReserve (key, gvk)]))
        else
          (true,
           Router.mkHS (<[(key, gvk) := limit']> (Router.limiters m))
                       (Router.waiting m) (Router.sleeping m) (Router.world m)
                       (Router.log m ++ [Router.EvReserve (key, gvk)])))
  /\ after_sleep (key, gvk) m =
       (tt,
        Router.mkHS (Router.limiters m) (Router.waiting m ∖ {[(key, gvk)]})
                    (Router.sleeping m)
                    (backend_Trigger gvk ("_r " +:+ key) 0 (Router.world m)).2
                    (Router.log m ++ [Router.EvBackendTrigger gvk ("_r " +:+ key) 0]))
  /\ (forall i d, Router.sleeping m !! i = Some ((key, gvk), d) ->
        Router.wake backend_Trigger i m =
        after_sleep (key, gvk)
          (Router.mkHS (Router.limiters m) (Router.waiting m)
                       (delete i (Router.sleeping m)) (Router.world m) (Router.log m))).
Proof.
  split; [| split; [| split; [| split; [| split]]]].
  - unfold Router.onChange, Router.decode_key.
    destruct (HasPrefix key Router.TriggerPrefix); cbn [orb].
    + intros _. by destruct (HasPrefix (TrimPrefix key Router.TriggerPrefix) Router.ReplayPrefix).
    + by intros ->.
  - unfold Router.onChange, Router.decode_key.
    destruct (HasPrefix key Router.TriggerPrefix); cbn [orb]; [done |].
    intros ->. cbn [negb andb]. unfold Eff.bind.
    destruct (checkDelay gvk key m) as [[] m1]; done.
  - intros Hin. unfold Router.checkDelay, Eff.bind, Eff.gets, Eff.ret.
    by destruct (decide ((key, gvk) ∈ Router.waiting m)).
  - intros Hnotin. unfold Router.checkDelay, Eff.bind, Eff.gets, Eff.ret.
    destruct (decide ((key, gvk) ∈ Router.waiting m)); [done |].
    destruct (Router.limiters m !! (key, gvk)) as [l|]; cbn [default];
      unfold Router.extern, Router.set_limiter, Router.set_waiting,
             Router.spawn_sleeper, Eff.modify; cbn.
    + destruct (Reserve_Delay l (Router.world m)) as [d l']. cbn.
      by destruct (d >? 0).
    + destruct (Reserve_Delay (NewLimiter (1 # 5) 10) (Router.world m)) as [d l']. cbn.
      rewrite insert_insert_eq. by destruct (d >? 0).
  - unfold Router.after_sleep, Eff.bind, Router.set_waiting, Eff.modify, Router.extern,
           Router.ReplayPrefix, Eff.ret. cbn.
    by destruct (backend_Trigger gvk ("_r " +:+ key) 0 (Router.world m)).
  - intros i d Hi. unfold Router.wake, Eff.bind, Eff.gets, Eff.modify. cbn. by rewrite Hi.
Qed.
End Dispatch.

Example handle_deleted_object :
  Router.log (Bench.handle (Bench.retrying 0) Foo "foo/a" None false Bench.idle).2
  = [Router.EvHandles (Bench.request None false);
     Router.EvHandle (Bench.request None false);
     Router.EvUnregisterAndTrigger (Bench.request None false);
     Router.EvSave None (Bench.request None false)].
Proof. reflexivity. Qed.

Example handle_own_change_with_retry :
  Router.log (Bench.handle (Bench.retrying 7) Foo "foo/a" (Some Bench.foo_a) false Bench.idle).2
  = [Router.EvHandles (Bench.request (Some Bench.foo_a) false);
     Router.EvHandle (Bench.request (Some Bench.foo_a) false);
     Router.EvTrigger (Bench.request (Some Bench.foo_a) false);
     Router.EvSave (Some Bench.foo_a) (Bench.request (Some Bench.foo_a) false);
     Router.EvBackendTrigger Foo "foo/a" 7].
Proof. reflexivity. Qed.

Example handle_from_trigger :
  Router.log (Bench.handle (Bench.retrying 0) Foo "foo/a" (Some Bench.foo_a) true Bench.idle).2
  = [Router.EvHandles (Bench.request (Some Bench.foo_a) true);
     Router.EvHandle (Bench.request (Some Bench.foo_a) true);
     Router.EvSave (Some Bench.foo_a) (Bench.request (Some Bench.foo_a) true)].
Proof. reflexivity. Qed.

(** The same dispatches with collaborators that keep a ledger: what
    reached the trigger registry, the store and the backend, in order. *)
Example ledger_own_change_with_retry :
  Router.world (Ledger.handle 7 Foo "foo/a" (Some Bench.foo_a) false Ledger.idle).2
  = [Ledger.Handled (Bench.request (Some Bench.foo_a) false);
     Ledger.Triggered (Bench.request (Some Bench.foo_a) false);
     Ledger.Saved (Bench.request (Some Bench.foo_a) false);
     Ledger.Retried Foo "foo/a" 7].
Proof. reflexivity. Qed.

Example ledger_deleted_object :
  Router.world (Ledger.handle 0 Foo "foo/a" None false Ledger.idle).2
  = [Ledger.Handled (Bench.request None false);
     Ledger.Unregistered (Bench.request None false);
     Ledger.Saved (Bench.request None false)].
Proof. reflexivity. Qed.

Example ledger_from_trigger :
  Router.world (Ledger.handle 0 Foo "foo/a" (Some Bench.foo_a) true Ledger.idle).2
  = [Ledger.Handled (Bench.request (Some Bench.foo_a) true);
     Ledger.Saved (Bench.request (Some Bench.foo_a) true)].
Proof. reflexivity. Qed.

Example ledger_event_object_kept_when_gone :
  Router.world (Ledger.onChange 0 Foo "_t foo/a" (Some Bench.foo_a) Ledger.idle).2
  = [Ledger.Read (mkKey "foo" "a");
     Ledger.Handled (Bench.request (Some Bench.foo_a) true);
     Ledger.Saved (Bench.request (Some Bench.foo_a) true)].
Proof. reflexivity. Qed.

(** C1 as stated fails: when the handler chain fails and no error callback
    clears the error, [handle] returns before the subscription step; with a
    nil object [UnregisterAndTrigger] is not called, and with an object and
    [FromTrigger] clear [Trigger] is not called. *)
Lemma handle_abort_skips_subscription_update :
  Bench.handle Bench.failing Foo "foo/a" None false Bench.idle
  = ((None, Some (ErrOther "boom")),
     Router.mkHS ∅ ∅ [] tt [Router.EvHandles (Bench.request None false);
                            Router.EvHandle (Bench.request None false)])
  /\ count is_UnregisterAndTrigger
           (Router.log (Bench.handle Bench.failing Foo "foo/a" None false Bench.idle).2) = 0%nat
  /\ count is_Trigger
           (Router.log (Bench.handle Bench.failing Foo "foo/a" (Some Bench.foo_a) false
                                     Bench.idle).2) = 0%nat.
Proof. repeat split; reflexivity. Qed.

Lemma handle_subscription_update_witness :
  exists new,
    Router.log (Bench.handle (Bench.retrying 0) Foo "foo/a" (Some Bench.foo_a) false
                             Bench.idle).2 = [] ++ new
    /\ count is_UnregisterAndTrigger new = 0%nat
    /\ count is_Trigger new = 1%nat
    /\ (false = false -> Router.EvTrigger (Bench.request (Some Bench.foo_a) false) ∈ new).
Proof.
  exact (proj1 (proj2 (handle_subscription_update Bench.backend_Trigger Bench.Handles
                  (Bench.retrying 0) None Bench.registry_noop Bench.registry_noop
                  Bench.save_noop Foo "foo/a" (Some Bench.foo_a) false Bench.idle))).
Defined.



Example RetryAfter_zero_on_fresh :
  Router.RetryAfter (Router.mkResponse 0 (Router.mkRegistry Foo ∅ "foo/a")) 0
  = Router.mkResponse 0 (Router.mkRegistry Foo ∅ "foo/a").
Proof. reflexivity. Qed.

Lemma onChange_request_object_witness :
  exists new,
    Router.log (Bench.onChange (Bench.retrying 0) Foo "_t foo/a" None Bench.idle).2
    = [] ++ new
    /\ Forall (request_nil_iff_gone (Some (ErrNotFound "a")) None) new
    /\ (true = true ->
        IsNotFound (Some (ErrNotFound "a")) = true \/ Some (ErrNotFound "a") = None ->
        exists req, Router.EvHandles req ∈ new /\ Router.FromTrigger req = true).
Proof.
  exact (proj1 (onChange_request_object Bench.NewLimiter Bench.Reserve_Delay
                  Bench.scheme_New Bench.gone Bench.backend_Trigger Bench.Handles
                  (Bench.retrying 0) None Bench.registry_noop Bench.registry_noop
                  Bench.save_noop Foo "_t foo/a" None Bench.idle (blank Foo) eq_refl)).
Defined.

(** C6 as stated fails: the fresh read says not-found, the event carried
    the informer's copy of the object, and the request is built with that
    copy, not with nil. *)
Lemma onChange_keeps_event_object_when_gone :
  IsNotFound (Bench.gone (mkKey "foo" "a") (blank Foo) tt).1.2 = true
  /\ Router.log (Bench.onChange (Bench.retrying 0) Foo "foo/a" (Some Bench.foo_a) Bench.idle).2
     = [Router.EvReserve ("foo/a", Foo);
        Router.EvLock "Foo foo/a";
        Router.EvBackendGet (mkKey "foo" "a");
        Router.EvHandles (Bench.request (Some Bench.foo_a) false);
        Router.EvHandle (Bench.request (Some Bench.foo_a) false);
        Router.EvTrigger (Bench.request (Some Bench.foo_a) false);
        Router.EvSave (Some Bench.foo_a) (Bench.request (Some Bench.foo_a) false);
        Router.EvUnlock "Foo foo/a"]
  /\ Router.req_Object (Bench.request (Some Bench.foo_a) false) <> None.
Proof. repeat split; try discriminate; vm_compute; reflexivity. Qed.

(** Ten dispatches pass, the eleventh is refused and parks one sleeper, the
    twelfth is refused and parks none; the sleeper, once awake, clears the
    waiting flag and replays the key. *)
Example gate_burst :
  (knock 12 Bench.idle).1
  = [true; true; true; true; true; true; true; true; true; true; false; false]
  /\ Router.sleeping (knock 12 Bench.idle).2 = [(("foo/a", Foo), 5000000000)]
  /\ Router.log (Router.wake Bench.backend_Trigger 0 (knock 12 Bench.idle).2).2
     = replicate 11 (Router.EvReserve ("foo/a", Foo))
       ++ [Router.EvBackendTrigger Foo "_r foo/a" 0]
  /\ Router.waiting (Router.wake Bench.backend_Trigger 0 (knock 12 Bench.idle).2).2 = ∅.
Proof. repeat split; vm_compute; reflexivity. Qed.

Lemma onChange_rate_limit_gate_witness :
  Bench.checkDelay Foo "foo/a" (knock 11 Bench.idle).2 = (false, (knock 11 Bench.idle).2).
Proof.
  apply (proj1 (proj2 (proj2 (onChange_rate_limit_gate Bench.NewLimiter Bench.Reserve_Delay
                 Bench.scheme_New Bench.gone Bench.backend_Trigger Bench.Handles
                 (Bench.retrying 0) None Bench.registry_noop Bench.registry_noop
                 Bench.save_noop Foo "foo/a" None (knock 11 Bench.idle).2)))).
  vm_compute. reflexivity.
Defined.

(* ===================================================================== *)
(** * Further properties of the code *)
(* ===================================================================== *)

(** ** Resource versions *)

Lemma digit_of_range c d : digit_of c = Some d -> 0 <= d <= 9.
Proof.
  unfold digit_of. destruct (_ && _) eqn:E; [| done].
  intros [= <-]. apply andb_prop in E as [H1 H2].
  apply N.leb_le in H1, H2. lia.
Qed.

Lemma digit_of_byte_order c d x y :
  digit_of c = Some x -> digit_of d = Some y ->
  ((byte c <? byte d)%N = (x <? y)) /\ (x = y -> c = d).
Proof.
  unfold digit_of.
  destruct ((48 <=? byte c)%N && (byte c <=? 57)%N) eqn:Ec; [| done].
  destruct ((48 <=? byte d)%N && (byte d <=? 57)%N) eqn:Ed; [| done].
  intros [= <-] [= <-]. split.
  - destruct (N.ltb_spec (byte c) (byte d)),
      (Z.ltb_spec (Z.of_N (byte c) - 48) (Z.of_N (byte d) - 48)); try done; lia.
  - intros H. apply byte_inj. lia.
Qed.

Lemma digits_value_bounds s :
  all_digits s = true -> 0 <= digits_value s < 10 ^ Z.of_nat (len s).
Proof.
  induction s as [|c s IH]; cbn [all_digits digits_value].
  - intros _. cbn. lia.
  - intros H. apply andb_prop in H as [Hc Hs].
    destruct (digit_of c) as [d|] eqn:Ed; [| done]. cbn [default from_option id].
    specialize (IH Hs). apply digit_of_range in Ed.
    change (len (String c s)) with (S (len s)).
    rewrite Nat2Z.inj_succ, Z.pow_succ_r by lia.
    set (p := 10 ^ Z.of_nat (len s)) in *. clearbody p. unfold id. nia.
Qed.

Lemma parse_digits_value s acc :
  all_digits s = true ->
  parse_digits acc s = Some (acc * 10 ^ Z.of_nat (len s) + digits_value s).
Proof.
  revert acc. induction s as [|c s IH]; intros acc; cbn [all_digits parse_digits digits_value].
  - intros _. cbn. f_equal. lia.
  - intros H. apply andb_prop in H as [Hc Hs].
    destruct (digit_of c) as [d|] eqn:Ed; [| done]. cbn [default from_option id].
    rewrite (IH _ Hs). f_equal.
    change (len (String c s)) with (S (len s)).
    rewrite Nat2Z.inj_succ, Z.pow_succ_r by lia. ring.
Qed.

Lemma Atoi_digits s x :
  all_digits s = true -> Atoi s = Some x -> x = digits_value s.
Proof.
  intros Hs. destruct s as [|c s]; [done |].
  pose proof Hs as Hs'. cbn [all_digits] in Hs'. apply andb_prop in Hs' as [Hc _].
  unfold Atoi.
  assert (Ascii.eqb c "-" = false) as ->.
  { apply Ascii.eqb_neq. intros ->. done. }
  assert (Ascii.eqb c "+" = false) as ->.
  { apply Ascii.eqb_neq. intros ->. done. }
  unfold parse_unsigned. rewrite (parse_digits_value _ 0 Hs).
  unfold in_int_range. destruct (_ && _); [| done]. intros [= <-].
  by rewrite Z.mul_0_l.
Qed.

Lemma string_lt_digits a b :
  len a = len b -> all_digits a = true -> all_digits b = true ->
  string_lt a b = (digits_value a <? digits_value b).
Proof.
  revert b. induction a as [|c a IH]; intros [|d b] Hlen Ha Hb; try done.
  cbn [all_digits] in Ha, Hb.
  apply andb_prop in Ha as [Hc Ha]. apply andb_prop in Hb as [Hd Hb].
  destruct (digit_of c) as [x|] eqn:Ex; [| done].
  destruct (digit_of d) as [y|] eqn:Ey; [| done].
  injection Hlen as Hlen.
  pose proof (digits_value_bounds a Ha) as Ba.
  pose proof (digits_value_bounds b Hb) as Bb.
  pose proof (digit_of_range _ _ Ex). pose proof (digit_of_range _ _ Ey).
  destruct (digit_of_byte_order c d x y Ex Ey) as [Hcd Heq].
  destruct (digit_of_byte_order d c y x Ey Ex) as [Hdc _].
  cbn [string_lt digits_value]. rewrite Ex, Ey. cbn [default from_option id].
  rewrite Hcd, Hdc. rewrite Hlen in Ba |- *.
  set (p := 10 ^ Z.of_nat (len b)) in *.
  assert (0 < p) by (subst p; apply Z.pow_pos_nonneg; lia).
  clearbody p.
  destruct (Z.ltb_spec x y).
  - symmetry. apply Z.ltb_lt. nia.
  - destruct (Z.ltb_spec y x).
    + symmetry. apply Z.ltb_ge. nia.
    + assert (x = y) by lia. subst y. rewrite (IH b Hlen Ha Hb).
      destruct (Z.ltb_spec (digits_value a) (digits_value b));
        symmetry; [apply Z.ltb_lt | apply Z.ltb_ge]; lia.
Qed.

Lemma newer_on_digits (oldRV newRV : string) (oldI newI : Z) :
  all_digits oldRV = true -> all_digits newRV = true ->
  Atoi oldRV = Some oldI -> Atoi newRV = Some newI ->
  Runtime.newer oldRV newRV = (oldI <? newI).
Proof.
  intros Ho Hn Eo En. unfold Runtime.newer.
  destruct (Nat.eqb_spec (len oldRV) (len newRV)) as [Hlen|_].
  - rewrite (string_lt_digits _ _ Hlen Ho Hn).
    by rewrite (Atoi_digits _ _ Ho Eo), (Atoi_digits _ _ Hn En).
  - by rewrite Eo, En.
Qed.

(** X1. On resource versions written as unsigned decimal numbers that fit
    an [int], leading zeros allowed, [newer] is the numeric order: the
    length-then-lexicographic shortcut and the integer comparison agree. *)
Theorem newer_decimal_is_numeric (oldRV newRV : string) (oldI newI : Z) :
  all_digits oldRV = true -> all_digits newRV = true ->
  Atoi oldRV = Some oldI -> Atoi newRV = Some newI ->
  Runtime.newer oldRV newRV = (oldI <? newI).
Proof. apply newer_on_digits. Qed.

Lemma newer_decimal_is_numeric_witness :
  Runtime.newer "0099" "0100" = (99 <? 100).
Proof.
  apply (newer_decimal_is_numeric "0099" "0100" 99 100); reflexivity.
Defined.

Lemma string_lt_irrefl s : string_lt s s = false.
Proof.
  induction s as [|c s IH]; [done |]. cbn [string_lt].
  by rewrite N.ltb_irrefl.
Qed.

Lemma string_lt_asym a b : string_lt a b = true -> string_lt b a = false.
Proof.
  revert b. induction a as [|c a IH]; intros [|d b]; try done.
  cbn [string_lt].
  destruct (N.ltb_spec (byte c) (byte d)), (N.ltb_spec (byte d) (byte c));
    try done; try lia. apply IH.
Qed.

(** X2. No resource version is newer than itself, and between two versions
    of the same length [newer] never holds both ways. *)
Theorem newer_irreflexive_and_asymmetric (a b : string) :
  Runtime.newer a a = false
  /\ (len a = len b -> Runtime.newer a b = true -> Runtime.newer b a = false).
Proof.
  unfold Runtime.newer. split.
  - rewrite Nat.eqb_refl. apply string_lt_irrefl.
  - intros Hlen. rewrite Hlen, Nat.eqb_refl. apply string_lt_asym.
Qed.

Lemma newer_irreflexive_and_asymmetric_witness :
  Runtime.newer "abc" "abd" = true /\ Runtime.newer "abd" "abc" = false.
Proof.
  split; [reflexivity |].
  apply (proj2 (newer_irreflexive_and_asymmetric "abc" "abd")); reflexivity.
Defined.

(** ** The write-through client: reads after writes *)

Section CacheClientWrites.
Context {World : Type}.
Variable cached_Get : ObjectKey -> Object -> World -> (Object * option error) * World.
Variable uncached_Get : ObjectKey -> Object -> World -> (Object * option error) * World.
Variable cached_Create : Object -> World -> (Object * option error) * World.
Variable uncached_Create : Object -> World -> (Object * option error) * World.
Variable cached_Update : Object -> World -> (Object * option error) * World.
Variable uncached_Update : Object -> World -> (Object * option error) * World.
Variable cached_Delete : Object -> World -> (Object * option error) * World.
Variable uncached_Delete : Object -> World -> (Object * option error) * World.
Variable GVKForObject : Object -> GroupVersionKind + error.
Variable time_Now : World -> Z.

Local Abbreviation Get := (Runtime.Get cached_Get uncached_Get GVKForObject).
Local Abbreviation Create :=
  (Runtime.Create cached_Create uncached_Create GVKForObject time_Now).
Local Abbreviation Update :=
  (Runtime.Update cached_Update uncached_Update GVKForObject time_Now).
Local Abbreviation Delete := (Runtime.Delete cached_Delete uncached_Delete GVKForObject).

Implicit Types (c : Runtime.cacheClient World) (target : Runtime.Target).

(** X3. When the informer store answers and the recent map has an entry for
    the same object, both with decimal resource versions, [Get] returns the
    one with the higher version: the recent copy when it is strictly newer,
    the store's copy otherwise. *)
Theorem Get_returns_highest_version key target c stored gvk v w (x y : Z) :
  Runtime.IsUncached target = false ->
  cached_Get key (Runtime.target_object target) (Runtime.cc_world c) = ((stored, None), w) ->
  GVKForObject stored = inl gvk ->
  Runtime.recent c !! (gvk, GetNamespace stored, GetName stored) = Some v ->
  all_digits (GetResourceVersion stored) = true ->
  all_digits (GetResourceVersion (Runtime.ov_Object v)) = true ->
  Atoi (GetResourceVersion stored) = Some x ->
  Atoi (GetResourceVersion (Runtime.ov_Object v)) = Some y ->
  (Get key target c).1
  = ((if x <? y then Runtime.ov_Object v else stored), None)
  /\ Atoi (GetResourceVersion (Get key target c).1.1) = Some (Z.max x y).
Proof.
  intros Hu Hget Hg Hrecent Hds Hdv Hx Hy.
  pose proof (Get_cached_cases cached_Get uncached_Get GVKForObject key target c gvk Hu) as H.
  rewrite Hget in H. specialize (H Hg). rewrite H, Hrecent. cbn [fst snd].
  rewrite (newer_on_digits _ _ x y Hds Hdv Hx Hy).
  destruct (Z.ltb_spec x y); cbn [fst].
  - split; [done |]. rewrite Hy. f_equal. lia.
  - split; [done |]. rewrite Hx. f_equal. lia.
Qed.

(** X4. Read-your-writes through a stale informer. After a successful
    [Update], as long as the recent entry is still there, a [Get] for which
    the informer still answers with an older version of that object returns
    the object as the [Update] left it. *)
Theorem Get_after_Update_sees_write target c written gvk w1
        key target' c' stale w2 :
  Runtime.IsUncached target = false ->
  cached_Update (Runtime.target_object target) (Runtime.cc_world c) = ((written, None), w1) ->
  GVKForObject written = inl gvk ->
  Runtime.recent c' !! (gvk, GetNamespace written, GetName written)
  = Runtime.recent (Update target c).2 !! (gvk, GetNamespace written, GetName written) ->
  Runtime.IsUncached target' = false ->
  cached_Get key (Runtime.target_object target') (Runtime.cc_world c') = ((stale, None), w2) ->
  GVKForObject stale = inl gvk ->
  GetNamespace stale = GetNamespace written -> GetName stale = GetName written ->
  Runtime.newer (GetResourceVersion stale) (GetResourceVersion written) = true ->
  (Get key target' c').1 = (written, None).
Proof.
  intros Hu Hupd Hg Hkeep Hu' Hget Hg' Hns Hname Hnewer.
  assert (Hstored : Runtime.recent (Update target c).2
                    !! (gvk, GetNamespace written, GetName written)
                    = Some (Runtime.mkValue written (time_Now w1))).
  { unfold Runtime.Update, Eff.bind, Runtime.extern. rewrite Hu, Hupd. cbn.
    unfold Runtime.store. rewrite Hg. cbn. by rewrite lookup_insert_eq. }
  rewrite Hstored in Hkeep.
  pose proof (Get_cached_cases cached_Get uncached_Get GVKForObject key target' c' gvk Hu') as H.
  rewrite Hget in H. specialize (H Hg'). rewrite H, Hns, Hname, Hkeep. cbn.
  by rewrite Hnewer.
Qed.

(** X5. A deleted object is not brought back by the recent map. A
    successful [Delete] leaves no recent entry for the object. A later
    [Get] that the informer store answers with not-found returns the
    not-found error whenever the recent map has no entry under the kind,
    namespace and name the target carries after the informer's read: for a
    target that names the deleted object, as long as nothing has written
    the object again; for a blank target, as long as nothing is filed
    under the empty name. *)
Theorem Get_after_Delete_is_not_found target c deleted gvk w1
        key target' c' left e w2 gvk' :
  Runtime.IsUncached target = false ->
  cached_Delete (Runtime.target_object target) (Runtime.cc_world c) = ((deleted, None), w1) ->
  GVKForObject deleted = inl gvk ->
  Runtime.IsUncached target' = false ->
  cached_Get key (Runtime.target_object target') (Runtime.cc_world c') = ((left, Some e), w2) ->
  IsNotFound_err e = true ->
  GVKForObject left = inl gvk' ->
  Runtime.recent (Delete target c).2 !! (gvk, GetNamespace deleted, GetName deleted) = None
  /\ (Runtime.recent c' !! (gvk', GetNamespace left, GetName left) = None ->
      Get key target' c' = ((left, Some e), Runtime.mkClient (Runtime.recent c') w2))
  /\ (gvk' = gvk ->
      GetNamespace left = GetNamespace deleted -> GetName left = GetName deleted ->
      Runtime.recent c' !! (gvk, GetNamespace deleted, GetName deleted)
      = Runtime.recent (Delete target c).2 !! (gvk, GetNamespace deleted, GetName deleted) ->
      Get key target' c' = ((left, Some e), Runtime.mkClient (Runtime.recent c') w2))
  /\ (GetName left = "" ->
      (forall namespace, Runtime.recent c' !! (gvk', namespace, "") = None) ->
      Get key target' c' = ((left, Some e), Runtime.mkClient (Runtime.recent c') w2)).
Proof.
  intros Hu Hdel Hg Hu' Hget Hnf Hg'.
  assert (Hgone : Runtime.recent (Delete target c).2
                  !! (gvk, GetNamespace deleted, GetName deleted) = None).
  { unfold Runtime.Delete, Eff.bind, Runtime.extern. rewrite Hu, Hdel. cbn.
    unfold Runtime.deleteStore. rewrite Hg. cbn. by rewrite lookup_delete_eq. }
  pose proof (Get_cached_cases cached_Get uncached_Get GVKForObject key target' c' gvk' Hu')
    as H.
  rewrite Hget in H. specialize (H Hg').
  assert (Hnone : Runtime.recent c' !! (gvk', GetNamespace left, GetName left) = None ->
                  Get key target' c'
                  = ((left, Some e), Runtime.mkClient (Runtime.recent c') w2)).
  { intros Hmiss. by rewrite H, Hmiss. }
  split; [done |]. split; [done |]. split.
  - intros -> Hns Hname Hkeep. apply Hnone. by rewrite Hns, Hname, Hkeep.
  - intros Hname Hblank. apply Hnone. rewrite Hname. apply Hblank.
Qed.

(** X6. The recent map changes only on a successful write through the
    cached client: [Get] never changes it, and [Create], [Update] and
    [Delete] leave it as it was when the target asks for the uncached
    client or the store reports an error. *)
Theorem recent_changes_only_on_success key target c :
  Runtime.recent (Get key target c).2 = Runtime.recent c
  /\ (Runtime.IsUncached target = true \/ is_Some (Create target c).1.2 ->
      Runtime.recent (Create target c).2 = Runtime.recent c)
  /\ (Runtime.IsUncached target = true \/ is_Some (Update target c).1.2 ->
      Runtime.recent (Update target c).2 = Runtime.recent c)
  /\ (Runtime.IsUncached target = true \/ is_Some (Delete target c).1.2 ->
      Runtime.recent (Delete target c).2 = Runtime.recent c).
Proof.
  split; [| split; [| split]].
  - unfold Runtime.Get, Eff.bind, Runtime.extern, Eff.gets, Eff.ret.
    destruct (Runtime.IsUncached target).
    { by destruct (uncached_Get _ _ _) as [[? ?] ?]. }
    destruct (cached_Get _ _ _) as [[obj err] w]. cbn.
    destruct (is_Some_b err && negb (IsNotFound err)); [done |].
    destruct (GVKForObject obj); [| done]. cbn.
    destruct (IsNotFound err), (Runtime.recent c !! _); try done.
    by destruct (Runtime.newer _ _).
  - unfold Runtime.Create, Eff.bind, Runtime.extern, Eff.ret.
    destruct (Runtime.IsUncached target).
    { intros _. by destruct (uncached_Create _ _) as [[? ?] ?]. }
    destruct (cached_Create _ _) as [[obj err] w]. cbn.
    destruct err; [done |]. intros [? | [? ?]]; [done |].
    unfold Runtime.store in *. by destruct (GVKForObject obj).
  - unfold Runtime.Update, Eff.bind, Runtime.extern, Eff.ret.
    destruct (Runtime.IsUncached target).
    { intros _. by destruct (uncached_Update _ _) as [[? ?] ?]. }
    destruct (cached_Update _ _) as [[obj err] w]. cbn.
    destruct err; [done |]. intros [? | [? ?]]; [done |].
    unfold Runtime.store in *. by destruct (GVKForObject obj).
  - unfold Runtime.Delete, Eff.bind, Runtime.extern, Eff.ret.
    destruct (Runtime.IsUncached target).
    { intros _. by destruct (uncached_Delete _ _) as [[? ?] ?]. }
    destruct (cached_Delete _ _) as [[obj err] w]. cbn.
    destruct err; [done |]. intros [? | [? ?]]; [done |].
    unfold Runtime.deleteStore in *. by destruct (GVKForObject obj).
Qed.
End CacheClientWrites.

Lemma Get_returns_highest_version_witness :
  (LaggingInformer.Get (mkKey "foo" "b") (Runtime.Plain (blank Bar))
                       LaggingWrites.after_update).1
  = (LaggingInformer.stamp LaggingWrites.bar_b_edited "10", None)
  /\ Atoi (GetResourceVersion
             (LaggingInformer.Get (mkKey "foo" "b") (Runtime.Plain (blank Bar))
                                  LaggingWrites.after_update).1.1)
     = Some (Z.max 1 10).
Proof.
  apply (Get_returns_highest_version
           LaggingInformer.cached_Get LaggingInformer.uncached_Get
           LaggingInformer.GVKForObject
           (mkKey "foo" "b") (Runtime.Plain (blank Bar)) LaggingWrites.after_update
           (LaggingInformer.stamp LaggingInformer.bar_b "1") Bar
           (Runtime.mkValue (LaggingInformer.stamp LaggingWrites.bar_b_edited "10") 100)
           (Runtime.cc_world LaggingWrites.after_update) 1 10);
    first [ reflexivity | vm_compute; reflexivity ].
Defined.

Lemma Get_after_Update_sees_write_witness :
  (LaggingInformer.Get (mkKey "foo" "b") (Runtime.Plain (blank Bar))
                       LaggingWrites.after_update).1
  = (LaggingInformer.stamp LaggingWrites.bar_b_edited "10", None).
Proof.
  apply (Get_after_Update_sees_write
           LaggingInformer.cached_Get LaggingInformer.uncached_Get
           LaggingWrites.api_Update LaggingWrites.api_Update
           LaggingInformer.GVKForObject LaggingInformer.clock
           (Runtime.Plain LaggingWrites.bar_b_edited) LaggingWrites.seen_create
           (LaggingInformer.stamp LaggingWrites.bar_b_edited "10") Bar
           (Runtime.cc_world LaggingWrites.after_update)
           (mkKey "foo" "b") (Runtime.Plain (blank Bar)) LaggingWrites.after_update
           (LaggingInformer.stamp LaggingInformer.bar_b "1")
           (Runtime.cc_world LaggingWrites.after_update));
    first [ reflexivity | vm_compute; reflexivity ].
Defined.

Lemma Get_after_Delete_is_not_found_witness :
  (LaggingInformer.Get (mkKey "foo" "b") (Runtime.Plain (blank Bar))
                       LaggingInformer.after_create).1
  = (blank Bar, Some (ErrNotFound "b"))
  /\ LaggingInformer.Get (mkKey "foo" "b") (Runtime.Plain LaggingInformer.bar_b)
                         LaggingWrites.after_delete
     = ((LaggingInformer.bar_b, Some (ErrNotFound "b")),
        Runtime.mkClient (Runtime.recent LaggingWrites.after_delete)
                         (Runtime.cc_world LaggingWrites.after_delete))
  /\ LaggingInformer.Get (mkKey "foo" "b") (Runtime.Plain (blank Bar))
                         LaggingWrites.after_delete
     = ((blank Bar, Some (ErrNotFound "b")),
        Runtime.mkClient (Runtime.recent LaggingWrites.after_delete)
                         (Runtime.cc_world LaggingWrites.after_delete)).
Proof.
  split; [reflexivity |]. split.
  - apply (proj1 (proj2 (Get_after_Delete_is_not_found
             LaggingInformer.cached_Get LaggingInformer.uncached_Get
             LaggingWrites.api_Delete LaggingWrites.api_Delete
             LaggingInformer.GVKForObject
             (Runtime.Plain LaggingInformer.bar_b) LaggingInformer.after_create
             LaggingInformer.bar_b Bar (Runtime.cc_world LaggingWrites.after_delete)
             (mkKey "foo" "b") (Runtime.Plain LaggingInformer.bar_b)
             LaggingWrites.after_delete LaggingInformer.bar_b (ErrNotFound "b")
             (Runtime.cc_world LaggingWrites.after_delete) Bar
             eq_refl eq_refl eq_refl eq_refl eq_refl eq_refl eq_refl))).
    reflexivity.
  - apply (proj1 (proj2 (Get_after_Delete_is_not_found
             LaggingInformer.cached_Get LaggingInformer.uncached_Get
             LaggingWrites.api_Delete LaggingWrites.api_Delete
             LaggingInformer.GVKForObject
             (Runtime.Plain LaggingInformer.bar_b) LaggingInformer.after_create
             LaggingInformer.bar_b Bar (Runtime.cc_world LaggingWrites.after_delete)
             (mkKey "foo" "b") (Runtime.Plain (blank Bar))
             LaggingWrites.after_delete (blank Bar) (ErrNotFound "b")
             (Runtime.cc_world LaggingWrites.after_delete) Bar
             eq_refl eq_refl eq_refl eq_refl eq_refl eq_refl eq_refl))).
    reflexivity.
Defined.

Lemma recent_changes_only_on_success_witness :
  Runtime.recent (LaggingInformer.Create (Runtime.Plain LaggingInformer.bar_b)
                                         LaggingInformer.after_create).2
  = Runtime.recent LaggingInformer.after_create.
Proof.
  apply (proj1 (proj2 (recent_changes_only_on_success
           LaggingInformer.cached_Get LaggingInformer.uncached_Get
           LaggingInformer.api_Create LaggingInformer.api_Create
           LaggingWrites.api_Update LaggingWrites.api_Update
           LaggingWrites.api_Delete LaggingWrites.api_Delete
           LaggingInformer.GVKForObject LaggingInformer.clock
           (mkKey "foo" "b") (Runtime.Plain LaggingInformer.bar_b)
           LaggingInformer.after_create))).
  right. vm_compute. eexists. reflexivity.
Defined.

(** ** The purge loop *)

(** X7. A purge round at time [now] keeps exactly the entries inserted no
    more than ten seconds before [now], each as it was. In particular an
    object stored at time [t] is still in the recent map after every round
    run up to [t] plus ten seconds, and gone after any later round. *)
Theorem purge_keeps_ten_seconds {World : Type}
        (GVKForObject : Object -> GroupVersionKind + error) (time_Now : World -> Z)
        (c : Runtime.cacheClient World) (w' : World) k v obj gvk :
  (Runtime.recent (CachePurge.purge_round time_Now c).2 !! k = Some v
   <-> Runtime.recent c !! k = Some v
       /\ time_Now (Runtime.cc_world c) <= Runtime.Inserted v + 10 * 1000000000)
  /\ (GVKForObject obj = inl gvk ->
      Runtime.recent
        (CachePurge.purge_round time_Now
           (Runtime.mkClient (Runtime.recent (Runtime.store GVKForObject time_Now obj c).2) w')).2
        !! (gvk, GetNamespace obj, GetName obj)
      = if time_Now w' <=? time_Now (Runtime.cc_world c) + 10 * 1000000000
        then Some (Runtime.mkValue obj (time_Now (Runtime.cc_world c)))
        else None).
Proof.
  assert (Hpurge : forall now recent k v,
            CachePurge.purge now recent !! k = Some v
            <-> recent !! k = Some v /\ now <= Runtime.Inserted v + 10 * 1000000000).
  { intros now recent k0 v0. unfold CachePurge.purge.
    rewrite map_lookup_filter_Some. cbn. unfold CachePurge.expired, CachePurge.cacheDuration.
    rewrite Z.ltb_ge. done. }
  split; [apply Hpurge |].
  intros Hg. unfold CachePurge.purge_round, Eff.modify. cbn.
  unfold Runtime.store. rewrite Hg. cbn.
  set (stored := Runtime.mkValue _ _).
  destruct (Z.leb_spec (time_Now w') (time_Now (Runtime.cc_world c) + 10 * 1000000000)).
  - apply Hpurge. split; [by rewrite lookup_insert_eq | done].
  - apply eq_None_not_Some. intros [v0 Hv0]. apply Hpurge in Hv0 as [Hl Ht].
    rewrite lookup_insert_eq in Hl. injection Hl as <-. cbn in Ht. lia.
Qed.

Lemma purge_keeps_ten_seconds_witness :
  Runtime.recent
    (CachePurge.purge_round LaggingInformer.clock
       (Runtime.mkClient
          (Runtime.recent (Runtime.store LaggingInformer.GVKForObject LaggingInformer.clock
                             LaggingInformer.bar_b LaggingInformer.fresh_client).2)
          (LaggingInformer.mkCluster ∅ ∅ 10000000101))).2
  !! (Bar, "foo", "b")
  = None.
Proof.
  apply (proj2 (purge_keeps_ten_seconds LaggingInformer.GVKForObject LaggingInformer.clock
                  LaggingInformer.fresh_client (LaggingInformer.mkCluster ∅ ∅ 10000000101)
                  (Bar, "foo", "b") (Runtime.mkValue LaggingInformer.bar_b 100)
                  LaggingInformer.bar_b Bar)).
  reflexivity.
Defined.

(** ** Keys, as the controller and the dispatch engine read them *)

Lemma prefix_empty s : String.prefix EmptyString s = true.
Proof. by destruct s. Qed.

Lemma prefix_cons c s d t :
  String.prefix (String c s) (String d t) = Ascii.eqb c d && String.prefix s t.
Proof.
  cbn [String.prefix]. destruct (ascii_dec c d) as [->|Hne].
  - by rewrite Ascii.eqb_refl.
  - by apply Ascii.eqb_neq in Hne as ->.
Qed.

Lemma no_space_no_marker (marker : ascii) (k : string) :
  has_byte " " k = false ->
  String.prefix (String "_" (String marker (String " " EmptyString))) k = false.
Proof.
  destruct k as [|a [|b [|c k]]]; try done.
  - intros _. rewrite prefix_cons. apply andb_false_r.
  - intros _. rewrite !prefix_cons. cbn [String.prefix]. by rewrite !andb_false_r.
  - cbn [has_byte]. intros H. rewrite !prefix_cons.
    destruct (Ascii.eqb " " a); [done |]. destruct (Ascii.eqb " " b); [done |].
    destruct (Ascii.eqb " " c); [done |]. by rewrite !andb_false_r.
Qed.

Lemma split_key_KeyParse (k : string) :
  has_byte " " k = false -> Router.split_key k = Runtime.KeyParse k.
Proof.
  intros H. unfold Runtime.KeyParse, Router.split_key.
  rewrite (Cut_byte_absent _ _ H). unfold Cut.
  by destruct (cut_at k "/") as [[ns name]|].
Qed.

(** X8. The controller and the dispatch engine read the same namespace and
    name out of a key. For a key [k] without a space: [onChange]'s split of
    [k] is [KeyParse k]; and with a "_t " or "_r " marker in front, the
    controller takes the key as special, the engine strips the marker back
    to [k], and the engine's split of what is left is [KeyParse] of the
    marked key. *)
Theorem marked_key_read_alike (marker : ascii) (k : string) :
  has_byte " " k = false ->
  marker = "t"%char \/ marker = "r"%char ->
  let marked := String "_" (String marker (String " " k)) in
  Router.split_key k = Runtime.KeyParse k
  /\ Runtime.isSpecialKey marked = true
  /\ (Router.decode_key marked).2 = k
  /\ (Router.decode_key marked).1 = (if Ascii.eqb marker "t" then (true, false) else (false, true))
  /\ Router.split_key (Router.decode_key marked).2 = Runtime.KeyParse marked.
Proof.
  intros Hk Hmarker marked.
  assert (Hparse : Runtime.KeyParse marked = Runtime.KeyParse k).
  { unfold Runtime.KeyParse at 1.
    assert (Cut marked " " = (String "_" (String marker EmptyString), k, true)) as ->.
    { subst marked. unfold Cut. cbn [cut_at drop_bytes len String.length].
      rewrite !prefix_cons.
      destruct Hmarker as [-> | ->]; rewrite !prefix_empty; reflexivity. }
    unfold Runtime.KeyParse. by rewrite (Cut_byte_absent _ _ Hk). }
  assert (Hdecode : Router.decode_key marked
                    = (if Ascii.eqb marker "t" then (true, false) else (false, true), k)).
  { subst marked. unfold Router.decode_key, HasPrefix, TrimPrefix, HasPrefix,
      Router.TriggerPrefix, Router.ReplayPrefix.
    pose proof (no_space_no_marker "r" k Hk) as Hr.
    rewrite !prefix_cons, !prefix_empty.
    destruct Hmarker as [-> | ->].
    - change (drop_bytes (len "_t ") (String "_" (String "t" (String " " k)))) with k.
      change (("_" =? "_")%char && (("t" =? "t")%char && ((" " =? " ")%char && true)))
        with true.
      cbv iota. by rewrite Hr.
    - change (("_" =? "_")%char && (("t" =? "r")%char && ((" " =? " ")%char && true)))
        with false.
      cbv iota. rewrite !prefix_cons, !prefix_empty.
      reflexivity. }
  rewrite Hdecode, Hparse. cbn [fst snd].
  split; [by apply split_key_KeyParse |].
  split; [subst marked; by destruct k |].
  split; [done |]. split; [done |]. by apply split_key_KeyParse.
Qed.

Lemma marked_key_read_alike_witness :
  Router.split_key (Router.decode_key "_t foo/a").2 = Runtime.KeyParse "_t foo/a".
Proof.
  apply (marked_key_read_alike "t" "foo/a"); [reflexivity | by left].
Defined.

(** The two readings part ways on a key that holds a space: [KeyParse]
    drops everything up to the first space, marker or not. *)
Example KeyParse_cuts_at_any_space :
  Runtime.KeyParse "a b/c" = ("b", "c") /\ Router.split_key "a b/c" = ("a b", "c").
Proof. split; reflexivity. Qed.

(** ** The controller: buffered keys, queues and work items *)

Section ControllerQueues.
Variable Queues : Z.
Variable Split : string -> Z.
Local Abbreviation in_range := (Controller.in_range Queues Split).
Local Abbreviation run_start := (Controller.run_start Queues Split).
Local Abbreviation flush_keys := (Controller.flush_keys Split).
Local Abbreviation enqueue_all := (Controller.enqueue_all Split).

(** The keys among [starts] that [Split] sends to queue [i], as the calls
    [run] makes for them. *)
Local Abbreviation share i starts :=
  (map Controller.start_op
       (filter (fun s => Split (Controller.sk_key s) = Z.of_nat i) starts)).

Lemma flush_keys_spec starts (qs : list (list Controller.QueueOp)) :
  Forall (fun s => 0 <= Split (Controller.sk_key s) < Z.of_nat (length qs)) starts ->
  exists qs',
    flush_keys starts qs = Some qs'
    /\ length qs' = length qs
    /\ forall i q, qs !! i = Some q -> qs' !! i = Some (q ++ share i starts).
Proof.
  revert qs. induction starts as [|s rest IH]; intros qs Hall.
  - exists qs. split; [done |]. split; [done |]. intros i q Hq. by rewrite app_nil_r.
  - inversion Hall as [|? ? Hs Hrest]; subst.
    cbn [Controller.flush_keys]. unfold Controller.on_queue.
    destruct (Z.leb_spec 0 (Split (Controller.sk_key s))); [| lia].
    destruct (Z.ltb_spec (Split (Controller.sk_key s)) (Z.of_nat (length qs))); [| lia].
    cbn [andb].
    set (j := Z.to_nat (Split (Controller.sk_key s))).
    set (qs1 := alter _ j qs).
    assert (Hlen1 : length qs1 = length qs) by (subst qs1; apply length_alter).
    destruct (IH qs1) as (qs' & Hflush & Hlen & Hshare).
    { by rewrite Hlen1. }
    exists qs'. split; [done |]. split; [lia |].
    intros i q Hq. rewrite filter_cons.
    destruct (decide (Split (Controller.sk_key s) = Z.of_nat i)) as [Hi|Hi].
    + assert (i = j) as -> by (subst j; lia).
      rewrite (Hshare j (q ++ [Controller.start_op s])).
      * cbn [map]. by rewrite <- app_assoc.
      * subst qs1. rewrite list_lookup_alter_eq, Hq. done.
    + apply Hshare. subst qs1. rewrite list_lookup_alter_ne; [done |].
      subst j. lia.
Qed.

Lemma flush_keys_panics starts (qs : list (list Controller.QueueOp)) :
  Exists (fun s => ~ 0 <= Split (Controller.sk_key s) < Z.of_nat (length qs)) starts ->
  flush_keys starts qs = None.
Proof.
  revert qs. induction starts as [|s rest IH]; intros qs Hex; [by inversion Hex |].
  cbn [Controller.flush_keys]. unfold Controller.on_queue.
  destruct (Z.leb_spec 0 (Split (Controller.sk_key s))); cbn [andb]; [| done].
  destruct (Z.ltb_spec (Split (Controller.sk_key s)) (Z.of_nat (length qs))); [| done].
  apply IH. rewrite length_alter.
  inversion Hex as [? ? Hbad|]; subst; [lia | done].
Qed.

Lemma enqueue_all_buffers calls buffer :
  enqueue_all calls (Controller.mkController None buffer)
  = Some (Controller.mkController None (buffer ++ calls)).
Proof.
  revert buffer. induction calls as [|call rest IH]; intros buffer.
  - cbn. by rewrite app_nil_r.
  - cbn [Controller.enqueue_all]. unfold Controller.EnqueueKeyAfter. cbn.
    rewrite IH, <- app_assoc. by destruct call.
Qed.

(** X9. Keys enqueued before the controller runs are buffered, whatever
    their number, without touching a queue. When [run] makes the queues,
    every buffered key goes to the queue [Split] names for it, each once, in
    the order of the calls, with [Add] for a zero delay and [AddAfter]
    otherwise, and the buffer ends empty. [run] panics exactly when
    [Queues()] is negative or [Split] sends a buffered key outside
    [0, Queues())]. *)
Theorem buffered_keys_reach_their_queue (calls : list Controller.startKey) :
  enqueue_all calls (Controller.mkController None [])
  = Some (Controller.mkController None calls)
  /\ (0 <= Queues -> Forall in_range calls ->
      exists qs,
        run_start (Controller.mkController None calls)
        = Some (Controller.mkController (Some qs) [])
        /\ length qs = Z.to_nat Queues
        /\ forall i, (i < length qs)%nat -> qs !! i = Some (share i calls))
  /\ (run_start (Controller.mkController None calls) = None
      <-> Queues < 0 \/ Exists (fun s => ~ in_range s) calls).
Proof.
  split; [apply enqueue_all_buffers |].
  assert (Hgood : 0 <= Queues -> Forall in_range calls ->
            exists qs,
              run_start (Controller.mkController None calls)
              = Some (Controller.mkController (Some qs) [])
              /\ length qs = Z.to_nat Queues
              /\ forall i, (i < length qs)%nat -> qs !! i = Some (share i calls)).
  { intros Hq Hall. unfold Controller.run_start. cbn.
    destruct (Z.ltb_spec Queues 0); [lia |].
    destruct (flush_keys_spec calls (replicate (Z.to_nat Queues) []))
      as (qs & Hflush & Hlen & Hshare).
    { rewrite length_replicate, Z2Nat.id by lia. exact Hall. }
    rewrite length_replicate in Hlen.
    exists qs. rewrite Hflush. split; [done |]. split; [done |].
    intros i Hi. apply (Hshare i []). apply lookup_replicate. split; [done | lia]. }
  split; [exact Hgood |]. split.
  - intros Hnone. destruct (Z.ltb_spec Queues 0) as [|Hq]; [by left | right].
    destruct (decide (Forall in_range calls)) as [Hall|Hbad].
    + destruct (Hgood Hq Hall) as (qs & Hrun & _). congruence.
    + by apply not_Forall_Exists in Hbad; [| intros s; unfold Controller.in_range; apply _].
  - unfold Controller.run_start. cbn.
    destruct (Z.ltb_spec Queues 0) as [|Hq]; [done |].
    intros [? | Hex]; [lia |].
    rewrite flush_keys_panics; [done |].
    rewrite length_replicate, Z2Nat.id by lia. exact Hex.
Qed.
End ControllerQueues.

Lemma buffered_keys_reach_their_queue_witness :
  exists qs,
    Controller.run_start 2 (fun key => Z.of_nat (String.length key) mod 2)
      (Controller.mkController None
         [Controller.mkStartKey "a" 0; Controller.mkStartKey "bb" 5;
          Controller.mkStartKey "c" 0])
    = Some (Controller.mkController (Some qs) [])
    /\ length qs = Z.to_nat 2
    /\ forall i, (i < length qs)%nat ->
         qs !! i
         = Some (map Controller.start_op
                     (filter (fun s => Z.of_nat (String.length (Controller.sk_key s)) mod 2
                                       = Z.of_nat i)
                             [Controller.mkStartKey "a" 0; Controller.mkStartKey "bb" 5;
                              Controller.mkStartKey "c" 0])).
Proof.
  apply (proj1 (proj2 (buffered_keys_reach_their_queue 2
                         (fun key => Z.of_nat (String.length key) mod 2)
                         [Controller.mkStartKey "a" 0; Controller.mkStartKey "bb" 5;
                          Controller.mkStartKey "c" 0]))).
  - lia.
  - repeat constructor; vm_compute; done.
Defined.

Example run_start_two_queues :
  Controller.run_start 2 (fun key => Z.of_nat (String.length key) mod 2)
    (Controller.mkController None
       [Controller.mkStartKey "a" 0; Controller.mkStartKey "bb" 5;
        Controller.mkStartKey "c" 0])
  = Some (Controller.mkController
            (Some [[Controller.QAddAfter "bb" 5];
                   [Controller.QAdd "a"; Controller.QAdd "c"]]) []).
Proof. reflexivity. Qed.

(** X10. With a non-negative worker count and at least one queue, every
    queue gets at least one worker; when there are at least as many workers
    as queues the share is the whole quotient, so the shares together never
    exceed the count; with fewer workers than queues each queue still gets
    one. *)
Theorem workers_per_queue_share (workers : Z) (queues : nat) :
  0 <= workers -> (0 < queues)%nat ->
  exists w,
    Controller.workers_per_queue workers queues = Some w
    /\ 1 <= w
    /\ (Z.of_nat queues <= workers ->
        w * Z.of_nat queues <= workers < (w + 1) * Z.of_nat queues)
    /\ (workers < Z.of_nat queues -> w = 1).
Proof.
  intros Hw Hq. unfold Controller.workers_per_queue.
  destruct queues as [|n]; [lia |].
  set (q := Z.of_nat (S n)). assert (0 < q) by (subst q; lia).
  eexists. split; [reflexivity |].
  rewrite Z.quot_div_nonneg by lia.
  pose proof (Z.div_mod workers q ltac:(lia)) as Hdm.
  pose proof (Z.mod_pos_bound workers q ltac:(lia)) as Hmod.
  destruct (Z.eqb_spec (workers / q) 0) as [E|E].
  - split; [lia |]. split; [| done]. intros Hle. rewrite E in Hdm. lia.
  - assert (0 <= workers / q) by (apply Z.div_pos; lia).
    split; [lia |]. split; [intros _; nia |].
    intros Hlt. rewrite Z.div_small in E by lia. done.
Qed.

Lemma workers_per_queue_share_witness :
  exists w,
    Controller.workers_per_queue 10 3 = Some w
    /\ 1 <= w
    /\ (Z.of_nat 3 <= 10 -> w * Z.of_nat 3 <= 10 < (w + 1) * Z.of_nat 3)
    /\ (10 < Z.of_nat 3 -> w = 1).
Proof. apply (workers_per_queue_share 10 3); lia. Defined.

Example workers_per_queue_edges :
  Controller.workers_per_queue 10 3 = Some 3
  /\ Controller.workers_per_queue 2 3 = Some 1
  /\ Controller.workers_per_queue 0 1 = Some 1
  /\ Controller.workers_per_queue 5 0 = None.
Proof. repeat split; reflexivity. Qed.

Section WorkItems.
Context {S : Type}.
Variable sync : string -> Eff.M S (option error).
Variable text : error -> string.
Local Abbreviation processSingleItem := (Controller.processSingleItem S sync text).

(** X11. Whatever the item and whatever the sync does, one work item makes
    exactly two calls on its queue: first either [Forget] or
    [AddRateLimited], then [Done]. A key is requeued rate-limited exactly
    when its sync failed, and then the item's error is a fresh piece of
    text: it matches neither the ignore sentinel nor not-found, whatever
    the sync error was. An item that is not a string is forgotten without
    any sync. *)
Theorem processSingleItem_settles_once (item : Controller.Item) (s : S)
        (ops : list Controller.QueueOp) :
  let '(err, (s', ops')) := processSingleItem item (s, ops) in
  exists settle,
    ops' = ops ++ [settle; Controller.QDone item]
    /\ match item with
       | Controller.ItemOther _ =>
           settle = Controller.QForget item /\ err = None /\ s' = s
       | Controller.ItemKey key =>
           s' = (sync key s).2
           /\ match (sync key s).1 with
              | None => settle = Controller.QForget item /\ err = None
              | Some e =>
                  settle = Controller.QAddRateLimited key
                  /\ (exists msg, err = Some (ErrOther msg))
                  /\ (forall x, err = Some x ->
                        Is_ErrIgnore x = false /\ IsNotFound_err x = false)
              end
       end.
Proof.
  destruct item as [key|what]; cbn.
  - unfold Eff.bind, Controller.run_sync. cbn.
    destruct (sync key s) as [[e|] s1]; cbn.
    + eexists. split; [by rewrite <- app_assoc |]. split; [done |].
      split; [done |]. split; [by eexists |]. by intros x [= <-].
    + eexists. split; [by rewrite <- app_assoc |]. done.
  - eexists. split; [by rewrite <- app_assoc |]. done.
Qed.
End WorkItems.

Lemma keyFunc_no_space namespace name :
  has_byte " " namespace = false -> has_byte " " name = false ->
  has_byte " " (Runtime.keyFunc namespace name) = false.
Proof.
  intros Hns Hn. unfold Runtime.keyFunc. destruct (String.eqb namespace ""); [done |].
  by rewrite !has_byte_app, Hns, Hn.
Qed.

Lemma KeyParse_of_keyFunc namespace name :
  has_byte "/" namespace = false -> has_byte " " namespace = false ->
  has_byte "/" name = false -> has_byte " " name = false ->
  Runtime.KeyParse (Runtime.keyFunc namespace name) = (namespace, name).
Proof.
  intros Hns_slash Hns_sp Hn_slash Hn_sp.
  unfold Runtime.KeyParse.
  rewrite (Cut_byte_absent _ _ (keyFunc_no_space _ _ Hns_sp Hn_sp)).
  unfold Runtime.keyFunc.
  destruct (String.eqb_spec namespace "") as [->|Hne].
  - by rewrite (Cut_byte_absent _ _ Hn_slash).
  - change ("/" +:+ name) with (String "/" name).
    by rewrite (Cut_byte_first _ _ _ Hns_slash).
Qed.

Lemma special_key_has_space key :
  Runtime.isSpecialKey key = true -> has_byte " " key = true.
Proof.
  intros H. apply isSpecialKey_shape in H as (c & rest & ->).
  cbn [has_byte]. destruct (Ascii.eqb " " "_"); [done |].
  destruct (Ascii.eqb " " c); [done |]. by rewrite Ascii.eqb_refl.
Qed.

Section InformerToCache.
Context {World : Type}.
Variable handler_OnChange :
  string -> option Runtime.RuntimeObject -> World -> option error * World.
Variable cache_Get : ObjectKey -> Object -> World -> (Object * option error) * World.
Variable c_obj : Object.
Variable Split : string -> Z.

(** X12. From an informer event to the cache read. For an object whose
    namespace and name hold neither '/' nor ' ', [handleObject], given the
    object or a tombstone around it, buffers the key
    [keyFunc namespace name] on a controller that has not run yet; and when
    that key is synced, [syncHandler] does not take it for a special key
    and its first step is a cache [Get] under exactly that namespace and
    name: the handler is then called in the world that read left, with the
    object it fetched on success and with nil on not-found, and any other
    error comes back without the handler being called. A tombstone around
    anything else, and any other value, is dropped. *)
Theorem informer_event_reads_its_object (obj : Object) (d : Controller.Delivered)
        (buffer : list Controller.startKey) (st : Runtime.CtlState World) :
  has_byte "/" (GetNamespace obj) = false -> has_byte " " (GetNamespace obj) = false ->
  has_byte "/" (GetName obj) = false -> has_byte " " (GetName obj) = false ->
  let key := Runtime.keyFunc (GetNamespace obj) (GetName obj) in
  let c := Controller.mkController None buffer in
  Controller.handleObject Split (Controller.DObject obj) c
  = Some (Controller.mkController None (buffer ++ [Controller.mkStartKey key 0]))
  /\ Controller.handleObject Split (Controller.DTombstone (Controller.DObject obj)) c
     = Controller.handleObject Split (Controller.DObject obj) c
  /\ Controller.handleObject Split (Controller.DTombstone (Controller.DTombstone d)) c = Some c
  /\ Controller.handleObject Split (Controller.DTombstone Controller.DOther) c = Some c
  /\ Controller.handleObject Split Controller.DOther c = Some c
  /\ Runtime.isSpecialKey key = false
  /\ (exists rest,
        Runtime.ctl_log (Runtime.syncHandler handler_OnChange cache_Get c_obj key st).2
        = Runtime.ctl_log st
          ++ Runtime.EvCacheGet (mkKey (GetNamespace obj) (GetName obj)) :: rest)
  /\ (let '((got, err), w) :=
        cache_Get (mkKey (GetNamespace obj) (GetName obj)) c_obj (Runtime.ctl_world st) in
      let l := Runtime.ctl_log st
               ++ [Runtime.EvCacheGet (mkKey (GetNamespace obj) (GetName obj))] in
      Runtime.syncHandler handler_OnChange cache_Get c_obj key st
      = match err with
        | None =>
            ((handler_OnChange key (Some (Runtime.WithMeta got)) w).1,
             Runtime.mkCtl (handler_OnChange key (Some (Runtime.WithMeta got)) w).2
                           (l ++ [Runtime.EvOnChange key (Some (Runtime.WithMeta got))]))
        | Some e =>
            if IsNotFound_err e
            then ((handler_OnChange key None w).1,
                  Runtime.mkCtl (handler_OnChange key None w).2
                                (l ++ [Runtime.EvOnChange key None]))
            else (Some e, Runtime.mkCtl w l)
        end).
Proof.
  intros Hns_slash Hns_sp Hn_slash Hn_sp key c.
  assert (Hspecial : Runtime.isSpecialKey key = false).
  { destruct (Runtime.isSpecialKey key) eqn:E; [| done].
    apply special_key_has_space in E. subst key.
    by rewrite (keyFunc_no_space _ _ Hns_sp Hn_sp) in E. }
  repeat (split; [done |]).
  unfold Runtime.syncHandler. rewrite Hspecial. subst key.
  rewrite (KeyParse_of_keyFunc _ _ Hns_slash Hns_sp Hn_slash Hn_sp).
  unfold Eff.bind, Runtime.call_cache_Get, DeepCopyObject.
  destruct (cache_Get _ _ _) as [[got err] w].
  destruct err as [e|]; cbn [IsNotFound].
  - destruct (IsNotFound_err e).
    + unfold Runtime.call_OnChange. cbn. destruct (handler_OnChange _ _ _).
      split; [| done]. eexists. cbn. by rewrite <- app_assoc.
    + split; [| done]. eexists. cbn. reflexivity.
  - unfold Runtime.call_OnChange. cbn. destruct (handler_OnChange _ _ _).
    split; [| done]. eexists. cbn. by rewrite <- app_assoc.
Qed.
End InformerToCache.

Lemma informer_event_reads_its_object_witness :
  Controller.handleObject (fun _ => 0)
    (Controller.DTombstone (Controller.DObject Bench.foo_a)) (Controller.mkController None [])
  = Controller.handleObject (fun _ => 0)
      (Controller.DObject Bench.foo_a) (Controller.mkController None []).
Proof.
  apply (informer_event_reads_its_object idle_handler empty_cache (blank Foo) (fun _ => 0)
           Bench.foo_a Controller.DOther [] (Runtime.mkCtl tt []));
    reflexivity.
Defined.

(** A cache failure other than not-found: the handler is not called, the
    key is requeued rate-limited and marked done. *)
Example processSingleItem_cache_failure :
  Controller.processSingleItem (Runtime.CtlState unit)
    (Runtime.syncHandler idle_handler
       (fun key obj w => ((obj, Some (ErrOther "connection refused")), w)) (blank Foo))
    (fun _ => "connection refused")
    (Controller.ItemKey "foo/a") (Runtime.mkCtl tt [], [])
  = (Some (ErrOther "error syncing 'foo/a': connection refused, requeuing"),
     (Runtime.mkCtl tt [Runtime.EvCacheGet (mkKey "foo" "a")],
      [Controller.QAddRateLimited "foo/a"; Controller.QDone (Controller.ItemKey "foo/a")])).
Proof. reflexivity. Qed.

(** ** The shared chain: registration *)

Section ChainRegistration.
Context {World : Type}.
Implicit Types (h : Runtime.SharedHandler World) (l : list (Runtime.handlerEntry World)).

Lemma filter_other_ids_id l (i : Z) :
  i ∉ map Runtime.id l -> filter (fun e => Runtime.id e <> i) l = l.
Proof.
  induction l as [|e l IH]; [done |]. cbn [map]. intros Hnotin.
  apply not_elem_of_cons in Hnotin as [Hne Hnotin].
  rewrite filter_cons. destruct (decide (Runtime.id e <> i)) as [|Hn].
  - by rewrite IH.
  - exfalso. apply Hn. congruence.
Qed.

Lemma remove_entry_filter l (i : Z) :
  NoDup (map Runtime.id l) ->
  Runtime.remove_entry World i l = filter (fun e => Runtime.id e <> i) l.
Proof.
  induction l as [|e l IH]; [done |]. cbn [map Runtime.remove_entry].
  intros Hnodup. apply NoDup_cons in Hnodup as [Hnotin Hnodup].
  rewrite filter_cons. destruct (Z.eqb_spec (Runtime.id e) i) as [<-|Hne].
  - destruct (decide (Runtime.id e <> Runtime.id e)); [done |].
    by rewrite filter_other_ids_id.
  - destruct (decide (Runtime.id e <> i)); [| done]. by rewrite IH.
Qed.

Lemma filter_keeps_NoDup_ids l (i : Z) :
  NoDup (map Runtime.id l) ->
  NoDup (map Runtime.id (filter (fun e => Runtime.id e <> i) l)).
Proof.
  induction l as [|e l IH]; [constructor |]. cbn [map]. intros Hnodup.
  apply NoDup_cons in Hnodup as [Hnotin Hnodup].
  rewrite filter_cons. destruct (decide (Runtime.id e <> i)); [| by apply IH].
  cbn [map]. apply NoDup_cons. split; [| by apply IH].
  intros Hin. apply Hnotin. apply list_elem_of_fmap in Hin as (e' & -> & Hin).
  apply list_elem_of_fmap. exists e'. split; [done |].
  by apply list_elem_of_filter in Hin as [_ ?].
Qed.

Lemma built_ids_unique h : Chain.built h -> Chain.ids_unique h.
Proof.
  induction 1 as [gvk | h name handler _ (Hpos & IHall & IHnodup)
                      | h i _ (Hpos & IHall & IHnodup)].
  - split; [done |]. split; cbn; [done | constructor].
  - unfold Runtime.Register, Chain.ids_unique. cbn. split; [lia |]. split.
    + apply Forall_app. split.
      * eapply Forall_impl; [exact IHall |]. cbn. lia.
      * constructor; [cbn; lia | done].
    + rewrite map_app. cbn. apply NoDup_app. split; [done |]. split.
      * intros x Hx Hx'. apply list_elem_of_singleton in Hx'. subst x.
        apply list_elem_of_fmap in Hx as (e & He & Hin).
        rewrite Forall_forall in IHall. specialize (IHall e Hin). lia.
      * apply NoDup_singleton.
  - unfold Chain.cancel, Chain.ids_unique. cbn. split; [done |].
    rewrite (remove_entry_filter _ _ IHnodup). split.
    + apply Forall_forall. intros e He. apply list_elem_of_filter in He as [_ He].
      rewrite Forall_forall in IHall. by apply IHall.
    + by apply filter_keeps_NoDup_ids.
Qed.

(** X13. In every chain that registrations and cancellations produce, the
    ids are positive, no larger than the counter, and pairwise distinct.
    So cancelling a registration removes exactly the entry with that id and
    keeps all others in their order, and cancelling a registration right
    after making it gives back the chain of handlers as it was. *)
Theorem registration_ids_unique h (i : Z) name handler :
  Chain.built h ->
  Chain.ids_unique h
  /\ Runtime.handlers (Chain.cancel i h)
     = filter (fun e => Runtime.id e <> i) (Runtime.handlers h)
  /\ Runtime.handlers
       (Chain.cancel (Runtime.idCounter World h + 1) (Runtime.Register h name handler))
     = Runtime.handlers h.
Proof.
  intros Hbuilt. pose proof (built_ids_unique h Hbuilt) as (Hpos & Hall & Hnodup).
  split; [done |]. split.
  - unfold Chain.cancel. cbn. by apply remove_entry_filter.
  - pose proof (built_ids_unique _ (Chain.built_Register h name handler Hbuilt))
      as (_ & _ & Hnodup').
    unfold Chain.cancel. cbn [Runtime.handlers]. rewrite (remove_entry_filter _ _ Hnodup').
    unfold Runtime.Register. cbn [Runtime.handlers Runtime.idCounter].
    rewrite filter_app, filter_cons, filter_nil. cbn [Runtime.id].
    destruct (decide (Runtime.idCounter World h + 1 <> Runtime.idCounter World h + 1));
      [done |].
    rewrite app_nil_r. apply filter_other_ids_id.
    intros Hin. apply list_elem_of_fmap in Hin as (e & He & Hin).
    rewrite Forall_forall in Hall. specialize (Hall e Hin). lia.
Qed.

(** X14. A handler registered on a built chain is called last, after every
    handler registered before it and in the world they left; and once a
    registration is cancelled, [OnChange] calls the remaining handlers in
    their order, and no other. In both cases the log is the record of
    applying those handlers, in that order, to the key and the threaded
    object. *)
Theorem registration_orders_calls h (i : Z) name handler key obj
        (st : Runtime.ChainState World) :
  Chain.built h ->
  (exists invs,
     Runtime.ch_log (Runtime.OnChange (Runtime.Register h name handler) key obj st).2
     = Runtime.ch_log st ++ invs
     /\ map Runtime.inv_name invs = map Runtime.name (Runtime.handlers h) ++ [name]
     /\ Forall (fun inv => Runtime.inv_key inv = key) invs
     /\ threaded obj invs
     /\ calls_made
          (Runtime.handlers h
           ++ [Runtime.mkEntry (Runtime.idCounter World h + 1) name handler])
          invs (Runtime.ch_world st)
          (Runtime.ch_world
             (Runtime.OnChange (Runtime.Register h name handler) key obj st).2))
  /\ (exists invs,
        Runtime.ch_log (Runtime.OnChange (Chain.cancel i h) key obj st).2
        = Runtime.ch_log st ++ invs
        /\ map Runtime.inv_name invs
           = map Runtime.name (filter (fun e => Runtime.id e <> i) (Runtime.handlers h))
        /\ Forall (fun inv => Runtime.inv_key inv = key) invs
        /\ threaded obj invs
        /\ calls_made
             (filter (fun e => Runtime.id e <> i) (Runtime.handlers h))
             invs (Runtime.ch_world st)
             (Runtime.ch_world (Runtime.OnChange (Chain.cancel i h) key obj st).2)).
Proof.
  intros Hbuilt. pose proof (built_ids_unique h Hbuilt) as (_ & _ & Hnodup). split.
  - destruct (OnChange_loop_run (Runtime.handlers (Runtime.Register h name handler))
                key obj [] st) as (invs & Hlog & _ & Hnames & Hkeys & Hthread & Hcalls).
    exists invs. unfold Runtime.OnChange, Eff.bind, Eff.ret.
    destruct (Runtime.OnChange_loop _ _ _ _ _) as [errs st']. cbn [fst snd] in *.
    split; [done |]. split.
    { rewrite Hnames. unfold Runtime.Register. cbn. by rewrite map_app. }
    done.
  - destruct (OnChange_loop_run (Runtime.handlers (Chain.cancel i h)) key obj [] st)
      as (invs & Hlog & _ & Hnames & Hkeys & Hthread & Hcalls).
    exists invs. unfold Runtime.OnChange, Eff.bind, Eff.ret.
    destruct (Runtime.OnChange_loop _ _ _ _ _) as [errs st']. cbn [fst snd] in *.
    unfold Chain.cancel in Hnames, Hcalls. cbn [Runtime.handlers] in Hnames, Hcalls.
    rewrite (remove_entry_filter _ _ Hnodup) in Hnames, Hcalls.
    done.
Qed.
End ChainRegistration.

Lemma two_registered_built : Chain.built (Chain.two_registered Foo).
Proof. unfold Chain.two_registered. repeat apply Chain.built_Register. apply (Chain.built_empty Foo). Qed.

Lemma registration_ids_unique_witness :
  map Runtime.name (Runtime.handlers (Chain.cancel 1 (Chain.two_registered Foo)))
  = ["second"].
Proof.
  pose proof (registration_ids_unique (Chain.two_registered Foo) 1 "third"
                (fun _ obj w => ((obj, None), w)) two_registered_built) as (_ & -> & _).
  reflexivity.
Defined.

Lemma diary_chain_built : Chain.built (Diary.chain None None).
Proof.
  unfold Diary.chain. repeat apply Chain.built_Register. apply (Chain.built_empty Foo).
Qed.

Lemma registration_orders_calls_witness :
  exists invs,
    Runtime.ch_log (Runtime.OnChange (Chain.cancel 1 (Diary.chain None None))
                      "foo/a" None (Runtime.mkChain [] [])).2 = [] ++ invs
    /\ map Runtime.inv_name invs
       = map Runtime.name
           (filter (fun e => Runtime.id e <> 1) (Runtime.handlers (Diary.chain None None)))
    /\ Forall (fun inv => Runtime.inv_key inv = "foo/a") invs
    /\ threaded None invs
    /\ calls_made
         (filter (fun e => Runtime.id e <> 1) (Runtime.handlers (Diary.chain None None)))
         invs []
         (Runtime.ch_world
            (Runtime.OnChange (Chain.cancel 1 (Diary.chain None None))
                              "foo/a" None (Runtime.mkChain [] [])).2).
Proof.
  exact (proj2 (registration_orders_calls (Diary.chain None None) 1 "third"
                  (Diary.noting "third" None None) "foo/a" None (Runtime.mkChain [] [])
                  diary_chain_built)).
Defined.

(** After the first registration is cancelled only the second handler
    writes in the diary. *)
Example cancelled_handler_is_not_called :
  Runtime.ch_world (Runtime.OnChange (Chain.cancel 1 (Diary.chain None None))
                      "foo/a" None (Runtime.mkChain [] [])).2
  = ["second foo/a nil"].
Proof. reflexivity. Qed.

(** ** Error text *)

Lemma append_assoc (a b c : string) : (a +:+ b) +:+ c = a +:+ (b +:+ c).
Proof.
  induction a as [|x a IH]; [done |].
  change ((String x (a +:+ b)) +:+ c = String x (a +:+ (b +:+ c))).
  change (String x ((a +:+ b) +:+ c) = String x (a +:+ (b +:+ c))). by rewrite IH.
Qed.

Lemma append_nonempty (a b : string) : a <> EmptyString -> a +:+ b <> EmptyString.
Proof. by destruct a. Qed.

Lemma nonempty_len (a : string) : a <> EmptyString -> (0 <? len a)%nat = true.
Proof. by destruct a. Qed.

(** Once the buffer holds something, every further text comes after a
    separator. *)
Lemma errorList_loop_nonempty (texts : list string) (buf : string) :
  buf <> EmptyString ->
  fold_left (fun buf t => (if (0 <? len buf)%nat then buf +:+ ", " else buf) +:+ t)
            texts buf
  = Chain.Join (buf :: texts) ", ".
Proof.
  revert buf. induction texts as [|t rest IH]; intros buf Hbuf; [done |].
  cbn [fold_left]. rewrite (nonempty_len _ Hbuf).
  rewrite IH by (apply append_nonempty, append_nonempty, Hbuf).
  destruct rest as [|t' rest'].
  - cbn. by rewrite append_assoc.
  - change (Chain.Join (buf :: t :: t' :: rest') ", ")
      with (buf +:+ ", " +:+ Chain.Join (t :: t' :: rest') ", ").
    change (Chain.Join (t :: t' :: rest') ", ")
      with (t +:+ ", " +:+ Chain.Join (t' :: rest') ", ").
    change (Chain.Join (((buf +:+ ", ") +:+ t) :: t' :: rest') ", ")
      with (((buf +:+ ", ") +:+ t) +:+ ", " +:+ Chain.Join (t' :: rest') ", ").
    by rewrite !append_assoc.
Qed.

Lemma errorList_text_Join (texts : list string) :
  Chain.errorList_text texts = Chain.Join (Chain.drop_leading_empty texts) ", ".
Proof.
  unfold Chain.errorList_text. induction texts as [|t rest IH]; [done |].
  destruct t as [|x t].
  - cbn [fold_left Chain.drop_leading_empty]. exact IH.
  - cbn [fold_left Chain.drop_leading_empty].
    change ((if (0 <? len "")%nat then "" +:+ ", " else "") +:+ String x t)
      with (String x t).
    by apply errorList_loop_nonempty.
Qed.

(** X15. The text of an [errorList] is the texts of its errors joined by
    ", ", except that empty texts at the head of the list are passed over
    without a separator. The list [OnChange] builds holds handler errors
    only, whose text is never empty, so its text is the plain join. *)
Theorem errorList_text_is_join (status_text : string -> string)
        (texts : list string) (invs : list Runtime.Invocation) :
  Chain.errorList_text texts = Chain.Join (Chain.drop_leading_empty texts) ", "
  /\ Chain.Error status_text (ErrList (collected invs))
     = Chain.Join (map (Chain.Error status_text) (collected invs)) ", ".
Proof.
  split; [apply errorList_text_Join |].
  cbn [Chain.Error]. rewrite errorList_text_Join. f_equal.
  assert (Hhead : forall e l, collected invs = e :: l -> exists n x, e = ErrHandler n x).
  { unfold collected. induction invs as [|i rest IH]; [done |].
    intros e l.
    change (omap reported (i :: rest))
      with (match reported i with
            | Some y => y :: omap reported rest
            | None => omap reported rest
            end).
    unfold reported at 1.
    destruct (Runtime.inv_err i) as [x|]; [| apply IH].
    destruct (Is_ErrIgnore x); [apply IH |]. intros [= <- _]. by eexists _, _. }
  destruct (collected invs) as [|e l]; [done |].
  destruct (Hhead e l eq_refl) as (n & x & ->). reflexivity.
Qed.

Example errorList_text_edges :
  Chain.errorList_text ["a"; ""; "b"] = "a, , b"
  /\ Chain.errorList_text [""; ""; "b"; "c"] = "b, c"
  /\ Chain.Join [""; ""; "b"; "c"] ", " = ", , b, c"
  /\ Chain.Error (fun what => what +:+ " not found")
       (ErrList [ErrHandler "a" (ErrWrap "[r.go:7] " (ErrOther "boom"));
                 ErrHandler "b" (ErrNotFound "foo/a")])
     = "handler a: [r.go:7] boom, handler b: foo/a not found".
Proof. repeat split; reflexivity. Qed.

(** ** The dispatch engine: what a dispatch does to the gate *)

Section GateFrames.
Context {World Limiter : Type}.
Implicit Types (m : Router.HandlerSet World Limiter).

Lemma keeps_ret {A} (a : A) : keeps_gate (World := World) (Limiter := Limiter) (Eff.ret a).
Proof. by intros m. Qed.

Lemma keeps_bind {A B} (c : Eff.M (Router.HandlerSet World Limiter) A)
      (k : A -> Eff.M (Router.HandlerSet World Limiter) B) :
  keeps_gate c -> (forall a, keeps_gate (k a)) -> keeps_gate (Eff.bind c k).
Proof.
  intros Hc Hk m. unfold Eff.bind.
  destruct (Hc m) as (Hl & Hw & Hs). destruct (c m) as [a m1]. cbn in *.
  destruct (Hk a m1) as (Hl' & Hw' & Hs'). by rewrite Hl', Hw', Hs'.
Qed.

Lemma keeps_extern {A} ev (f : World -> A * World) :
  keeps_gate (Limiter := Limiter) (Router.extern ev f).
Proof. intros m. unfold Router.extern. by destruct (f (Router.world m)). Qed.
End GateFrames.

Ltac keeps_step :=
  lazymatch goal with
  | |- keeps_gate (Eff.bind _ _) => apply keeps_bind; [| intros ?; cbv beta]
  | |- keeps_gate (Eff.ret _) => apply keeps_ret
  | |- keeps_gate (Router.extern _ _) => apply keeps_extern
  | |- keeps_gate (Router.emit _) => apply keeps_extern
  | |- keeps_gate (match ?x with _ => _ end) => destruct x
  end.

Section GateBookkeeping.
Context {World Limiter : Type}.
Variable NewLimiter : Q -> Z -> Limiter.
Variable Reserve_Delay : Limiter -> World -> Z * Limiter.
Variable scheme_New : GroupVersionKind -> Object + error.
Variable backend_Get : ObjectKey -> Object -> World -> (Object * option error) * World.
Variable backend_Trigger : GroupVersionKind -> string -> Z -> World -> option error * World.
Variable handlers_Handles : Router.Request -> World -> bool.
Variable handlers_Handle :
  Router.Request -> Router.response -> World ->
  ((Object -> Object) * Router.response * option error) * World.
Variable onError :
  option (Router.Request -> Router.response -> option error -> World ->
          (Router.response * option error) * World).
Variable triggers_UnregisterAndTrigger : Router.Request -> World -> World.
Variable triggers_Trigger : Router.Request -> World -> World.
Variable save_save :
  option Object -> Router.Request -> World -> (option Object * option error) * World.

Local Abbreviation handle :=
  (Router.handle (Limiter := Limiter) backend_Trigger handlers_Handles handlers_Handle
                 onError triggers_UnregisterAndTrigger triggers_Trigger save_save).
Local Abbreviation checkDelay := (Router.checkDelay NewLimiter Reserve_Delay).
Local Abbreviation after_gate :=
  (Router.after_gate (Limiter := Limiter) scheme_New backend_Get backend_Trigger
                     handlers_Handles handlers_Handle
                     onError triggers_UnregisterAndTrigger triggers_Trigger save_save).
Local Abbreviation onChange :=
  (Router.onChange NewLimiter Reserve_Delay scheme_New backend_Get backend_Trigger
                   handlers_Handles handlers_Handle
                   onError triggers_UnregisterAndTrigger triggers_Trigger save_save).

Implicit Types (m : Router.HandlerSet World Limiter).

Lemma handle_keeps_gate gvk key obj trigger : keeps_gate (handle gvk key obj trigger).
Proof.
  unfold Router.handle, Router.run_handlers, Router.update_triggers,
    Router.save_and_retry, Router.finish, Router.handleError.
  destruct (Router.newRequestResponse gvk key obj trigger) as [[req resp] err].
  repeat keeps_step.
Qed.

(** X16. Running the handlers, updating the subscriptions, saving and
    scheduling a retry never touch the rate-limit gate: after [handle] the
    limiter table, the waiting set and the parked sleepers are what they
    were, whatever the handlers, the error callback and the backend do. *)
Theorem handle_leaves_gate_alone gvk key obj trigger m :
  Router.limiters (handle gvk key obj trigger m).2 = Router.limiters m
  /\ Router.waiting (handle gvk key obj trigger m).2 = Router.waiting m
  /\ Router.sleeping (handle gvk key obj trigger m).2 = Router.sleeping m.
Proof. apply handle_keeps_gate. Qed.

(** Past the gate a dispatch changes the bookkeeping in one way only: it
    drops the limiter of a key whose object is gone. *)
Lemma after_gate_gate_elim gvk key ro fromTrigger m
      (P : Router.HandlerSet World Limiter -> Prop) :
  (forall m',
     Router.limiters m'
     = (if object_gone scheme_New backend_Get gvk key ro m
        then delete (key, gvk) (Router.limiters m) else Router.limiters m) ->
     Router.waiting m' = Router.waiting m ->
     Router.sleeping m' = Router.sleeping m -> P m') ->
  P (after_gate gvk key ro fromTrigger m).2.
Proof.
  intros HP. unfold Router.after_gate, object_gone in *.
  destruct (scheme_New gvk) as [obj0|e]; [| by apply HP].
  unfold Router.locked_dispatch. destruct (Router.split_key key) as [ns name].
  unfold Eff.bind, Router.emit, Router.extern, Eff.ret. cbv beta iota zeta.
  cbn [Router.world Router.limiters Router.waiting Router.sleeping Router.log].
  destruct (backend_Get (mkKey ns name) obj0 (Router.world m)) as [[fresh getErr] w].
  set (m1 := Router.mkHS _ _ _ _ _).
  assert (Hm1 : Router.limiters m1 = Router.limiters m
                /\ Router.waiting m1 = Router.waiting m
                /\ Router.sleeping m1 = Router.sleeping m) by done.
  clearbody m1. destruct Hm1 as (Hl & Hw & Hs). cbn [fst snd] in HP |- *.
  destruct getErr as [e|]; cbn [IsNotFound negb] in HP |- *.
  - destruct (IsNotFound_err e); cbn [negb andb] in HP |- *; cbv beta iota zeta.
    + destruct ro as [x|]; cbn [is_Some_b negb] in HP.
      * unfold Eff.ret. destruct (handle_keeps_gate gvk key (Some x) fromTrigger m1)
          as (H1 & H2 & H3).
        destruct (handle gvk key (Some x) fromTrigger m1) as [r m2]. cbn in *.
        apply HP; cbn; congruence.
      * unfold Router.forgetBackoff, Eff.modify.
        set (m1' := Router.mkHS _ _ _ _ _).
        destruct (handle_keeps_gate gvk key None fromTrigger m1') as (H1 & H2 & H3).
        destruct (handle gvk key None fromTrigger m1') as [r m2]. subst m1'. cbn in *.
        apply HP; cbn; congruence.
    + apply HP; cbn; congruence.
  - cbv beta iota zeta. unfold Eff.ret.
    destruct (handle_keeps_gate gvk key (Some fresh) fromTrigger m1) as (H1 & H2 & H3).
    destruct (handle gvk key (Some fresh) fromTrigger m1) as [r m2]. cbn in *.
    apply HP; cbn; congruence.
Qed.

Lemma checkDelay_elim gvk key m (P : bool * Router.HandlerSet World Limiter -> Prop) :
  ((key, gvk) ∈ Router.waiting m -> P (false, m)) ->
  ((key, gvk) ∉ Router.waiting m ->
   forall d limit',
     P (if d >? 0
        then (false,
              Router.mkHS (<[(key, gvk) := limit']> (Router.limiters m))
                          ({[(key, gvk)]} ∪ Router.waiting m)
                          (Router.sleeping m ++ [((key, gvk), d)])
                          (Router.world m)
                          (Router.log m ++ [Router.EvReserve (key, gvk)]))
        else (true,
              Router.mkHS (<[(key, gvk) := limit']> (Router.limiters m))
                          (Router.waiting m) (Router.sleeping m) (Router.world m)
                          (Router.log m ++ [Router.EvReserve (key, gvk)])))) ->
  P (checkDelay gvk key m).
Proof.
  intros Hin Hout. unfold Router.checkDelay, Eff.bind, Eff.gets, Eff.ret.
  destruct (decide ((key, gvk) ∈ Router.waiting m)) as [H|H]; [by apply Hin |].
  specialize (Hout H).
  destruct (Router.limiters m !! (key, gvk)) as [l|];
    unfold Router.extern, Router.set_limiter, Router.set_waiting,
           Router.spawn_sleeper, Eff.modify; cbn.
  - destruct (Reserve_Delay l (Router.world m)) as [d l']. cbn.
    specialize (Hout d l'). by destruct (d >? 0).
  - destruct (Reserve_Delay (NewLimiter (1 # 5) 10) (Router.world m)) as [d l']. cbn.
    specialize (Hout d l'). rewrite insert_insert_eq. by destruct (d >? 0).
Qed.

Lemma checkDelay_consistent gvk key m :
  gate_consistent m -> gate_consistent (checkDelay gvk key m).2.
Proof.
  intros [Hnodup Hiff]. apply (checkDelay_elim gvk key m (fun r => gate_consistent r.2)).
  - done.
  - intros Hnotin d limit'. destruct (d >? 0); [| done].
    unfold gate_consistent, sleeper_keys. cbn. rewrite map_app. cbn. split.
    + apply NoDup_app. split; [done |]. split; [| apply NoDup_singleton].
      intros x Hx Hx'. apply list_elem_of_singleton in Hx'. subst x.
      apply Hnotin. by apply Hiff.
    + intros lKey. rewrite elem_of_union, elem_of_singleton, elem_of_app,
        list_elem_of_singleton, Hiff. unfold sleeper_keys. tauto.
Qed.

Lemma delete_sleeper (l : list ((string * GroupVersionKind) * Z)) i lKey d :
  NoDup (map fst l) -> l !! i = Some (lKey, d) ->
  NoDup (map fst (delete i l))
  /\ forall x, x ∈ map fst (delete i l) <-> x ∈ map fst l /\ x <> lKey.
Proof.
  intros Hnodup Hi.
  rewrite delete_take_drop. rewrite <- (take_drop_middle l i (lKey, d) Hi) in Hnodup |- *.
  rewrite !map_app in *. cbn [map fst] in *.
  apply NoDup_app in Hnodup as (Htake & Hdisj & Hrest).
  apply NoDup_cons in Hrest as [Hnotin Hdrop].
  rewrite take_app_length' by (rewrite length_take; apply lookup_lt_Some in Hi; lia).
  assert (Hd : drop (S i) (take i l ++ (lKey, d) :: drop (S i) l) = drop (S i) l).
  { rewrite (take_drop_middle l i (lKey, d) Hi). done. }
  rewrite Hd. split.
  - apply NoDup_app. split; [done |]. split; [| done].
    intros x Hx Hx'. apply (Hdisj x Hx). by right.
  - intros x. rewrite !elem_of_app, elem_of_cons. split.
    + intros [Hx | Hx].
      * split; [by left |]. intros ->. apply (Hdisj lKey Hx). by left.
      * split; [by right; right |]. by intros ->.
    + intros [[Hx | [-> | Hx]] Hne]; [by left | done | by right].
Qed.

(** X17. When a dispatch gets through the gate and finds its object gone
    (not-found, and no copy carried by the event), the limiter of that
    key and kind is dropped from the table, so the key's next dispatch
    starts on a fresh bucket; in every other dispatch the table is left as
    the gate left it. *)
Theorem onChange_forgets_gone_object gvk key ro m :
  let '(fromTrigger, fromReplay, k) := Router.decode_key key in
  let gated := negb fromReplay && negb fromTrigger in
  let proceed := if gated then (checkDelay gvk k m).1 else true in
  let m1 := if gated then (checkDelay gvk k m).2 else m in
  Router.limiters (onChange gvk key ro m).2
  = (if proceed && object_gone scheme_New backend_Get gvk k ro m
     then delete (k, gvk) (Router.limiters m1) else Router.limiters m1)
  /\ (proceed && object_gone scheme_New backend_Get gvk k ro m = true ->
      Router.limiters (onChange gvk key ro m).2 !! (k, gvk) = None).
Proof.
  unfold Router.onChange.
  destruct (Router.decode_key key) as [[fromTrigger fromReplay] k].
  cbv zeta.
  set (gate := if negb fromReplay && negb fromTrigger
               then checkDelay gvk k else Eff.ret true).
  assert (Hgate : (if negb fromReplay && negb fromTrigger
                   then (checkDelay gvk k m).1 else true) = (gate m).1
                  /\ (if negb fromReplay && negb fromTrigger
                      then (checkDelay gvk k m).2 else m) = (gate m).2
                  /\ Router.world (gate m).2 = Router.world m).
  { subst gate. destruct (negb fromReplay && negb fromTrigger); [| done].
    split; [done |]. split; [done |]. apply checkDelay_frame. }
  destruct Hgate as (-> & -> & Hworld). clearbody gate.
  unfold Eff.bind. destruct (gate m) as [proceed m1]. cbn [fst snd] in *.
  assert (Hgone : object_gone scheme_New backend_Get gvk k ro m1
                  = object_gone scheme_New backend_Get gvk k ro m).
  { unfold object_gone. by rewrite Hworld. }
  destruct proceed; cbn [negb andb]; [| done].
  apply (after_gate_gate_elim gvk k ro fromTrigger m1). intros m' Hl _ _.
  rewrite Hl, Hgone. split; [done |].
  intros ->. apply lookup_delete_eq.
Qed.

(** X18. The waiting set and the parked sleepers stay in step: starting
    from a new handler set, after any dispatch and any wake-up, a key is
    waiting exactly when one sleeper is parked for it, and no key has two.
    So every dispatch the gate refused has its replay pending, and only
    one. *)
Theorem gate_stays_consistent gvk key ro m (i : nat) (w : World) :
  gate_consistent (NewHandlerSet_state (Limiter := Limiter) w)
  /\ (gate_consistent m ->
      gate_consistent (onChange gvk key ro m).2
      /\ gate_consistent (Router.wake backend_Trigger i m).2).
Proof.
  split.
  { split; [constructor |]. intros lKey. unfold sleeper_keys. cbn. set_solver. }
  intros Hm. split.
  - unfold Router.onChange.
    destruct (Router.decode_key key) as [[fromTrigger fromReplay] k].
    set (gate := if negb fromReplay && negb fromTrigger
                 then checkDelay gvk k else Eff.ret true).
    assert (Hgate : gate_consistent (gate m).2).
    { subst gate. destruct (negb fromReplay && negb fromTrigger); [| done].
      by apply checkDelay_consistent. }
    clearbody gate. unfold Eff.bind. destruct (gate m) as [proceed m1]. cbn in Hgate.
    destruct proceed; cbn [negb]; [| done].
    apply (after_gate_gate_elim gvk k ro fromTrigger m1). intros m' _ Hw Hs.
    destruct Hgate as [Hnodup Hiff]. unfold gate_consistent, sleeper_keys in *.
    rewrite Hw, Hs. done.
  - unfold Router.wake, Eff.bind, Eff.gets. cbn.
    destruct (Router.sleeping m !! i) as [[lKey d]|] eqn:Hi; [| done].
    unfold Eff.modify, Router.after_sleep, Eff.bind, Router.set_waiting, Eff.modify,
      Router.extern, Eff.ret. cbn.
    destruct (backend_Trigger _ _ _ _) as [err w']. cbn.
    destruct Hm as [Hnodup Hiff]. unfold gate_consistent, sleeper_keys in *. cbn.
    destruct (delete_sleeper _ i lKey d Hnodup Hi) as [Hnodup' Hiff'].
    split; [done |]. intros x. rewrite Hiff', elem_of_difference, elem_of_singleton, Hiff.
    done.
Qed.
End GateBookkeeping.

Lemma onChange_forgets_gone_object_witness :
  Router.limiters (Bench.onChange (Bench.retrying 0) Foo "foo/a" None Bench.idle).2
  !! ("foo/a", Foo) = None.
Proof.
  pose proof (onChange_forgets_gone_object Bench.NewLimiter Bench.Reserve_Delay
                Bench.scheme_New Bench.gone Bench.backend_Trigger Bench.Handles
                (Bench.retrying 0) None Bench.registry_noop Bench.registry_noop
                Bench.save_noop Foo "foo/a" None Bench.idle) as H.
  change (Router.decode_key "foo/a") with (false, false, "foo/a") in H.
  cbv beta iota zeta in H. apply (proj2 H). vm_compute. reflexivity.
Defined.

Lemma knock_consistent n m : gate_consistent m -> gate_consistent (knock n m).2.
Proof.
  revert m. induction n as [|n IH]; intros m Hm; [done |].
  cbn [knock].
  pose proof (checkDelay_consistent Bench.NewLimiter Bench.Reserve_Delay Bench.scheme_New
                                     Bench.backend_Trigger Foo "foo/a" m Hm)
    as H1.
  unfold Bench.checkDelay.
  destruct (Router.checkDelay _ _ _ _ m) as [ok m1]. cbn [snd] in H1.
  specialize (IH m1 H1). by destruct (knock n m1).
Qed.

Lemma knock_12_consistent : gate_consistent (knock 12 Bench.idle).2.
Proof.
  apply knock_consistent. split; [constructor |]. intros lKey.
  unfold sleeper_keys. cbn. set_solver.
Defined.

Lemma gate_stays_consistent_witness :
  gate_consistent (knock 12 Bench.idle).2
  /\ gate_consistent (Bench.onChange (Bench.retrying 0) Foo "foo/a" None
                                     (knock 12 Bench.idle).2).2
  /\ gate_consistent (Router.wake Bench.backend_Trigger 0 (knock 12 Bench.idle).2).2.
Proof.
  split; [exact knock_12_consistent |].
  exact (proj2 (gate_stays_consistent Bench.NewLimiter Bench.Reserve_Delay
                  Bench.scheme_New Bench.gone Bench.backend_Trigger Bench.Handles
                  (Bench.retrying 0) None Bench.registry_noop Bench.registry_noop
                  Bench.save_noop Foo "foo/a" None (knock 12 Bench.idle).2 0%nat tt)
               knock_12_consistent).
Defined.

(** ** Routes *)

Section RouteFilters.
Context {World : Type}.
Variable being_deleted : Object -> bool.
Variable FinalizerHandler :
  string -> Routes.Handler (World := World) -> Routes.Handler (World := World).
Variable caller : string * string.

Local Abbreviation build := (Routes.build being_deleted FinalizerHandler caller).
Local Abbreviation accepts := (Routes.accepts (World := World) being_deleted).
Local Abbreviation behind_filters := (Routes.behind_filters (World := World) FinalizerHandler).
Local Abbreviation registered_name := (Routes.registered_name (World := World) caller).

Lemma registered_name_nonempty r : String.eqb (registered_name r) "" = false.
Proof.
  unfold Routes.registered_name.
  destruct (String.eqb (Routes.routeName r) "") eqn:E; [| done].
  unfold Routes.caller_name. apply String.eqb_neq.
  destruct caller as [file line]. cbn. by destruct file.
Qed.

Lemma build_gated r h req resp w :
  (build r h).2 req resp w
  = if accepts r req
    then Routes.ErrorPrefix ("[" +:+ registered_name r +:+ "] ") (behind_filters r h)
                            req resp w
    else Routes.nothing resp w.
Proof.
  unfold Routes.build. cbn [snd]. fold (registered_name r).
  rewrite registered_name_nonempty. cbn [negb Routes.wrap_if].
  unfold Routes.accepts, Routes.behind_filters.
  set (inner := foldr _ _ _).
  assert (inner = foldr (fun mw acc => mw acc)
                        (if String.eqb (Routes.finalizeID r) "" then h
                         else FinalizerHandler (Routes.finalizeID r) h)
                        (Routes.middleware r)) as <-.
  { subst inner. unfold Routes.wrap_if. by destruct (String.eqb (Routes.finalizeID r) ""). }
  clearbody inner.
  unfold Routes.wrap_if, Routes.wrap_with, Routes.selects,
    Routes.IgnoreNilHandler, Routes.IgnoreRemoveHandler, Routes.FieldSelectorFilter,
    Routes.SelectorFilter, Routes.NameNamespaceFilter, Routes.ErrorPrefix, Routes.nothing.
  destruct (String.eqb (Routes.finalizeID r) ""), (Routes.includeRemove r),
    (Routes.includeFinalizing r), (Routes.sel r) as [s|], (Routes.fieldSelector r) as [fs|],
    (String.eqb (Routes.name r) ""), (String.eqb (Routes.namespace r) "");
    cbn [negb andb orb];
    destruct (Router.req_Object req) as [o|]; try reflexivity;
    try destruct (being_deleted o); try destruct (fs o); try destruct (s o);
    cbn [negb andb orb]; try reflexivity;
    try destruct (String.eqb (Router.req_Name req) (Routes.name r));
    try destruct (String.eqb (Router.req_Namespace req) (Routes.namespace r));
    cbn [negb andb orb]; reflexivity.
Qed.

(** X19. A route never hands a request without an object to its handler
    unless it was built with a finalizer or with [IncludeRemoved], and even
    then not if a label or field selector is set; and a route built with
    none of [IncludeRemoved], [IncludeFinalizing] and a finalizer never
    hands it an object that is being deleted. A skipped request returns no
    error and leaves the response and the world as they were. *)
Theorem route_skips_missing_object r h req resp w :
  (Router.req_Object req = None ->
   (Routes.finalizeID r = "" /\ Routes.includeRemove r = false)
   \/ is_Some (Routes.sel r) \/ is_Some (Routes.fieldSelector r) ->
   (build r h).2 req resp w = Routes.nothing resp w)
  /\ (forall o,
        Router.req_Object req = Some o -> being_deleted o = true ->
        Routes.finalizeID r = "" -> Routes.includeRemove r = false ->
        Routes.includeFinalizing r = false ->
        (build r h).2 req resp w = Routes.nothing resp w).
Proof.
  split.
  - intros Hnil Hwhy. rewrite build_gated.
    assert (accepts r req = false) as ->; [| done].
    unfold Routes.accepts, Routes.selects. rewrite Hnil.
    destruct Hwhy as [[Hfin Hrem] | [[s Hs] | [s Hs]]];
      rewrite ?Hfin, ?Hrem, ?Hs; cbn [String.eqb negb orb].
    + by rewrite andb_false_r.
    + by rewrite andb_false_r.
    + destruct (Routes.sel r); by rewrite !andb_false_r.
  - intros o Hobj Hdel Hfin Hrem Hfz. rewrite build_gated.
    assert (accepts r req = false) as ->; [| done].
    unfold Routes.accepts. rewrite Hobj, Hdel, Hfin, Hrem, Hfz. cbn [String.eqb negb orb].
    by rewrite andb_false_r.
Qed.

(** X20. Every route is registered under a name that is not empty, so
    every error its handler returns comes back wrapped with the prefix
    ["[name] "]: the wrapped error is the one the handler behind the
    filters returned, and it is an [ErrIgnore] or a not-found error exactly
    when that one is. *)
Theorem route_errors_carry_route_name r h req resp w edit resp' err w' :
  (build r h).2 req resp w = ((edit, resp', Some err), w') ->
  (build r h).1 <> ""
  /\ exists e,
      (behind_filters r h req resp w).1.2 = Some e
      /\ err = ErrWrap ("[" +:+ (build r h).1 +:+ "] ") e
      /\ Is_ErrIgnore err = Is_ErrIgnore e
      /\ IsNotFound_err err = IsNotFound_err e.
Proof.
  intros Hrun. rewrite build_gated in Hrun.
  change (build r h).1 with (registered_name r).
  split.
  { apply String.eqb_neq, registered_name_nonempty. }
  destruct (accepts r req); [| discriminate Hrun].
  unfold Routes.ErrorPrefix in Hrun.
  destruct (behind_filters r h req resp w) as [[[edit0 resp0] [e|]] w0];
    [| discriminate Hrun].
  injection Hrun as _ _ <- _. exists e. done.
Qed.

(** X21. What a built route does with a request: if the request passes
    the name, namespace, selector and object checks the route was built
    with, it runs the handler behind the filters (the finalizer handler if
    any, inside the middleware, the first one outermost) and prefixes its
    error; otherwise it does nothing. With a finalizer the
    [IncludeRemoved] and [IncludeFinalizing] settings make no difference. *)
Theorem route_runs_behind_its_filters r h req resp w :
  (build r h).2 req resp w
  = (if accepts r req
     then Routes.ErrorPrefix ("[" +:+ (build r h).1 +:+ "] ") (behind_filters r h)
                             req resp w
     else Routes.nothing resp w)
  /\ (Routes.finalizeID r <> "" ->
      forall a b,
        (build (Routes.mkBuilder a b (Routes.finalizeID r) (Routes.name r)
                                 (Routes.namespace r) (Routes.routeName r)
                                 (Routes.middleware r) (Routes.sel r)
                                 (Routes.fieldSelector r)) h).2 req resp w
        = (build r h).2 req resp w).
Proof.
  split; [apply build_gated |].
  intros Hfin a b. rewrite !build_gated.
  apply String.eqb_neq in Hfin.
  unfold Routes.accepts, Routes.behind_filters, Routes.registered_name.
  cbn [Routes.finalizeID Routes.name Routes.namespace Routes.routeName Routes.middleware
       Routes.sel Routes.fieldSelector Routes.includeRemove Routes.includeFinalizing].
  by rewrite Hfin.
Qed.
End RouteFilters.

Lemma route_skips_missing_object_witness :
  (RouteBench.build RouteBench.removed_selected Bench.failing).2
    (Bench.request None false) RouteBench.resp0 tt
  = Routes.nothing RouteBench.resp0 tt
  /\ (RouteBench.build RouteBench.plain Bench.failing).2
       (Bench.request (Some RouteBench.foo_a_deleting) false) RouteBench.resp0 tt
     = Routes.nothing RouteBench.resp0 tt.
Proof.
  split.
  - apply (proj1 (route_skips_missing_object RouteBench.being_deleted
                    RouteBench.FinalizerHandler RouteBench.caller
                    RouteBench.removed_selected Bench.failing
                    (Bench.request None false) RouteBench.resp0 tt)).
    + reflexivity.
    + right. left. by eexists.
  - apply (proj2 (route_skips_missing_object RouteBench.being_deleted
                    RouteBench.FinalizerHandler RouteBench.caller
                    RouteBench.plain Bench.failing
                    (Bench.request (Some RouteBench.foo_a_deleting) false)
                    RouteBench.resp0 tt) RouteBench.foo_a_deleting); reflexivity.
Defined.

Lemma route_errors_carry_route_name_witness :
  (RouteBench.build RouteBench.plain Bench.failing).1 <> ""
  /\ exists e,
      (Routes.behind_filters RouteBench.FinalizerHandler RouteBench.plain Bench.failing
                             (Bench.request (Some Bench.foo_a) false) RouteBench.resp0 tt).1.2
      = Some e
      /\ ErrWrap "[main.go:42] " (ErrOther "boom")
         = ErrWrap ("[" +:+ (RouteBench.build RouteBench.plain Bench.failing).1 +:+ "] ") e
      /\ Is_ErrIgnore (ErrWrap "[main.go:42] " (ErrOther "boom")) = Is_ErrIgnore e
      /\ IsNotFound_err (ErrWrap "[main.go:42] " (ErrOther "boom")) = IsNotFound_err e.
Proof.
  apply (route_errors_carry_route_name RouteBench.being_deleted
           RouteBench.FinalizerHandler RouteBench.caller
           RouteBench.plain Bench.failing
           (Bench.request (Some Bench.foo_a) false) RouteBench.resp0 tt
           (fun o => o) RouteBench.resp0 (ErrWrap "[main.go:42] " (ErrOther "boom")) tt).
  reflexivity.
Defined.

Lemma route_runs_behind_its_filters_witness :
  (Routes.build RouteBench.being_deleted RouteBench.FinalizerHandler RouteBench.caller
     (Routes.mkBuilder true true "cleanup" "" "" "" [] None None) Bench.failing).2
    (Bench.request None false) RouteBench.resp0 tt
  = (Routes.build RouteBench.being_deleted RouteBench.FinalizerHandler RouteBench.caller
       (Routes.mkBuilder false false "cleanup" "" "" "" [] None None) Bench.failing).2
      (Bench.request None false) RouteBench.resp0 tt.
Proof.
  apply (proj2 (route_runs_behind_its_filters RouteBench.being_deleted
                  RouteBench.FinalizerHandler RouteBench.caller
                  (Routes.mkBuilder false false "cleanup" "" "" "" [] None None)
                  Bench.failing (Bench.request None false) RouteBench.resp0 tt)
               ltac:(discriminate) true true).
Defined.

(** ** The kinds a handler set watches *)

Section WatchedKinds.
Context {World : Type}.
Variable backend_Watcher : GroupVersionKind -> World -> option error * World.
Variable merr_NewErrors : list error -> option error.

Local Abbreviation WatchGVK_loop := (Watching.WatchGVK_loop backend_Watcher).
Local Abbreviation WatchGVK := (Watching.WatchGVK backend_Watcher merr_NewErrors).

Implicit Types (m : Watching.Watchers World) (gvks : list GroupVersionKind).

Lemma WatchGVK_loop_spec gvks errs m :
  Watching.watching m ⊆ Watching.watching (WatchGVK_loop gvks errs m).2
  /\ (exists new,
        Watching.watcher_calls (WatchGVK_loop gvks errs m).2
        = Watching.watcher_calls m ++ new
        /\ Forall (fun g => g ∈ gvks /\ g ∉ Watching.watching m) new
        /\ forall g, g ∈ Watching.watching (WatchGVK_loop gvks errs m).2 ->
                     g ∈ Watching.watching m \/ g ∈ new)
  /\ (exists more,
        (WatchGVK_loop gvks errs m).1 = errs ++ more
        /\ (more = [] ->
            forall g, g ∈ gvks -> g ∈ Watching.watching (WatchGVK_loop gvks errs m).2)).
Proof.
  revert errs m. induction gvks as [|gvk rest IH]; intros errs m; cbn [Watching.WatchGVK_loop].
  { split; [done |]. split.
    - exists []. rewrite app_nil_r. split; [done |]. split; [constructor | by left].
    - exists []. rewrite app_nil_r. split; [done |]. intros _ g Hg. by apply elem_of_nil in Hg. }
  destruct (decide (gvk ∈ Watching.watching m)) as [Hin|Hout].
  { destruct (IH errs m) as (Hsub & (new & Hcalls & Hnew & Hrec) & (more & Herrs & Hall)).
    split; [done |]. split.
    - exists new. split; [done |]. split; [| done].
      eapply Forall_impl; [exact Hnew |]. intros g [? ?]. split; [by right | done].
    - exists more. split; [done |]. intros Hmore g Hg.
      apply elem_of_cons in Hg as [-> | Hg]; [by apply Hsub | by apply Hall]. }
  destruct (backend_Watcher gvk (Watching.world m)) as [[e|] w].
  - set (m1 := Watching.mkWatchers (Watching.watching m) w (Watching.watcher_calls m ++ [gvk])).
    destruct (IH (errs ++ [e]) m1)
      as (Hsub & (new & Hcalls & Hnew & Hrec) & (more & Herrs & Hall)).
    cbn [Watching.watching Watching.watcher_calls m1] in Hsub, Hcalls, Hnew, Hrec.
    split; [done |]. split.
    + exists (gvk :: new). split; [by rewrite Hcalls, <- app_assoc |]. split.
      * constructor; [split; [by left | done] |].
        eapply Forall_impl; [exact Hnew |]. intros g [? ?]. split; [by right | done].
      * intros g Hg. destruct (Hrec g Hg) as [? | ?]; [by left | right; by right].
    + exists (e :: more). split; [by rewrite Herrs, <- app_assoc |]. done.
  - set (m1 := Watching.mkWatchers ({[ gvk ]} ∪ Watching.watching m) w
                                   (Watching.watcher_calls m ++ [gvk])).
    destruct (IH errs m1) as (Hsub & (new & Hcalls & Hnew & Hrec) & (more & Herrs & Hall)).
    cbn [Watching.watching Watching.watcher_calls m1] in Hsub, Hcalls, Hnew, Hrec.
    split; [etrans; [apply (union_subseteq_r {[ gvk ]}) | exact Hsub] |]. split.
    + exists (gvk :: new). split; [by rewrite Hcalls, <- app_assoc |]. split.
      * constructor; [split; [by left | done] |].
        eapply Forall_impl; [exact Hnew |]. intros g [? Hg].
        split; [by right |]. intros ?. apply Hg, elem_of_union. by right.
      * intros g Hg. destruct (Hrec g Hg) as [Hg' | ?]; [| right; by right].
        apply elem_of_union in Hg' as [Hg' | ?]; [| by left].
        apply elem_of_singleton in Hg' as ->. right. by left.
    + exists more. split; [done |]. intros Hmore g Hg.
      apply elem_of_cons in Hg as [-> | Hg]; [| by apply Hall].
      apply Hsub, elem_of_union. left. by apply elem_of_singleton.
Qed.

Lemma WatchGVK_loop_watched gvks errs m :
  (forall g, g ∈ gvks -> g ∈ Watching.watching m) ->
  WatchGVK_loop gvks errs m = (errs, m).
Proof.
  induction gvks as [|gvk rest IH]; intros Hall; cbn [Watching.WatchGVK_loop]; [done |].
  destruct (decide (gvk ∈ Watching.watching m)) as [_|Hout].
  - apply IH. intros g Hg. apply Hall. by right.
  - exfalso. apply Hout, Hall. by left.
Qed.

(** X22. [WatchGVK] asks the backend only for kinds that are not watched
    yet, never forgets a watched kind, and records a kind as watched only
    if it asked the backend for it in this call. When none of its watches
    fails, every kind it was given is watched afterwards, and calling it
    again with the same kinds changes nothing and asks the backend
    nothing. *)
Theorem WatchGVK_asks_once gvks m :
  Watching.watching m ⊆ Watching.watching (WatchGVK gvks m).2
  /\ (exists new,
        Watching.watcher_calls (WatchGVK gvks m).2 = Watching.watcher_calls m ++ new
        /\ Forall (fun g => g ∈ gvks /\ g ∉ Watching.watching m) new
        /\ forall g, g ∈ Watching.watching (WatchGVK gvks m).2 ->
                     g ∈ Watching.watching m \/ g ∈ new)
  /\ ((WatchGVK_loop gvks [] m).1 = [] ->
      (forall g, g ∈ gvks -> g ∈ Watching.watching (WatchGVK gvks m).2)
      /\ (WatchGVK gvks (WatchGVK gvks m).2).2 = (WatchGVK gvks m).2).
Proof.
  assert (Hstate : forall m0, (WatchGVK gvks m0).2 = (WatchGVK_loop gvks [] m0).2).
  { intros m0. unfold Watching.WatchGVK. by destruct (WatchGVK_loop gvks [] m0). }
  rewrite !Hstate.
  destruct (WatchGVK_loop_spec gvks [] m) as (Hsub & Hcalls & (more & Herrs & Hall)).
  split; [done |]. split; [done |].
  intros Hnone. rewrite Herrs in Hnone. cbn [app] in Hnone.
  specialize (Hall Hnone). split; [done |].
  by rewrite (WatchGVK_loop_watched gvks [] _ Hall).
Qed.
End WatchedKinds.

Lemma WatchGVK_asks_once_witness :
  (forall g, g ∈ [Foo; Foo] ->
             g ∈ Watching.watching
                   (Watching.WatchGVK Watching.no_bars Watching.first_error [Foo; Foo]
                                      Watching.unwatched).2)
  /\ (Watching.WatchGVK Watching.no_bars Watching.first_error [Foo; Foo]
        (Watching.WatchGVK Watching.no_bars Watching.first_error [Foo; Foo]
                           Watching.unwatched).2).2
     = (Watching.WatchGVK Watching.no_bars Watching.first_error [Foo; Foo]
                          Watching.unwatched).2.
Proof.
  apply (proj2 (proj2 (WatchGVK_asks_once Watching.no_bars Watching.first_error
                         [Foo; Foo] Watching.unwatched))).
  reflexivity.
Defined.

(** ** Starting and stopping a controller *)

Lemma handlers_added_app a b :
  Lifecycle.handlers_added (a ++ b)
  = (Lifecycle.handlers_added a + Lifecycle.handlers_added b)%nat.
Proof. unfold Lifecycle.handlers_added. by rewrite filter_app, length_app. Qed.

Ltac absent :=
  let Hin := fresh "Hin" in
  intros Hin;
  repeat (apply elem_of_cons in Hin as [Hin|Hin]; [discriminate Hin |]);
  by apply elem_of_nil in Hin.

Section ControllerLifecycle.
Context {World Informer Registration : Type}.
Variable cache_GetInformerForKind : World -> Lifecycle.Found Informer * World.
Variable informer_AddEventHandler : Informer -> World -> (Registration + error) * World.
Variable informer_HasSynced : Informer -> World -> bool.
Variable WaitForCacheSync : Informer -> World -> bool * World.

Local Abbreviation ensure_informer := (Lifecycle.ensure_informer cache_GetInformerForKind).
Local Abbreviation ensure_registration :=
  (Lifecycle.ensure_registration informer_AddEventHandler).
Local Abbreviation sync_and_run :=
  (Lifecycle.sync_and_run informer_HasSynced WaitForCacheSync).
Local Abbreviation Start :=
  (Lifecycle.Start cache_GetInformerForKind informer_AddEventHandler informer_HasSynced
                   WaitForCacheSync).
Local Abbreviation reachable :=
  (Lifecycle.reachable cache_GetInformerForKind informer_AddEventHandler informer_HasSynced
                       WaitForCacheSync).

Implicit Types (c : Lifecycle.controller World Informer Registration).

Lemma ensure_informer_spec c :
  exists new,
    Lifecycle.log (ensure_informer c).2 = Lifecycle.log c ++ new
    /\ Lifecycle.handlers_added new = 0%nat
    /\ (Lifecycle.EvGoRun ∉ new)
    /\ Lifecycle.registration (ensure_informer c).2 = Lifecycle.registration c
    /\ Lifecycle.started (ensure_informer c).2 = Lifecycle.started c.
Proof.
  unfold Lifecycle.ensure_informer. destruct (Lifecycle.informer c) as [i|].
  { exists []. rewrite app_nil_r. repeat split. absent. }
  destruct (cache_GetInformerForKind _) as [[i|type_name|e] w];
    (eexists; split; [reflexivity |]; repeat split; absent).
Qed.

Lemma ensure_registration_spec i c :
  exists new,
    Lifecycle.log (ensure_registration i c).2 = Lifecycle.log c ++ new
    /\ (Lifecycle.EvGoRun ∉ new)
    /\ Lifecycle.started (ensure_registration i c).2 = Lifecycle.started c
    /\ ((Lifecycle.registration (ensure_registration i c).2 = Lifecycle.registration c
         /\ Lifecycle.handlers_added new = 0%nat)
        \/ (Lifecycle.registration c = None
            /\ is_Some (Lifecycle.registration (ensure_registration i c).2)
            /\ Lifecycle.handlers_added new = 1%nat))
    /\ ((ensure_registration i c).1 = None ->
        is_Some (Lifecycle.registration (ensure_registration i c).2)).
Proof.
  unfold Lifecycle.ensure_registration.
  destruct (Lifecycle.registration c) as [reg|] eqn:Hreg.
  { exists []. rewrite app_nil_r, ?Hreg. cbn. split; [done |]. split; [absent |].
    split; [done |]. split; [by left | by eexists]. }
  destruct (informer_AddEventHandler i _) as [[reg|e] w]; cbn.
  - eexists. split; [reflexivity |]. split; [absent |]. split; [done |].
    split; [| by eexists]. right. split; [done |]. split; [by eexists | done].
  - eexists. split; [reflexivity |]. split; [absent |]. split; [done |].
    split; [by left | done].
Qed.

Lemma sync_and_run_spec i c :
  exists new,
    Lifecycle.log (sync_and_run i c).2 = Lifecycle.log c ++ new
    /\ Lifecycle.handlers_added new = 0%nat
    /\ Lifecycle.registration (sync_and_run i c).2 = Lifecycle.registration c
    /\ ((sync_and_run i c).1 = None -> Lifecycle.started (sync_and_run i c).2 = true)
    /\ (is_Some (sync_and_run i c).1 ->
        Lifecycle.started (sync_and_run i c).2 = Lifecycle.started c
        /\ (Lifecycle.EvGoRun ∉ new)).
Proof.
  unfold Lifecycle.sync_and_run.
  destruct (informer_HasSynced i _), (WaitForCacheSync i _) as [[|] w]; cbn;
    rewrite <- ?app_assoc; cbn [app];
    (eexists; split; [reflexivity |]; split; [done |]; split; [done |]);
    (split; [done |]); intros [? Herr]; try discriminate Herr; (split; [done | absent]).
Qed.

(** What one call of [Start] adds to the log, and what it leaves behind. *)
Lemma Start_cases c :
  exists new,
    Lifecycle.log (Start c).2 = Lifecycle.log c ++ new
    /\ ((Lifecycle.registration (Start c).2 = Lifecycle.registration c
         /\ Lifecycle.handlers_added new = 0%nat)
        \/ (Lifecycle.registration c = None
            /\ is_Some (Lifecycle.registration (Start c).2)
            /\ Lifecycle.handlers_added new = 1%nat))
    /\ ((Start c).1 = None ->
        Lifecycle.started (Start c).2 = true
        /\ (Lifecycle.started c = true \/ is_Some (Lifecycle.registration (Start c).2)))
    /\ (is_Some (Start c).1 ->
        Lifecycle.started (Start c).2 = false /\ (Lifecycle.EvGoRun ∉ new)).
Proof.
  unfold Lifecycle.Start.
  destruct (Lifecycle.started c) eqn:Hstarted.
  { exists []. rewrite app_nil_r. cbn. split; [done |]. split; [by left |].
    split; [by auto |]. by intros [? [=]]. }
  destruct (ensure_informer_spec c) as (n1 & Hl1 & Ha1 & Hr1 & Hreg1 & Hst1).
  destruct (ensure_informer c) as [[i|e] c1]; cbn [fst snd] in *.
  2: { exists n1. split; [done |]. split; [left; by split |]. split; [done |].
       intros _. split; [congruence | done]. }
  destruct (ensure_registration_spec i c1) as (n2 & Hl2 & Hr2 & Hst2 & Hreg2 & Hok2).
  destruct (ensure_registration i c1) as [[e|] c2]; cbn [fst snd] in *.
  { exists (n1 ++ n2). split; [by rewrite Hl2, Hl1, app_assoc |].
    rewrite handlers_added_app, Ha1. split.
    - destruct Hreg2 as [[? ?] | (? & ? & ?)]; [left | right]; split; try congruence; done.
    - split; [done |]. intros _. split; [congruence |].
      intros [?|?]%elem_of_app; [by apply Hr1 | by apply Hr2]. }
  specialize (Hok2 eq_refl).
  destruct (sync_and_run_spec i c2) as (n3 & Hl3 & Ha3 & Hreg3 & Hok3 & Herr3).
  exists (n1 ++ n2 ++ n3). split; [by rewrite Hl3, Hl2, Hl1, <- !app_assoc |].
  rewrite !handlers_added_app, Ha1, Ha3, Hreg3, Nat.add_0_r. split.
  - destruct Hreg2 as [[? ?] | (? & ? & ?)]; [left | right]; split; try congruence; done.
  - split.
    + intros Hnone. split; [by apply Hok3 | by right].
    + intros Hsome. destruct (Herr3 Hsome) as [Hst3 Hr3]. split; [congruence |].
      intros [?|[?|?]%elem_of_app]%elem_of_app; [by apply Hr1 | by apply Hr2 | by apply Hr3].
Qed.

(** What holds of every controller that starts and stops lead to. *)
Lemma reachable_invariant c :
  reachable c ->
  (Lifecycle.handlers_added (Lifecycle.log c) <= 1)%nat
  /\ (is_Some (Lifecycle.registration c)
      <-> Lifecycle.handlers_added (Lifecycle.log c) = 1%nat)
  /\ (Lifecycle.started c = true -> is_Some (Lifecycle.registration c)).
Proof.
  induction 1 as [c (Hst & Hreg & Hlog) | c _ (Hle & Hiff & Hs) | c _ (Hle & Hiff & Hs)].
  - rewrite Hst, Hreg, Hlog. cbn. split; [lia |]. split; [| done].
    split; [by intros [? [=]] | done].
  - destruct (Start_cases c) as (new & Hl & Hreg & Hok & Herr).
    rewrite Hl, handlers_added_app.
    assert (Hstarted : Lifecycle.started (Start c).2 = true ->
                       Lifecycle.started c = true
                       \/ is_Some (Lifecycle.registration (Start c).2)).
    { intros Hst. destruct ((Start c).1) as [e|] eqn:Hres.
      - destruct (Herr (mk_is_Some _ _ eq_refl)) as [Hf _]. congruence.
      - by destruct (Hok eq_refl). }
    destruct Hreg as [[Hsame Hzero] | (Hnone & Hsome & Hone)].
    + rewrite Hsame, Hzero, Nat.add_0_r. split; [done |]. split; [done |].
      intros Hst. destruct (Hstarted Hst) as [Hc | Hr]; [by apply Hs |].
      by rewrite <- Hsame.
    + assert (Lifecycle.handlers_added (Lifecycle.log c) = 0%nat) as ->.
      { assert (Lifecycle.handlers_added (Lifecycle.log c) <> 1%nat); [| lia].
        intros E. apply Hiff in E. rewrite Hnone in E. by destruct E. }
      rewrite Hone. cbn. split; [lia |]. done.
  - unfold Lifecycle.run_exit.
    cbn [Lifecycle.log Lifecycle.registration Lifecycle.started].
    rewrite handlers_added_app.
    change (Lifecycle.handlers_added [Lifecycle.EvRemoveEventHandler]) with 0%nat.
    rewrite Nat.add_0_r. done.
Qed.

(** X23. However often a controller is started, fails to start, stops and
    is started again, its event handler is added to the informer at most
    once: the registration is kept once it is made, also after the exit of
    [run] has removed the handler from the informer, so a later [Start]
    adds none. A [Start] that returns nil leaves the controller started
    with a registration; a [Start] that returns an error leaves it not
    started and has not launched [run]. *)
Theorem Start_adds_handler_once c :
  reachable c ->
  (Lifecycle.handlers_added (Lifecycle.log c) <= 1)%nat
  /\ (is_Some (Lifecycle.registration c)
      <-> Lifecycle.handlers_added (Lifecycle.log c) = 1%nat)
  /\ exists new,
      Lifecycle.log (Start c).2 = Lifecycle.log c ++ new
      /\ (is_Some (Lifecycle.registration c) -> Lifecycle.handlers_added new = 0%nat)
      /\ ((Start c).1 = None ->
          Lifecycle.started (Start c).2 = true
          /\ is_Some (Lifecycle.registration (Start c).2))
      /\ (is_Some (Start c).1 ->
          Lifecycle.started (Start c).2 = false /\ (Lifecycle.EvGoRun ∉ new)).
Proof.
  intros Hreach.
  destruct (reachable_invariant c Hreach) as (Hle & Hiff & Hs).
  split; [done |]. split; [done |].
  destruct (reachable_invariant _ (Lifecycle.reachable_Start _ _ _ _ c Hreach))
    as (_ & _ & Hs').
  destruct (Start_cases c) as (new & Hl & Hreg & Hok & Herr).
  exists new. split; [done |]. split; [| split; [| done]].
  - intros [reg Hsome]. destruct Hreg as [[_ ?] | (Hnone & _)]; [done | congruence].
  - intros Hnone. destruct (Hok Hnone) as [Hst _]. split; [done | by apply Hs'].
Qed.
End ControllerLifecycle.

Lemma Start_adds_handler_once_witness :
  Lifecycle.log Lifecycle.restarted
  = [Lifecycle.EvGetInformerForKind; Lifecycle.EvAddEventHandler true;
     Lifecycle.EvWaitForCacheSync true; Lifecycle.EvGoRun;
     Lifecycle.EvRemoveEventHandler;
     Lifecycle.EvWaitForCacheSync true; Lifecycle.EvGoRun]
  /\ (Lifecycle.handlers_added (Lifecycle.log Lifecycle.restarted) <= 1)%nat.
Proof.
  split; [reflexivity |].
  apply (Start_adds_handler_once Lifecycle.ready_informer Lifecycle.ready_handler
           Lifecycle.synced Lifecycle.wait_synced Lifecycle.restarted).
  unfold Lifecycle.restarted.
  apply Lifecycle.reachable_Start, Lifecycle.reachable_run_exit, Lifecycle.reachable_Start,
    Lifecycle.reachable_fresh.
  by repeat split.
Defined.
